(** * ft.dk_video: manifest parsing, time-windowed segment selection,
      download and concatenation

    A shallow embedding of [ft.dk_video.py].  Python [str] values are Rocq
    strings (code points below 256); the dicts built by [parse_m3u8_file]
    are records with an optional ['duration'] key; the file system is a
    finite map from paths to contents; the network, the working
    directory, the ffmpeg binary and the progress bar of [tqdm] are an
    explicit environment; [sys.exit] and raised exceptions are outcomes
    of a small state-and-error monad.

    Python floats are kept behind an interface ([PyFloat]): every result
    on the control flow of the program holds for any implementation of
    it, and the floats of the program are its instance [binary64], IEEE
    binary64 as Rocq's primitive floats have it.  Results that need
    arithmetic laws name the laws they use. *)

From Stdlib Require Import ZArith QArith Lqa Floats Ascii String List Bool Lia.
From stdpp Require Import base option list gmap strings pretty.

Local Open Scope Z_scope.
Local Open Scope list_scope.
Local Open Scope stdpp_scope.

(** ** Python's string methods, on strings of code points below 256 *)

Module Str.

(** [s.startswith(prefix)] *)
Definition startswith (prefix s : string) : bool := String.prefix prefix s.

(** [s.split(sep)] for a one-character separator: never empty. *)
Fixpoint split (sep : ascii) (s : string) : list string :=
  match s with
  | EmptyString => [EmptyString]
  | String c rest =>
      if Ascii.eqb c sep then EmptyString :: split sep rest
      else match split sep rest with
           | [] => [String c EmptyString]
           | w :: ws => String c w :: ws
           end
  end.

(** The line boundaries of [str.splitlines] below 256:
    LF, VT, FF, CR, FS, GS, RS and NEL. *)
Definition is_linebreak (c : ascii) : bool :=
  let n := N_of_ascii c in
  ((10 <=? n) && (n <=? 13) || (28 <=? n) && (n <=? 30) || (n =? 133))%N.

(** [s.splitlines()]: CR LF is one boundary, and a final boundary
    opens no empty last line. *)
Fixpoint splitlines (s : string) : list string :=
  match s with
  | EmptyString => []
  | String c rest =>
      if is_linebreak c then
        EmptyString ::
          match rest with
          | String c' rest' =>
              if (Ascii.eqb c "013" && Ascii.eqb c' "010")%bool
              then splitlines rest'
              else splitlines rest
          | EmptyString => []
          end
      else match splitlines rest with
           | [] => [String c EmptyString]
           | l :: ls => String c l :: ls
           end
  end.

(** The characters [str.isspace] accepts below 256. *)
Definition is_space (c : ascii) : bool :=
  let n := N_of_ascii c in
  ((9 <=? n) && (n <=? 13) || (28 <=? n) && (n <=? 32)
   || (n =? 133) || (n =? 160))%N.

Fixpoint lstrip (s : string) : string :=
  match s with
  | EmptyString => EmptyString
  | String c rest => if is_space c then lstrip rest else s
  end.

Fixpoint rstrip (s : string) : string :=
  match s with
  | EmptyString => EmptyString
  | String c rest =>
      match rstrip rest with
      | EmptyString => if is_space c then EmptyString else String c EmptyString
      | r => String c r
      end
  end.

(** [s.strip()] *)
Definition strip (s : string) : string := rstrip (lstrip s).

(** [c in s] for a character [c]. *)
Fixpoint contains (c : ascii) (s : string) : bool :=
  match s with
  | EmptyString => false
  | String c' rest => Ascii.eqb c' c || contains c rest
  end.

(** [''.join(parts)] *)
Definition join (parts : list string) : string :=
  fold_right String.append EmptyString parts.

(** [sep.join(parts)] *)
Fixpoint join_with (sep : string) (parts : list string) : string :=
  match parts with
  | [] => EmptyString
  | [part] => part
  | part :: parts => part +:+ sep +:+ join_with sep parts
  end.

(** The characters [str.isprintable] accepts below 256: the ASCII ones
    from the space to the tilde, and those from 161 on but the soft
    hyphen. *)
Definition is_printable (c : ascii) : bool :=
  let n := N_of_ascii c in
  ((32 <=? n) && (n <=? 126) || (161 <=? n) && negb (n =? 173))%N.

Definition hex_digit (n : N) : ascii :=
  ascii_of_N (if (n <? 10)%N then 48 + n else 87 + n).

(** One character of [repr(s)] inside the quotes [quote]. *)
Definition escape (quote c : ascii) : string :=
  let backslash := "092"%char in
  let n := N_of_ascii c in
  if (Ascii.eqb c quote || Ascii.eqb c backslash)%bool
  then String backslash (String c EmptyString)
  else if Ascii.eqb c "009" then String backslash "t"
  else if Ascii.eqb c "010" then String backslash "n"
  else if Ascii.eqb c "013" then String backslash "r"
  else if is_printable c then String c EmptyString
  else String backslash
         (String "x" (String (hex_digit (n / 16)) (String (hex_digit (n mod 16)) EmptyString))).

Fixpoint escaped (quote : ascii) (s : string) : string :=
  match s with
  | EmptyString => EmptyString
  | String c rest => escape quote c +:+ escaped quote rest
  end.

(** [repr(s)]: in single quotes, or in double quotes when [s] holds a
    single quote and no double quote. *)
Definition repr (s : string) : string :=
  let quote :=
    if (contains "'" s && negb (contains "034" s))%bool then "034"%char else "'"%char in
  String quote (escaped quote s) +:+ String quote EmptyString.

End Str.

(** ** Floating-point numbers behind an interface *)

(** What the program asks of Python's [float]: the conversion of the
    integer literals [0], [60] and [3600], [+], [-], [*], the
    comparisons [<] and [<=] ([a > b] is [b < a]), the built-in [sum] of
    a list of floats, and the constructor [float(s)] on a string, [None]
    standing for its [ValueError]. *)
Class PyFloat (F : Type) : Type := {
  of_int : Z -> F;
  f_add : F -> F -> F;
  f_sub : F -> F -> F;
  f_mul : F -> F -> F;
  f_lt : F -> F -> bool;
  f_le : F -> F -> bool;
  f_sum : list F -> F;
  float_of_str : string -> option F
}.

Declare Scope pyfloat_scope.
Delimit Scope pyfloat_scope with F.
Infix "+" := f_add : pyfloat_scope.
Infix "-" := f_sub : pyfloat_scope.
Infix "*" := f_mul : pyfloat_scope.
Infix "<?" := f_lt : pyfloat_scope.
Infix "<=?" := f_le : pyfloat_scope.

(** *** The literals [float()] accepts

    [floatvalue ::= [sign] (floatnumber | "inf" | "infinity" | "nan")],
    letters in either case, digits optionally separated by single
    underscores, white space around the literal ignored. *)
Module Literal.

(** The white space [float()] ignores around a literal: the six of C's
    [isspace], and NEL and the no-break space, which it turns into
    spaces first.  The separators 28 to 31, which [str.strip] removes,
    are not among them. *)
Definition is_space (c : ascii) : bool :=
  let n := N_of_ascii c in
  ((9 <=? n) && (n <=? 13) || (n =? 32) || (n =? 133) || (n =? 160))%N.

Fixpoint lstrip (s : string) : string :=
  match s with
  | EmptyString => EmptyString
  | String c rest => if is_space c then lstrip rest else s
  end.

Fixpoint rstrip (s : string) : string :=
  match s with
  | EmptyString => EmptyString
  | String c rest =>
      match rstrip rest with
      | EmptyString => if is_space c then EmptyString else String c EmptyString
      | r => String c r
      end
  end.

Definition strip (s : string) : string := rstrip (lstrip s).

Inductive value :=
| Finite (negative : bool) (mantissa : N) (exp10 : Z)
| Infinity (negative : bool)
| NaN.

Definition digit (c : ascii) : option N :=
  let n := N_of_ascii c in
  if ((48 <=? n) && (n <=? 57))%N then Some (n - 48)%N else None.

(** [digitpart ::= digit (["_"] digit)*], the longest one at the head
    of [s]; no digit at all when [s] starts with none. *)
Fixpoint digitpart (s : string) : list N * string :=
  match s with
  | EmptyString => ([], s)
  | String c rest =>
      match digit c with
      | None => ([], s)
      | Some d =>
          match rest with
          | String "_"%char (String c' _ as rest') =>
              match digit c' with
              | Some _ => let '(ds, r) := digitpart rest' in (d :: ds, r)
              | None => ([d], rest)
              end
          | _ => let '(ds, r) := digitpart rest in (d :: ds, r)
          end
      end
  end.

Definition sign (s : string) : bool * string :=
  match s with
  | String "-"%char rest => (true, rest)
  | String "+"%char rest => (false, rest)
  | _ => (false, s)
  end.

Definition decimal (ds : list N) : N :=
  fold_left (fun acc d => (10 * acc + d)%N) ds 0%N.

(** [exponent ::= ("e" | "E") [sign] digitpart], or nothing. *)
Definition exponent (s : string) : option Z :=
  match s with
  | EmptyString => Some 0
  | String c rest =>
      if (Ascii.eqb c "e" || Ascii.eqb c "E")%bool then
        let '(neg, rest) := sign rest in
        match digitpart rest with
        | ((_ :: _) as ds, EmptyString) =>
            let e := Z.of_N (decimal ds) in Some (if neg then - e else e)
        | _ => None
        end
      else None
  end.

(** [floatnumber ::= ([digitpart] "." digitpart | digitpart ["."]) [exponent]] *)
Definition floatnumber (negative : bool) (s : string) : option value :=
  let '(int_part, rest) := digitpart s in
  let '(frac_part, rest) :=
    match rest with
    | String "."%char rest' => digitpart rest'
    | _ => ([], rest)
    end in
  match int_part ++ frac_part with
  | [] => None
  | ds =>
      e ← exponent rest;
      Some (Finite negative (decimal ds) (e - Z.of_nat (length frac_part)))
  end.

Definition lower (c : ascii) : ascii :=
  let n := N_of_ascii c in
  if ((65 <=? n) && (n <=? 90))%N then ascii_of_N (n + 32) else c.

Fixpoint lowercase (s : string) : string :=
  match s with
  | EmptyString => EmptyString
  | String c rest => String (lower c) (lowercase rest)
  end.

Definition parse (s : string) : option value :=
  let '(negative, body) := sign (strip s) in
  let word := lowercase body in
  if (String.eqb word "inf" || String.eqb word "infinity")%bool
  then Some (Infinity negative)
  else if String.eqb word "nan" then Some NaN
  else floatnumber negative body.

End Literal.

(** *** IEEE binary64: Python's own floats

    Rocq's primitive floats are binary64 with round-to-nearest-even, as
    CPython's are.  A decimal literal [m * 10^e] is rounded once, from its
    exact value, with the rounding functions of the specification of the
    primitive floats. *)
Module Binary64.

Definition of_spec (x : SpecFloat.spec_float) : float := FloatOps.SF2Prim x.

Definition of_Z (z : Z) : float :=
  of_spec (SpecFloat.binary_normalize FloatOps.prec FloatOps.emax z 0 false).

Definition of_decimal (negative : bool) (m : N) (e : Z) : float :=
  match m, e with
  | N0, _ => if negative then PrimFloat.neg_zero else PrimFloat.zero
  | Npos p, Zneg k =>
      let '(q, e2, loc) :=
        SpecFloat.SFdiv_core_binary FloatOps.prec FloatOps.emax
          (Zpos p) 0 (Zpos (10 ^ k)) 0 in
      of_spec (SpecFloat.binary_round_aux FloatOps.prec FloatOps.emax negative q e2 loc)
  | Npos p, Zpos k =>
      of_spec (SpecFloat.binary_round FloatOps.prec FloatOps.emax negative
                 (p * 10 ^ k) 0)
  | Npos p, Z0 =>
      of_spec (SpecFloat.binary_round FloatOps.prec FloatOps.emax negative p 0)
  end.

Definition of_str (s : string) : option float :=
  match Literal.parse s with
  | Some (Literal.Finite negative m e) => Some (of_decimal negative m e)
  | Some (Literal.Infinity negative) =>
      Some (if negative then PrimFloat.neg_infinity else PrimFloat.infinity)
  | Some Literal.NaN => Some PrimFloat.nan
  | None => None
  end.

(** [sum] from the integer [0], left to right, as CPython added floats
    before version 3.12; later versions compensate the rounding errors,
    and give the same result whenever the additions are exact. *)
Definition sum (durations : list float) : float :=
  fold_left PrimFloat.add durations (of_Z 0).

(** A zero or a finite number: no infinity and no NaN. *)
Definition SFfinite (x : SpecFloat.spec_float) : bool :=
  match x with
  | SpecFloat.S754_zero _ | SpecFloat.S754_finite _ _ _ => true
  | _ => false
  end.

Definition finite (x : float) : bool := SFfinite (FloatOps.Prim2SF x).

(** The number a finite float stands for, counted in units of
    [2^-1074], the least positive binary64: an integer. *)
Definition SFulps (x : SpecFloat.spec_float) : Z :=
  match x with
  | SpecFloat.S754_finite s m e => (if s then Zneg m else Zpos m) * 2 ^ (e + 1074)
  | _ => 0
  end.

Definition ulps (x : float) : Z := SFulps (FloatOps.Prim2SF x).

(** The number itself: [value 4.0] is [4]. *)
Definition value (x : float) : Q := inject_Z (ulps x) * (1 # 2 ^ 1074).

End Binary64.

#[export] Instance binary64 : PyFloat float := {
  of_int := Binary64.of_Z;
  f_add := PrimFloat.add;
  f_sub := PrimFloat.sub;
  f_mul := PrimFloat.mul;
  f_lt := PrimFloat.ltb;
  f_le := PrimFloat.leb;
  f_sum := Binary64.sum;
  float_of_str := Binary64.of_str
}.

(** ** Exceptions and outcomes *)

Inductive value_error :=
| NotAFloat (s : string)                (* float(s) rejects s *)
| NotEnoughValues (expected got : nat)  (* unpacking found too few items *)
| TooManyValues (expected : nat)        (* unpacking found one item more *)
| Message (text : string).              (* raised by a library, with this text *)

Inductive exn :=
| ValueError (why : value_error)
| KeyError (key : string)
| IndexError
| RequestException (e : string)
| IsADirectoryError (path : string)     (* open() on a directory *)
| OverflowError (text : string).        (* int() of an infinite float *)

(** [str(e)] of a [ValueError], as CPython words it: [float()] names
    the rejected string by its [repr]. *)
Definition str_value_error (why : value_error) : string :=
  match why with
  | NotAFloat s => "could not convert string to float: " +:+ Str.repr s
  | NotEnoughValues expected got =>
      "not enough values to unpack (expected " +:+ pretty expected
      +:+ ", got " +:+ pretty got +:+ ")"
  | TooManyValues expected =>
      "too many values to unpack (expected " +:+ pretty expected +:+ ")"
  | Message text => text
  end.

(** What the progress bar of [tqdm] raises when it formats its line:
    the error of [int()] on a count, a rate or a remaining time that is
    NaN ([ValueError]) or infinite ([OverflowError]), with its text. *)
Inductive bar_error :=
| BarValueError (text : string)
| BarOverflowError (text : string).

Definition bar_exn (e : bar_error) : exn :=
  match e with
  | BarValueError text => ValueError (Message text)
  | BarOverflowError text => OverflowError text
  end.

(** How a call ends: it returns, raises, or [sys.exit(code)] is called. *)
Inductive outcome (A : Type) :=
| Return (a : A)
| Raise (e : exn)
| SysExit (code : Z).
Arguments Return {A} a.
Arguments Raise {A} e.
Arguments SysExit {A} code.

Definition obind {A B} (r : outcome A) (k : A -> outcome B) : outcome B :=
  match r with
  | Return a => k a
  | Raise e => Raise e
  | SysExit code => SysExit code
  end.

Fixpoint omap {A B} (f : A -> outcome B) (l : list A) : outcome (list B) :=
  match l with
  | [] => Return []
  | a :: l => obind (f a) (fun b => obind (omap f l) (fun bs => Return (b :: bs)))
  end.

(** ** The world the program runs in *)

(** A response of [requests.get]: its [text]; the chunks [iter_content]
    yields; and, when the stream breaks after them, the text of the
    [RequestException] raised in the middle of the loop over the chunks. *)
Record response := {
  text : string;
  iter_content : list string;
  stream_error : option string
}.

(** The environment: what the [n]-th request returns ([inl e] is a
    [RequestException] with text [e], raised by [requests.get] or by
    [raise_for_status]); [os.path.abspath]; the ffmpeg binary, absent
    ([None]) or run on the file system, giving its exit status and the
    files it leaves; and the progress bar, which writes to the standard
    error stream and is seen here only by what it raises:
    [tqdm_update n] is raised by [progress_bar.update] and
    [tqdm_close n] by the closing of the bar at the end of the [with]
    block, when [n] requests have been sent so far.  Whether the bar
    redraws, and so whether it fails, depends on the durations and on
    the time that has passed. *)
Record environment := {
  requests_get : nat -> string -> string + response;
  abspath : string -> string;
  ffmpeg : option (list string -> gmap string string -> Z * gmap string string);
  tqdm_update : nat -> option bar_error;
  tqdm_close : nat -> option bar_error
}.

Record world := {
  files : gmap string string;      (* regular files, by path *)
  stdout : list string;            (* printed lines, oldest first *)
  requests : list string;          (* URLs requested, oldest first *)
  commands : list (list string)    (* subprocess command lines *)
}.

Definition M (A : Type) : Type := world -> outcome A * world.

Definition ret {A} (a : A) : M A := fun w => (Return a, w).
Definition bind {A B} (m : M A) (k : A -> M B) : M B :=
  fun w =>
    match m w with
    | (Return a, w') => k a w'
    | (Raise e, w') => (Raise e, w')
    | (SysExit code, w') => (SysExit code, w')
    end.
Definition lift {A} (r : outcome A) : M A := fun w => (r, w).
Definition sys_exit {A} (code : Z) : M A := fun w => (SysExit code, w).

Notation "x <- m ;; k" := (bind m (fun x => k))
  (at level 100, m at next level, right associativity).
Notation "m ;; k" := (bind m (fun _ => k))
  (at level 100, right associativity).

(** The world after a [print], after a file was written, and after a
    request was sent. *)
Definition printed (line : string) (w : world) : world :=
  {| files := files w; stdout := stdout w ++ [line];
     requests := requests w; commands := commands w |}.

Definition written (path content : string) (w : world) : world :=
  {| files := <[path := content]> (files w); stdout := stdout w;
     requests := requests w; commands := commands w |}.

Definition requested (url : string) (w : world) : world :=
  {| files := files w; stdout := stdout w;
     requests := requests w ++ [url]; commands := commands w |}.

Definition print (line : string) : M unit := fun w => (Return tt, printed line w).

Definition write_file (path content : string) : M unit :=
  fun w => (Return tt, written path content w).

Definition get (env : environment) (url : string) : M (string + response) :=
  fun w => (Return (requests_get env (length (requests w)) url), requested url w).

(** [open(path, 'wb')] on the flat file system: a path with a NUL
    character is refused with [ValueError] before the system is asked,
    and a path whose last component is empty, [.] or [..] names a
    directory.  Other failures of the file system (rights, space, a
    name too long for it) are states of the machine and are left out. *)
Definition open_wb (path : string) : outcome unit :=
  let name := List.last (Str.split "/" path) "" in
  if Str.contains "000" path then Raise (ValueError (Message "embedded null byte"))
  else if (String.eqb name "" || String.eqb name "." || String.eqb name "..")%bool
  then Raise (IsADirectoryError path)
  else Return tt.

(** [progress_bar.update(...)] *)
Definition update (env : environment) : M unit :=
  fun w =>
    match tqdm_update env (length (requests w)) with
    | Some e => (Raise (bar_exn e), w)
    | None => (Return tt, w)
    end.

(** [with tqdm(...) as progress_bar: body].  The bar is closed however
    the body ends; an exception raised by the closing takes the place of
    the exception or the [sys.exit] that was on its way.  A bar that
    saw no request has count 0: it shows no rate and no remaining time,
    and its closing raises nothing. *)
Definition with_progress_bar {A} (env : environment) (body : M A) : M A :=
  fun w =>
    let '(r, w') := body w in
    if (length (requests w') =? length (requests w))%nat then (r, w')
    else match tqdm_close env (length (requests w')) with
         | Some e => (Raise (bar_exn e), w')
         | None => (r, w')
         end.

(** ** The program *)

Section Program.

Context {F : Type} `{PyFloat F}.
Variable env : environment.

Local Open Scope pyfloat_scope.

(** A dict appended by [parse_m3u8_file]: ['url'] is always set,
    ['duration'] only when a tag came before the line. *)
Record segment := { duration : option F; url : string }.

(** [float(line.split(':')[1].split(',')[0])] *)
Definition extinf_duration (line : string) : outcome F :=
  match Str.split ":" line !! 1%nat with
  | None => Raise IndexError
  | Some field =>
      match Str.split "," field with
      | [] => Raise IndexError
      | number :: _ =>
          match float_of_str number with
          | Some duration => Return duration
          | None => Raise (ValueError (NotAFloat number))
          end
      end
  end.

(** The loop of [parse_m3u8_file].  Between two lines the dict
    [current_segment] is empty or holds ['duration'] alone. *)
Fixpoint parse_lines (lines : list string) (current_segment : option F)
    (segment_urls : list segment) : outcome (list segment) :=
  match lines with
  | [] => Return segment_urls
  | line :: lines =>
      if Str.startswith "#EXTINF:" line then
        obind (extinf_duration line) (fun duration =>
        parse_lines lines (Some duration) segment_urls)
      else if negb (Str.startswith "#" line) then
        parse_lines lines None
          (segment_urls ++ [{| duration := current_segment; url := Str.strip line |}])
      else parse_lines lines current_segment segment_urls
  end.

Definition parse_m3u8_file (m3u8_content : string) : outcome (list segment) :=
  parse_lines (Str.splitlines m3u8_content) None [].

(** [h, m, s = map(float, time_str.split(':'))]: the unpacking draws
    items one by one and asks for a fourth to detect a surplus, so at
    most four fields are converted, in order. *)
Definition convert_time_to_seconds (time_str : string) : outcome F :=
  obind (omap (fun field =>
                 match float_of_str field with
                 | Some x => Return x
                 | None => Raise (ValueError (NotAFloat field))
                 end)
              (take 4 (Str.split ":" time_str))) (fun values =>
  match values with
  | [h; m; s] => Return (h * of_int 3600 + m * of_int 60 + s)
  | _ :: _ :: _ :: _ :: _ => Raise (ValueError (TooManyValues 3))
  | _ => Raise (ValueError (NotEnoughValues 3 (length values)))
  end).

(** A dict known to hold both keys. *)
Record descriptor := { segment_url : string; segment_duration : F }.

(** [segment['duration']] *)
Definition with_duration (s : segment) : outcome descriptor :=
  match duration s with
  | Some d => Return {| segment_url := url s; segment_duration := d |}
  | None => Raise (KeyError "duration")
  end.

(** [segment_url.split('/')[-1].split('?')[0]]: the last path component
    without its query string. *)
Definition file_name (segment_url : string) : string :=
  List.hd "" (Str.split "?" (List.last (Str.split "/" segment_url) "")).

(** [os.path.join('segments', ...)] of it, on a POSIX system. *)
Definition segment_name (segment_url : string) : string :=
  "segments/" +:+ file_name segment_url.

(** The two tests at the head of the loop body (lines 102 to 106). *)
Inductive action := Skip | Stop | Fetch.

Definition loop_action (start_time end_time current_time duration : F) : action :=
  if current_time + duration <? start_time then Skip
  else if end_time <? current_time then Stop
  else Fetch.

(** The file written from a streamed response: its non-empty chunks. *)
Definition body (r : response) : string :=
  Str.join (filter (fun chunk => chunk <> "") (iter_content r)).

(** The loop of [download_segments] (lines 97 to 123).  The file is
    opened once the request is answered; a stream that breaks leaves the
    chunks that came in the file and raises outside the [try]. *)
Fixpoint download_loop (start_time end_time : F) (segment_urls : list descriptor)
    (current_time : F) (segment_files : list string) : M (list string) :=
  match segment_urls with
  | [] => ret segment_files
  | segment :: segment_urls =>
      let segment_url := segment_url segment in
      let segment_duration := segment_duration segment in
      let segment_name := segment_name segment_url in
      match loop_action start_time end_time current_time segment_duration with
      | Skip =>
          download_loop start_time end_time segment_urls
            (current_time + segment_duration) segment_files
      | Stop => ret segment_files
      | Fetch =>
          let segment_files := segment_files ++ [segment_name] in
          segment_response <- get env segment_url ;;
          match segment_response with
          | inl e =>
              print ("Error downloading segment " +:+ segment_url +:+ ": " +:+ e) ;;
              sys_exit 1
          | inr segment_response =>
              lift (open_wb segment_name) ;;
              write_file segment_name (body segment_response) ;;
              match stream_error segment_response with
              | Some e => lift (Raise (RequestException e))
              | None =>
                  update env ;;
                  download_loop start_time end_time segment_urls
                    (current_time + segment_duration) segment_files
              end
          end
      end
  end.

(** [if start_time:] holds for a string that is given and not empty. *)
Definition given (arg : option string) : option string :=
  match arg with
  | Some "" | None => None
  | Some s => Some s
  end.

(** Line 81 reads ['duration'] of every dict and raises [KeyError] at
    the first that lacks it; past it the loop reads dicts that hold
    both keys. *)
Definition download_segments (segment_urls : list segment)
    (start_time end_time : option string) : M (list string) :=
  segment_urls <- lift (omap with_duration segment_urls) ;;
  let total_duration := f_sum (map segment_duration segment_urls) in
  let current_time := of_int 0 in
  start_time <- lift (match given start_time with
                      | Some s => convert_time_to_seconds s
                      | None => Return (of_int 0)
                      end) ;;
  end_time <- lift (match given end_time with
                    | Some s => convert_time_to_seconds s
                    | None => Return total_duration
                    end) ;;
  with_progress_bar env
    (download_loop start_time end_time segment_urls current_time []).

Definition download_m3u8_file (m3u8_url : string) : M string :=
  response <- get env m3u8_url ;;
  match response with
  | inr response => ret (text response)
  | inl e => print ("Error downloading M3U8 file: " +:+ e) ;; sys_exit 1
  end.

(** One [f.write] of [create_concat_file]. *)
Definition concat_line (segment : string) : string :=
  "file '" +:+ abspath env segment +:+ "'" +:+ String "010" "".

(** The text written by the loop of [create_concat_file]. *)
Definition concat_text (segment_files : list string) : string :=
  fold_left (fun written segment => written +:+ concat_line segment) segment_files "".

Definition create_concat_file (segment_files : list string) : M string :=
  let concat_file := "segments.txt" in
  write_file concat_file (concat_text segment_files) ;;
  ret concat_file.

Definition ffmpeg_missing : string :=
  "Error: ffmpeg command not found. Make sure ffmpeg is installed and added to your PATH.".

Definition ffmpeg_command (concat_file output_file : string) : list string :=
  ["ffmpeg"; "-f"; "concat"; "-safe"; "0"; "-i"; concat_file; "-fflags"; "+igndts";
   "-c:v"; "libx264"; "-c:a"; "aac"; output_file].

(** [call] raises [FileNotFoundError] when there is no ffmpeg; its
    return value, ffmpeg's exit status, is dropped. *)
Definition combine_segments (concat_file output_file : string) : M unit :=
  match ffmpeg env with
  | Some run =>
      fun w => (Return tt,
                {| files := (run (ffmpeg_command concat_file output_file) (files w)).2;
                   stdout := stdout w; requests := requests w;
                   commands := commands w ++ [ffmpeg_command concat_file output_file] |})
  | None => print ffmpeg_missing ;; sys_exit 1
  end.

(** A path that lies in the directory [dir], however it is spelled:
    its absolute form goes on from the one of [dir]. *)
Definition inside (dir path : string) : bool :=
  Str.startswith (abspath env dir +:+ "/") (abspath env path).

(** Two spellings of one path. *)
Definition same_path (path path' : string) : bool :=
  String.eqb (abspath env path) (abspath env path').

(** What [cleanup_files] removes: what lies in [segments], and the
    concatenation manifest. *)
Definition removed (concat_file path : string) : bool :=
  inside "segments" path || same_path path concat_file.

(** [shutil.rmtree('segments')] and [os.remove(concat_file)]; their
    own failures (a path already gone) are not modelled. *)
Definition cleanup_files (segment_files : list string) (concat_file : string) : M unit :=
  fun w => (Return tt,
            {| files := filter (fun entry => ¬ removed concat_file entry.1) (files w);
               stdout := stdout w; requests := requests w; commands := commands w |}).

(** [create_segments_directory] only makes the directory; the file map
    has no directories, so it leaves the world as it is. *)
Definition create_segments_directory : M unit := ret tt.

Definition download_video (m3u8_url output_file : string)
    (start_time end_time : option string) : M unit :=
  create_segments_directory ;;
  m3u8_content <- download_m3u8_file m3u8_url ;;
  segment_urls <- lift (parse_m3u8_file m3u8_content) ;;
  segment_files <- download_segments segment_urls start_time end_time ;;
  concat_file <- create_concat_file segment_files ;;
  combine_segments concat_file output_file ;;
  cleanup_files segment_files concat_file ;;
  print (String "010" "Video saved as " +:+ output_file
         +:+ " and temporary files cleaned up.").

(** The [__main__] block after argument parsing: a [ValueError] is
    printed and turned into [sys.exit(1)]; other exceptions escape. *)
Definition main (m3u8_url output_file : string) (start_time end_time : option string)
    : M unit :=
  fun w =>
    match download_video m3u8_url output_file start_time end_time w with
    | (Raise (ValueError ve), w') =>
        (print ("Error: " +:+ str_value_error ve) ;; sys_exit 1) w'
    | r => r
    end.

(** The exit status of the process: an uncaught exception ends the
    interpreter with status 1. *)
Definition exit_status {A} (r : outcome A) : Z :=
  match r with
  | Return _ => 0
  | SysExit code => code
  | Raise _ => 1
  end.

End Program.


(** ** Segment selection without its effects *)

Section Selection.

Context {F : Type} `{PyFloat F}.

Local Open Scope pyfloat_scope.

(** The descriptors [download_loop] fetches, in order: its two tests
    and its clock, with the request and the file left out. *)
Fixpoint build_plan (start_time end_time : F) (segment_urls : list (descriptor (F:=F)))
    (current_time : F) : list descriptor :=
  match segment_urls with
  | [] => []
  | segment :: segment_urls =>
      match loop_action start_time end_time current_time (segment_duration segment) with
      | Skip =>
          build_plan start_time end_time segment_urls
            (current_time + segment_duration segment)
      | Stop => []
      | Fetch =>
          segment :: build_plan start_time end_time segment_urls
                       (current_time + segment_duration segment)
      end
  end.

(** [current_time] after the loop has gone through [passed], whatever
    it did with each of them. *)
Definition time_after (current_time : F) (passed : list (descriptor (F:=F))) : F :=
  fold_left f_add (map segment_duration passed) current_time.

(** The loop goes through all of [passed] without reaching [break]. *)
Fixpoint passes (start_time end_time : F) (passed : list (descriptor (F:=F)))
    (current_time : F) : bool :=
  match passed with
  | [] => true
  | segment :: passed =>
      match loop_action start_time end_time current_time (segment_duration segment) with
      | Stop => false
      | _ => passes start_time end_time passed (current_time + segment_duration segment)
      end
  end.

End Selection.

(** ** The downloads of a plan *)

Section Downloads.

Context {F : Type} `{PyFloat F}.
Variable env : environment.

Local Open Scope pyfloat_scope.

Definition local_path (x : descriptor (F:=F)) : string := segment_name (segment_url x).

Definition segment_error (x : descriptor (F:=F)) (e : string) : string :=
  "Error downloading segment " +:+ segment_url x +:+ ": " +:+ e.

(** The loop body of [download_segments] past its two tests, run on
    every descriptor of a plan. *)
Fixpoint fetch_all (plan : list (descriptor (F:=F))) (segment_files : list string)
    : M (list string) :=
  match plan with
  | [] => ret segment_files
  | x :: plan =>
      segment_response <- get env (segment_url x) ;;
      match segment_response with
      | inl e => print (segment_error x e) ;; sys_exit 1
      | inr segment_response =>
          lift (open_wb (local_path x)) ;;
          write_file (local_path x) (body segment_response) ;;
          match stream_error segment_response with
          | Some e => lift (Raise (RequestException e))
          | None =>
              update env ;;
              fetch_all plan (segment_files ++ [local_path x])
          end
      end
  end.

(** The same under the progress bar. *)
Definition download_all (plan : list (descriptor (F:=F))) (segment_files : list string)
    : M (list string) :=
  with_progress_bar env (fetch_all plan segment_files).

(** The answer to the [k]-th request of a plan started in world [w]. *)
Definition reply (w : world) (k : nat) (x : descriptor (F:=F)) : string + response :=
  requests_get env (length (requests w) + k) (segment_url x).

(** The [k]-th descriptor of a plan goes through: its request is
    answered, its file can be opened, its stream does not break, and the
    progress bar takes the update. *)
Definition delivered (w : world) (k : nat) (x : descriptor (F:=F)) (r : response)
    : Prop :=
  reply w k x = inr r /\ stream_error r = None
  /\ open_wb (local_path x) = Return tt
  /\ tqdm_update env (length (requests w) + S k) = None.

(** The closing of the bar raises nothing after [attempts] requests of
    a plan started in world [w]. *)
Definition bar_closes (w : world) (attempts : nat) : Prop :=
  attempts <> 0%nat -> tqdm_close env (length (requests w) + attempts) = None.

(** The files after the descriptors of [plan] were fetched with
    requests numbered from [n], up to the first that fails. *)
Fixpoint stored (n : nat) (plan : list (descriptor (F:=F))) (fs : gmap string string)
    : gmap string string :=
  match plan with
  | [] => fs
  | x :: plan =>
      match requests_get env n (segment_url x), open_wb (local_path x) with
      | inr r, Return _ =>
          match stream_error r, tqdm_update env (S n) with
          | None, None => stored (S n) plan (<[local_path x := body r]> fs)
          | _, _ => <[local_path x := body r]> fs
          end
      | _, _ => fs
      end
  end.

End Downloads.

(** ** The time window *)

Section Window.

Context {F : Type} `{PyFloat F}.

(** The time strings of the specification: exactly three fields
    between colons, each one a literal [float()] reads. *)
Definition well_formed_time (time_str : string) (h m s : F) : Prop :=
  exists a b c : string,
    Str.split ":" time_str = [a; b; c]
    /\ float_of_str a = Some h /\ float_of_str b = Some m /\ float_of_str c = Some s.

(** The bounds [download_segments] computes at lines 84 to 92: a time
    string given and not empty is converted, a missing start is [0], a
    missing end the total duration. *)
Definition select_window (total_duration : F) (start_time end_time : option string)
    : outcome (F * F) :=
  obind (match given start_time with
         | Some s => convert_time_to_seconds s
         | None => Return (of_int 0)
         end) (fun start_time =>
  obind (match given end_time with
         | Some s => convert_time_to_seconds s
         | None => Return total_duration
         end) (fun end_time =>
  Return (start_time, end_time))).

End Window.

(** ** Laws of the clock

    What the contiguity of a plan needs of [+], [<] and [<=]: adding a
    non-negative number to a non-negative number does not decrease it,
    and the order is transitive.  They are proved below for binary64. *)
Class OrderedAdd (F : Type) `{PyFloat F} : Prop := {
  f_le_zero : (of_int 0 <=? of_int 0)%F = true;
  f_le_trans : forall a b c : F,
      (a <=? b)%F = true -> (b <=? c)%F = true -> (a <=? c)%F = true;
  f_le_lt_trans : forall a b c : F,
      (a <=? b)%F = true -> (b <? c)%F = true -> (a <? c)%F = true;
  f_add_nonneg : forall a d : F,
      (of_int 0 <=? a)%F = true -> (of_int 0 <=? d)%F = true ->
      (a <=? a + d)%F = true /\ (of_int 0 <=? a + d)%F = true
}.

(** No time from [t] on is below [start_time]. *)
Definition past_start {F : Type} `{PyFloat F} (start_time t : F) : Prop :=
  forall c : F, (t <=? c)%F = true -> (c <? start_time)%F = false.

(** The durations of a manifest are non-negative. *)
Definition nonnegative {F : Type} `{PyFloat F} (segment_urls : list (descriptor (F:=F)))
    : Prop :=
  Forall (fun x => (of_int 0 <=? segment_duration x)%F = true) segment_urls.

(** The duration of the first and of the last descriptor of a plan,
    [0] for the empty plan. *)
Definition first_duration {F : Type} `{PyFloat F} (plan : list (descriptor (F:=F))) : F :=
  from_option segment_duration (of_int 0) (head plan).

Definition last_duration {F : Type} `{PyFloat F} (plan : list (descriptor (F:=F))) : F :=
  from_option segment_duration (of_int 0) (last plan).

(** ** Runs whose clock does not round *)

(** The run of the loop from [current_time] adds without rounding: at
    every descriptor it skips or fetches, [current_time +
    segment_duration] is a finite number and is the sum of the two
    numbers. *)
Fixpoint exact_clock (start_time end_time : float)
    (segment_urls : list (descriptor (F:=float))) (current_time : float) : Prop :=
  match segment_urls with
  | [] => True
  | segment :: segment_urls =>
      match loop_action start_time end_time current_time (segment_duration segment) with
      | Stop => True
      | _ =>
          Binary64.finite (current_time + segment_duration segment)%float = true
          /\ (Binary64.value (current_time + segment_duration segment)%float
              == Binary64.value current_time + Binary64.value (segment_duration segment))%Q
          /\ exact_clock start_time end_time segment_urls
               (current_time + segment_duration segment)%float
      end
  end.

(** The numbers of a list of floats, added exactly. *)
Definition total_value (durations : list float) : Q :=
  fold_right (fun d acc => (Binary64.value d + acc)%Q) 0%Q durations.

(** ** Exceptions of the loop *)

(** What the loop over the segments can raise: the [RequestException]
    of a stream that breaks, the errors of [open], and the errors of the
    progress bar. *)
Definition loop_exn (e : exn) : Prop :=
  match e with
  | RequestException _ | IsADirectoryError _ | OverflowError _
  | ValueError (Message _) => True
  | _ => False
  end.

(** ** Stages of a run *)

(** The world a refused request for the segment [x] leaves, once
    [m3u8_url] and the URLs of [fetched] and of [x] were requested, the
    segments of [fetched] stored and [lines] printed. *)
Definition refused_world {F : Type} `{PyFloat F} (env : environment)
    (m3u8_url : string) (w : world) (fetched : list (descriptor (F:=F)))
    (x : descriptor (F:=F)) (lines : list string) : world :=
  {| files := stored env (S (length (requests w))) fetched (files w);
     stdout := stdout w ++ lines;
     requests := requests w ++ m3u8_url :: map segment_url fetched ++ [segment_url x];
     commands := commands w |}.

(** The manifest was fetched and parsed, and every dict holds a
    duration: [download_segments] gets as far as the time window. *)
Definition manifest_read {F : Type} `{PyFloat F} (env : environment)
    (m3u8_url : string) (w : world) (descriptors : list (descriptor (F:=F))) : Prop :=
  exists (response : response) (segment_urls : list segment),
    requests_get env (length (requests w)) m3u8_url = inr response
    /\ parse_m3u8_file (text response) = Return segment_urls
    /\ omap with_duration segment_urls = Return descriptors.


(** ** Paths of a POSIX system *)

Module Posix.

(** The slashes [os.path.normpath] keeps at the head of a path: two
    when there are exactly two, else one or none. *)
Definition initial_slashes (path : string) : string :=
  if Str.startswith "/" path then
    if (Str.startswith "//" path && negb (Str.startswith "///" path))%bool
    then "//" else "/"
  else "".

(** One round of the loop of [normpath] over the components. *)
Definition step (rooted : bool) (new_comps : list string) (comp : string)
    : list string :=
  if (String.eqb comp "" || String.eqb comp ".")%bool then new_comps
  else if (negb (String.eqb comp "..")
           || negb rooted && bool_decide (new_comps = [])
           || bool_decide (new_comps <> []) && String.eqb (List.last new_comps "") "..")%bool
  then new_comps ++ [comp]
  else removelast new_comps.

(** [os.path.normpath(path)] *)
Definition normpath (path : string) : string :=
  if String.eqb path "" then "."
  else
    let head := initial_slashes path in
    let comps :=
      fold_left (step (negb (String.eqb head ""))) (Str.split "/" path) [] in
    let result := head +:+ Str.join_with "/" comps in
    if String.eqb result "" then "." else result.

(** [os.path.abspath(path)] in the working directory [cwd]. *)
Definition abspath (cwd path : string) : string :=
  normpath (if Str.startswith "/" path then path else cwd +:+ "/" +:+ path).

End Posix.

(** ** Sample inputs *)

Definition nl : string := String "010" "".

(** A manifest text from its lines, each ended by a line feed. *)
Definition manifest (lines : list string) : string :=
  Str.join (map (fun line => line +:+ nl) lines).

Definition seg (segment_url : string) (segment_duration : float) : descriptor :=
  {| segment_url := segment_url; segment_duration := segment_duration |}.

Definition empty_world : world :=
  {| files := ∅; stdout := []; requests := []; commands := [] |}.

(** An environment for the examples: [m3u8_url] answers with
    [m3u8_content], the URLs of [refused] with an HTTP error, every other
    URL with a body that tells the number of the request; the working
    directory is [/work]; ffmpeg, when installed, writes the output file
    and exits with status 0; the progress bar raises nothing. *)
Definition serve (m3u8_url m3u8_content : string) (refused : list string)
    (ffmpeg_installed : bool) : environment :=
  {| requests_get := fun n url =>
       if String.eqb url m3u8_url
       then inr {| text := m3u8_content; iter_content := [m3u8_content];
                   stream_error := None |}
       else if bool_decide (url ∈ refused) then inl "404 Client Error"
       else inr {| text := ""; iter_content := ["segment "; ""; pretty n];
                   stream_error := None |};
     abspath := Posix.abspath "/work";
     ffmpeg := if ffmpeg_installed
               then Some (fun argv fs => (0, <[List.last argv "" := "video"]> fs))
               else None;
     tqdm_update := fun _ => None;
     tqdm_close := fun _ => None |}.

(** ** The URL check that [download_video] leaves out *)

(** [s.endswith(suffix)]: some tail of [s] is [suffix]. *)
Fixpoint endswith (suffix s : string) : bool :=
  String.eqb s suffix
  || match s with
     | EmptyString => false
     | String _ rest => endswith suffix rest
     end.

Definition invalid_m3u8_url : string :=
  "Invalid M3U8 URL. Please provide a valid URL ending with .m3u8".

(** [validate_m3u8_url] returns [None] or raises [ValueError] with the
    text above: [inl] holds the text of the exception.  Its only call,
    in [download_video], is commented out. *)
Definition validate_m3u8_url (m3u8_url : string) : string + unit :=
  if negb (endswith ".m3u8" m3u8_url) then inl invalid_m3u8_url else inr tt.

(** ** Lines of a manifest, by kind *)

(** The lines [parse_m3u8_file] takes as URLs: those that do not start
    with [#]. *)
Definition url_lines (lines : list string) : list string :=
  List.filter (fun line => negb (Str.startswith "#" line)) lines.

(** A line that starts with [#] and is no duration tag. *)
Definition passed_over (line : string) : Prop :=
  Str.startswith "#" line = true /\ Str.startswith "#EXTINF:" line = false.

(** A duration tag is readable when [float()] accepts its number. *)
Definition readable {F : Type} `{PyFloat F} (line : string) : Prop :=
  Str.startswith "#EXTINF:" line = true ->
  exists duration : F, extinf_duration line = Return duration.

(** ** The files of a run *)

(** The files ffmpeg finds: the segments of the plan, fetched with
    requests numbered from [n], and the concatenation manifest. *)
Definition assembled {F : Type} `{PyFloat F} (env : environment) (n : nat)
    (plan : list (descriptor (F:=F))) (fs : gmap string string) : gmap string string :=
  <["segments.txt" := concat_text env (map local_path plan)]> (stored env n plan fs).

(** The line printed at the end of [download_video]. *)
Definition video_saved_line (output_file : string) : string :=
  String "010" "Video saved as " +:+ output_file +:+ " and temporary files cleaned up.".

(** The environment [serve] with an ffmpeg that writes nothing and exits
    with status 1. *)
Definition serve_failing_ffmpeg (m3u8_url m3u8_content : string) : environment :=
  {| requests_get := requests_get (serve m3u8_url m3u8_content [] true);
     abspath := abspath (serve m3u8_url m3u8_content [] true);
     ffmpeg := Some (fun _ fs => (1, fs));
     tqdm_update := fun _ => None;
     tqdm_close := fun _ => None |}.

(** The environment [serve] in which the stream of the URL [broken]
    breaks after its first chunk. *)
Definition serve_breaking (m3u8_url m3u8_content broken : string) : environment :=
  {| requests_get := fun n url =>
       if String.eqb url broken
       then inr {| text := ""; iter_content := ["segment "];
                   stream_error := Some "Connection broken" |}
       else requests_get (serve m3u8_url m3u8_content [] true) n url;
     abspath := abspath (serve m3u8_url m3u8_content [] true);
     ffmpeg := ffmpeg (serve m3u8_url m3u8_content [] true);
     tqdm_update := fun _ => None;
     tqdm_close := fun _ => None |}.

(** ** Line ends *)

(** A string that holds no line boundary of [str.splitlines]. *)
Fixpoint one_line (s : string) : bool :=
  match s with
  | EmptyString => true
  | String c rest => negb (Str.is_linebreak c) && one_line rest
  end.

Definition crlf : string := String "013" (String "010" "").

(** A manifest text from its lines, each ended by CR LF. *)
Definition manifest_crlf (lines : list string) : string :=
  Str.join (map (fun line => line +:+ crlf) lines).

(** * Properties *)

(** ** The literals of [float()] in binary64 *)

Example float_of_str_tenth :
  float_of_str "0.1" = Some 0x1.999999999999ap-4%float.
Proof. reflexivity. Qed.

Example float_of_str_half_even :
  float_of_str "9007199254740993" = Some 0x1p53%float.
Proof. reflexivity. Qed.

Example float_of_str_forms :
  float_of_str " 4.0 " = Some 4%float /\ float_of_str "5." = Some 5%float
  /\ float_of_str ".5" = Some 0x1p-1%float /\ float_of_str "1_0e-1" = Some 1%float
  /\ float_of_str "1e400" = Some infinity /\ float_of_str "-Infinity" = Some neg_infinity
  /\ float_of_str "abc" = @None float /\ float_of_str "" = @None float
  /\ float_of_str "1e" = @None float
  /\ float_of_str (String "031" "1") = @None float.
Proof. repeat split; reflexivity. Qed.

(** ** The two tests of the loop *)

Section SelectionFacts.

Context {F : Type} `{PyFloat F}.

Local Open Scope pyfloat_scope.

Lemma loop_action_skip start_time end_time current_time d :
  loop_action start_time end_time current_time d = Skip
  <-> (current_time + d <? start_time) = true.
Proof.
  unfold loop_action.
  destruct (current_time + d <? start_time); [tauto|].
  destruct (end_time <? current_time); split; discriminate.
Qed.

Lemma loop_action_stop start_time end_time current_time d :
  loop_action start_time end_time current_time d = Stop
  <-> (current_time + d <? start_time) = false /\ (end_time <? current_time) = true.
Proof.
  unfold loop_action.
  destruct (current_time + d <? start_time), (end_time <? current_time);
    intuition discriminate.
Qed.

Lemma loop_action_fetch start_time end_time current_time d :
  loop_action start_time end_time current_time d = Fetch
  <-> (current_time + d <? start_time) = false /\ (end_time <? current_time) = false.
Proof.
  unfold loop_action.
  destruct (current_time + d <? start_time), (end_time <? current_time);
    intuition discriminate.
Qed.

Lemma time_after_app current_time passed rest :
  time_after current_time (passed ++ rest)
  = time_after (time_after current_time passed) rest.
Proof. unfold time_after. by rewrite map_app, fold_left_app. Qed.

Lemma time_after_snoc current_time passed segment :
  time_after current_time (passed ++ [segment])
  = time_after current_time passed + segment_duration segment.
Proof. by rewrite time_after_app. Qed.

(** Once past [passed], the loop treats the rest with the clock at the
    sum of all durations of [passed], skipped ones included. *)
Lemma build_plan_app start_time end_time passed rest current_time :
  passes start_time end_time passed current_time = true ->
  build_plan start_time end_time (passed ++ rest) current_time
  = build_plan start_time end_time passed current_time
    ++ build_plan start_time end_time rest (time_after current_time passed).
Proof.
  revert current_time.
  induction passed as [|segment passed IH]; intros current_time Hpass; [done|].
  simpl in *.
  destruct (loop_action _ _ _ _); [by apply IH | done | ].
  simpl. f_equal. by apply IH.
Qed.

(** What [break] leaves out: everything from the descriptor on. *)
Lemma build_plan_stop start_time end_time passed segment rest current_time :
  passes start_time end_time passed current_time = true ->
  loop_action start_time end_time (time_after current_time passed)
    (segment_duration segment) = Stop ->
  build_plan start_time end_time (passed ++ segment :: rest) current_time
  = build_plan start_time end_time passed current_time.
Proof.
  intros Hpass Hstop.
  rewrite build_plan_app by done.
  simpl. rewrite Hstop. by rewrite app_nil_r.
Qed.

Lemma build_plan_sublist start_time end_time segment_urls current_time :
  build_plan start_time end_time segment_urls current_time `sublist_of` segment_urls.
Proof.
  revert current_time.
  induction segment_urls as [|segment rest IH]; intros current_time; simpl; [done|].
  destruct (loop_action _ _ _ _).
  - by apply sublist_cons.
  - apply sublist_nil_l.
  - by apply sublist_skip.
Qed.

End SelectionFacts.

(** ** The loop and its plan *)

Section DownloadFacts.

Context {F : Type} `{PyFloat F}.
Variable env : environment.

Local Open Scope pyfloat_scope.

(** [download_loop] fetches its plan and nothing else. *)
Lemma download_loop_plan start_time end_time segment_urls current_time segment_files w :
  download_loop env start_time end_time segment_urls current_time segment_files w
  = fetch_all env (build_plan start_time end_time segment_urls current_time)
      segment_files w.
Proof.
  revert current_time segment_files w.
  induction segment_urls as [|x rest IH]; intros current_time segment_files w; [done|].
  simpl. destruct (loop_action _ _ _ _); simpl; [by apply IH | done |].
  unfold bind, get, lift, update. simpl.
  destruct (requests_get env _ _) as [e|r]; [done|].
  simpl. unfold local_path. destruct (open_wb _); [|done..].
  simpl. destruct (stream_error r); [done|].
  simpl. destruct (tqdm_update env _); [done|]. apply IH.
Qed.

(** The descriptors after the first of a plan are delivered when all
    are. *)
Lemma delivered_tail (x : descriptor (F:=F)) (plan : list descriptor) (w w1 : world) :
  length (requests w1) = S (length (requests w)) ->
  (forall k y, (x :: plan) !! k = Some y -> exists r, delivered env w k y r) ->
  forall k y, plan !! k = Some y -> exists r, delivered env w1 k y r.
Proof.
  intros Hlength Hok k y Hy.
  destruct (Hok (S k) y Hy) as (r & Hr & Hstream & Hopen & Hupdate).
  exists r. unfold delivered, reply in *. rewrite Hlength.
  replace (S (length (requests w)) + k)%nat with (length (requests w) + S k)%nat by lia.
  replace (S (length (requests w)) + S k)%nat
    with (length (requests w) + S (S k))%nat by lia.
  done.
Qed.

(** One descriptor that goes through. *)
Lemma fetch_all_step (x : descriptor (F:=F)) (plan : list descriptor) segment_files w r :
  delivered env w 0 x r ->
  fetch_all env (x :: plan) segment_files w
  = fetch_all env plan (segment_files ++ [local_path x])
      (written (local_path x) (body r) (requested (segment_url x) w)).
Proof.
  intros (Hr & Hstream & Hopen & Hupdate).
  unfold reply in Hr. rewrite Nat.add_0_r in Hr. rewrite Nat.add_1_r in Hupdate.
  simpl. unfold bind, get, lift, update. simpl.
  rewrite Hr. simpl. rewrite Hopen. simpl. rewrite Hstream. simpl.
  rewrite length_app. simpl. rewrite Nat.add_1_r. by rewrite Hupdate.
Qed.

Lemma stored_step (x : descriptor (F:=F)) (plan : list descriptor) w r fs :
  delivered env w 0 x r ->
  stored env (length (requests w)) (x :: plan) fs
  = stored env (S (length (requests w))) plan (<[local_path x := body r]> fs).
Proof.
  intros (Hr & Hstream & Hopen & Hupdate).
  unfold reply in Hr. rewrite Nat.add_0_r in Hr. rewrite Nat.add_1_r in Hupdate.
  simpl. by rewrite Hr, Hopen, Hstream, Hupdate.
Qed.

(** Every descriptor delivered: the loop returns one path per
    descriptor. *)
Lemma fetch_all_returns (plan : list (descriptor (F:=F))) segment_files w :
  (forall k x, plan !! k = Some x -> exists r, delivered env w k x r) ->
  fetch_all env plan segment_files w
  = (Return (segment_files ++ map local_path plan),
     {| files := stored env (length (requests w)) plan (files w);
        stdout := stdout w;
        requests := requests w ++ map segment_url plan;
        commands := commands w |}).
Proof.
  revert segment_files w.
  induction plan as [|x plan IH]; intros segment_files w Hok.
  - simpl. unfold ret. rewrite !app_nil_r. by destruct w.
  - destruct (Hok 0%nat x eq_refl) as (r & Hx).
    rewrite (fetch_all_step x plan _ _ r Hx), (stored_step x plan _ r _ Hx).
    rewrite IH; simpl.
    + rewrite length_app. simpl. rewrite Nat.add_1_r.
      by rewrite <- !app_assoc.
    + apply (delivered_tail x plan w); [|done].
      simpl. rewrite length_app. simpl. lia.
Qed.

(** A request refused: the message is printed and [sys.exit(1)] is
    called; nothing is requested after it. *)
Lemma fetch_all_exits (pre : list (descriptor (F:=F))) x post e segment_files w :
  (forall k y, pre !! k = Some y -> exists r, delivered env w k y r) ->
  reply env w (length pre) x = inl e ->
  fetch_all env (pre ++ x :: post) segment_files w
  = (SysExit 1,
     {| files := stored env (length (requests w)) pre (files w);
        stdout := stdout w ++ [segment_error x e];
        requests := requests w ++ map segment_url (pre ++ [x]);
        commands := commands w |}).
Proof.
  revert segment_files w.
  induction pre as [|y pre IH]; intros segment_files w Hok Hfail.
  - unfold reply in Hfail. simpl in Hfail. rewrite Nat.add_0_r in Hfail.
    simpl. unfold bind, get. simpl. by rewrite Hfail.
  - destruct (Hok 0%nat y eq_refl) as (r & Hy).
    cbn [app]. rewrite (fetch_all_step y _ _ _ r Hy), (stored_step y pre _ r _ Hy).
    rewrite (IH _ _); simpl.
    + rewrite length_app. simpl. rewrite Nat.add_1_r.
      by rewrite <- !app_assoc.
    + apply (delivered_tail y pre w); [|done].
      simpl. rewrite length_app. simpl. lia.
    + unfold reply in *. simpl in *. rewrite length_app. simpl.
      by replace (length (requests w) + 1 + length pre)%nat
        with (length (requests w) + S (length pre))%nat by lia.
Qed.

(** A stream that breaks: the exception leaves the loop, with no
    message of the program; the file holds the chunks that came. *)
Lemma fetch_all_breaks (pre : list (descriptor (F:=F))) x post r e segment_files w :
  (forall k y, pre !! k = Some y -> exists r, delivered env w k y r) ->
  reply env w (length pre) x = inr r ->
  open_wb (local_path x) = Return tt ->
  stream_error r = Some e ->
  fetch_all env (pre ++ x :: post) segment_files w
  = (Raise (RequestException e),
     {| files := stored env (length (requests w)) (pre ++ [x]) (files w);
        stdout := stdout w;
        requests := requests w ++ map segment_url (pre ++ [x]);
        commands := commands w |}).
Proof.
  revert segment_files w.
  induction pre as [|y pre IH]; intros segment_files w Hok Hreply Hopen Hbreak.
  - unfold reply in Hreply. simpl in Hreply. rewrite Nat.add_0_r in Hreply.
    simpl. unfold bind, get, lift. simpl. rewrite Hreply. simpl.
    rewrite Hopen. simpl. by rewrite Hbreak.
  - destruct (Hok 0%nat y eq_refl) as (r0 & Hy).
    cbn [app]. rewrite (fetch_all_step y _ _ _ r0 Hy), (stored_step y _ _ r0 _ Hy).
    rewrite (IH _ _); simpl.
    + rewrite length_app. simpl. rewrite Nat.add_1_r.
      by rewrite <- !app_assoc.
    + apply (delivered_tail y pre w); [|done].
      simpl. rewrite length_app. simpl. lia.
    + unfold reply in *. simpl in *. rewrite length_app. simpl.
      by replace (length (requests w) + 1 + length pre)%nat
        with (length (requests w) + S (length pre))%nat by lia.
    + done.
    + done.
Qed.

Lemma open_wb_outcome (path : string) :
  open_wb path = Return tt
  \/ open_wb path = Raise (ValueError (Message "embedded null byte"))
  \/ open_wb path = Raise (IsADirectoryError path).
Proof.
  unfold open_wb. destruct (Str.contains "000" path); [by right; left|].
  destruct (_ || _ || _)%bool; [by right; right | by left].
Qed.

Lemma bar_exn_loop (e : bar_error) : loop_exn (bar_exn e).
Proof. by destruct e. Qed.

(** The loop returns, calls [sys.exit(1)] after a refused request, or
    raises: the exception of a broken stream, of [open] or of the
    progress bar. *)
Lemma fetch_all_outcome (plan : list (descriptor (F:=F))) segment_files w :
  (exists files w', fetch_all env plan segment_files w = (Return files, w'))
  \/ (exists w', fetch_all env plan segment_files w = (SysExit 1, w'))
  \/ (exists e w', fetch_all env plan segment_files w = (Raise e, w') /\ loop_exn e).
Proof.
  revert segment_files w.
  induction plan as [|x plan IH]; intros segment_files w; simpl.
  - left. by eexists _, _.
  - unfold bind, get, lift, update. simpl.
    destruct (requests_get env _ _) as [e|r]; simpl.
    + right. left. by eexists.
    + destruct (open_wb_outcome (local_path x)) as [->|[->| ->]]; simpl.
      * destruct (stream_error r) as [e|]; simpl.
        -- right. right. by eexists _, _.
        -- destruct (tqdm_update env _) as [e|]; [|apply IH].
           right. right. eexists _, _. split; [done | apply bar_exn_loop].
      * right. right. by eexists _, _.
      * right. right. by eexists _, _.
Qed.

(** A loop that returns had every descriptor delivered. *)
Lemma fetch_all_inv (plan : list (descriptor (F:=F))) segment_files w files w' :
  fetch_all env plan segment_files w = (Return files, w') ->
  files = segment_files ++ map local_path plan
  /\ forall k x, plan !! k = Some x -> exists r, delivered env w k x r.
Proof.
  revert segment_files w.
  induction plan as [|x plan IH]; intros segment_files w Hrun.
  - simpl in Hrun. injection Hrun as <- <-. by rewrite app_nil_r.
  - simpl in Hrun. unfold bind, get, lift, update in Hrun. simpl in Hrun.
    destruct (requests_get env (length (requests w)) (segment_url x)) as [e|r] eqn:Hr;
      [done|].
    simpl in Hrun. destruct (open_wb (local_path x)) as [[]| |] eqn:Hopen; [|done..].
    simpl in Hrun. destruct (stream_error r) as [e|] eqn:Hstream; [done|].
    simpl in Hrun. rewrite length_app in Hrun. simpl in Hrun.
    destruct (tqdm_update env (length (requests w) + 1)) eqn:Hupdate; [done|].
    apply IH in Hrun as [-> Hok].
    split; [by rewrite <- app_assoc|].
    intros [|k] y Hy.
    + injection Hy as <-. exists r. unfold delivered, reply.
      by rewrite Nat.add_0_r.
    + destruct (Hok k y Hy) as (r' & Hr' & Hstream' & Hopen' & Hupdate').
      exists r'. unfold delivered, reply in *. simpl in Hr', Hupdate'.
      rewrite length_app in Hr', Hupdate'. simpl in Hr', Hupdate'.
      replace (length (requests w) + S k)%nat
        with (length (requests w) + 1 + k)%nat by lia.
      replace (length (requests w) + S (S k))%nat
        with (length (requests w) + 1 + S k)%nat by lia.
      done.
Qed.

(** *** Under the progress bar *)

(** A body that sent no request: the bar closes with count 0. *)
Lemma with_progress_bar_idle {A} (body : M A) (w : world) :
  requests (body w).2 = requests w ->
  with_progress_bar env body w = body w.
Proof.
  intros Hsame. unfold with_progress_bar.
  destruct (body w) as [r w'] eqn:Hrun. simpl in Hsame.
  by rewrite Hsame, Nat.eqb_refl.
Qed.

(** A body that sent requests, and a bar that closes without raising. *)
Lemma with_progress_bar_quiet {A} (body : M A) (w : world) (attempts : nat) :
  length (requests (body w).2) = (length (requests w) + attempts)%nat ->
  bar_closes env w attempts ->
  with_progress_bar env body w = body w.
Proof.
  intros Hlength Hquiet. unfold with_progress_bar.
  destruct (body w) as [r w'] eqn:Hrun. simpl in Hlength.
  destruct (length (requests w') =? length (requests w))%nat eqn:Hsame; [done|].
  apply Nat.eqb_neq in Hsame.
  rewrite Hlength, Hquiet; [done | lia].
Qed.

(** A body that returns still returns under the bar, if the closing
    raises nothing; and a body under the bar returns only if it returns. *)
Lemma with_progress_bar_inv {A} (body : M A) (w : world) (a : A) (w' : world) :
  with_progress_bar env body w = (Return a, w') -> body w = (Return a, w').
Proof.
  unfold with_progress_bar. destruct (body w) as [r w1].
  destruct (length (requests w1) =? length (requests w))%nat; [done|].
  by destruct (tqdm_close env _).
Qed.

Lemma download_all_returns (plan : list (descriptor (F:=F))) segment_files w :
  (forall k x, plan !! k = Some x -> exists r, delivered env w k x r) ->
  bar_closes env w (length plan) ->
  download_all env plan segment_files w
  = (Return (segment_files ++ map local_path plan),
     {| files := stored env (length (requests w)) plan (files w);
        stdout := stdout w;
        requests := requests w ++ map segment_url plan;
        commands := commands w |}).
Proof.
  intros Hok Hquiet. unfold download_all.
  rewrite (with_progress_bar_quiet _ w (length plan)); [by apply fetch_all_returns| |done].
  rewrite (fetch_all_returns _ _ _ Hok). simpl.
  by rewrite length_app, length_map.
Qed.

Lemma download_all_inv (plan : list (descriptor (F:=F))) segment_files w files w' :
  download_all env plan segment_files w = (Return files, w') ->
  fetch_all env plan segment_files w = (Return files, w')
  /\ files = segment_files ++ map local_path plan
  /\ forall k x, plan !! k = Some x -> exists r, delivered env w k x r.
Proof.
  intros Hrun%with_progress_bar_inv. split; [done|].
  by apply fetch_all_inv in Hrun.
Qed.

(** Under the bar the loop ends as it does without, or with an
    exception of the bar. *)
Lemma download_all_outcome (plan : list (descriptor (F:=F))) segment_files w :
  (exists files w', download_all env plan segment_files w = (Return files, w'))
  \/ (exists w', download_all env plan segment_files w = (SysExit 1, w'))
  \/ (exists e w', download_all env plan segment_files w = (Raise e, w') /\ loop_exn e).
Proof.
  unfold download_all, with_progress_bar.
  destruct (fetch_all_outcome plan segment_files w)
    as [(l & w' & ->)|[(w' & ->)|(e & w' & -> & He)]];
    (destruct (length (requests w') =? length (requests w))%nat;
     [|destruct (tqdm_close env _) as [err|];
       [right; right; eexists _, _; split; [done | apply bar_exn_loop]|]]).
  - left. by eexists _, _.
  - left. by eexists _, _.
  - right. left. by eexists.
  - right. left. by eexists.
  - right. right. by eexists _, _.
  - right. right. by eexists _, _.
Qed.

(** *** What every run of the loop leaves alone *)

Lemma startswith_append (p s : string) : Str.startswith p (p +:+ s) = true.
Proof.
  unfold Str.startswith.
  induction p as [|a p IH]; [by destruct s|].
  change (String a p +:+ s) with (String a (p +:+ s)).
  cbn [String.prefix]. by destruct (ascii_dec a a).
Qed.

Lemma local_path_segments (x : descriptor (F:=F)) :
  Str.startswith "segments/" (local_path x) = true.
Proof. apply startswith_append. Qed.

(** However the loop over a plan ends, it has requested the URLs of
    the first descriptors of the plan, at least one if there is one,
    written local paths of the plan only, run nothing, and printed the
    line of a refused request exactly when it exits. *)
Lemma fetch_all_frame (plan : list (descriptor (F:=F))) segment_files w :
  (exists k, requests (fetch_all env plan segment_files w).2
             = requests w ++ map segment_url (take k plan)
             /\ (plan <> [] -> k <> 0%nat))
  /\ commands (fetch_all env plan segment_files w).2 = commands w
  /\ (forall path, files (fetch_all env plan segment_files w).2 !! path
                   <> files w !! path ->
                   exists x, x ∈ plan /\ path = local_path x)
  /\ match (fetch_all env plan segment_files w).1 with
     | SysExit code =>
         code = 1
         /\ exists x e, x ∈ plan
                        /\ stdout (fetch_all env plan segment_files w).2
                           = stdout w ++ [segment_error x e]
     | _ => stdout (fetch_all env plan segment_files w).2 = stdout w
     end.
Proof.
  revert segment_files w.
  induction plan as [|x plan IH]; intros segment_files w.
  - simpl. split; [exists 0%nat; by rewrite app_nil_r|].
    split; [done|]. split; by intros.
  - simpl. unfold bind, get, lift, update. simpl.
    assert (Hwritten : forall (content : string) (path : string),
               <[local_path x := content]> (files w) !! path <> files w !! path ->
               exists y, y ∈ x :: plan /\ path = local_path y).
    { intros content path Hpath. exists x. split; [by left|].
      destruct (decide (path = local_path x)) as [|Hother]; [done|].
      destruct Hpath. by apply lookup_insert_ne. }
    destruct (requests_get env (length (requests w)) (segment_url x)) as [e|r]; simpl.
    + split; [by exists 1%nat|]. split; [done|]. split; [by intros path Hpath|].
      split; [done|]. exists x, e. split; [by left | done].
    + destruct (open_wb_outcome (local_path x)) as [->|[->| ->]]; simpl.
      * destruct (stream_error r) as [e|]; simpl;
          [split; [by exists 1%nat|]; split; [done|]; split; [apply Hwritten | done]|].
        rewrite length_app. simpl.
        destruct (tqdm_update env (length (requests w) + 1)) as [err|]; simpl;
          [split; [by exists 1%nat|]; split; [done|]; split; [apply Hwritten | done]|].
        destruct (IH (segment_files ++ [local_path x])
                    (written (local_path x) (body r) (requested (segment_url x) w)))
          as ((k & Hrequests & _) & Hcommands & Hfiles & Hstdout).
        split; [|split; [|split]].
        -- exists (S k). rewrite Hrequests. simpl. by rewrite <- app_assoc.
        -- by rewrite Hcommands.
        -- intros path Hpath.
           destruct (decide (path = local_path x)) as [->|Hother];
             [exists x; split; [by left | done]|].
           destruct (Hfiles path) as (y & Hy & ->); [|exists y; split; [by right | done]].
           intros Hsame. apply Hpath. rewrite Hsame. simpl.
           by apply lookup_insert_ne.
        -- destruct (fetch_all env plan _ _).1; simpl in *; try done.
           destruct Hstdout as (Hcode & y & e & Hy & Hline).
           split; [done|]. exists y, e. split; [by right | done].
      * split; [by exists 1%nat|]. split; [done|].
        split; [intros path Hpath; by destruct Hpath | done].
      * split; [by exists 1%nat|]. split; [done|].
        split; [intros path Hpath; by destruct Hpath | done].
Qed.

(** The bar changes the way a body ends, not the world it leaves. *)
Lemma with_progress_bar_world {A} (body : M A) (w : world) :
  (with_progress_bar env body w).2 = (body w).2.
Proof.
  unfold with_progress_bar. destruct (body w) as [r w'].
  destruct (_ =? _)%nat; [done|]. by destruct (tqdm_close env _).
Qed.

Lemma with_progress_bar_outcome {A} (body : M A) (w : world) :
  (with_progress_bar env body w).1 = (body w).1
  \/ (requests (body w).2 <> requests w
      /\ exists e, tqdm_close env (length (requests (body w).2)) = Some e
                   /\ (with_progress_bar env body w).1 = Raise (bar_exn e)).
Proof.
  unfold with_progress_bar. destruct (body w) as [r w'].
  destruct (length (requests w') =? length (requests w))%nat eqn:Hsame; [by left|].
  destruct (tqdm_close env _) as [e|] eqn:Hclose; [|by left].
  right. simpl. split; [|by exists e].
  intros Heq. rewrite Heq, Nat.eqb_refl in Hsame. done.
Qed.

End DownloadFacts.

(** ** [download_segments] as window, plan and downloads *)

Section SegmentsFacts.

Context {F : Type} `{PyFloat F}.
Variable env : environment.

Lemma download_segments_unfold (segment_urls : list (segment (F:=F)))
    start_time end_time w :
  download_segments env segment_urls start_time end_time w
  = match omap with_duration segment_urls with
    | Return descriptors =>
        match select_window (f_sum (map segment_duration descriptors))
                start_time end_time with
        | Return (start_time, end_time) =>
            download_all env (build_plan start_time end_time descriptors (of_int 0)) [] w
        | Raise e => (Raise e, w)
        | SysExit code => (SysExit code, w)
        end
    | Raise e => (Raise e, w)
    | SysExit code => (SysExit code, w)
    end.
Proof.
  unfold download_segments, select_window, bind, lift.
  destruct (omap with_duration segment_urls) as [descriptors|e|code]; try done.
  destruct (given start_time) as [s|];
    [destruct (convert_time_to_seconds s) as [a|e|code]; try done|];
    simpl;
    (destruct (given end_time) as [s'|];
     [destruct (convert_time_to_seconds s') as [b|e|code]; try done|]);
    simpl; unfold download_all, with_progress_bar; by rewrite download_loop_plan.
Qed.

End SegmentsFacts.

(** ** The stop rule and the skip rule *)

Local Open Scope pyfloat_scope.




(** C2.  A descriptor the loop reaches is skipped exactly when
    [current_time + segment_duration < start_time].  When the test
    holds, the descriptor is not in the plan, nothing is requested or
    written for it, and the loop goes on with the next descriptor.  When
    the test fails, the descriptor is not skipped: unless the loop stops
    at it, it stands in the plan at its place, its URL is the next
    request, its local path is the next of the list the loop returns,
    and once it is delivered the loop goes on with the next descriptor.
    In both cases the loop goes on with [current_time] advanced by the
    duration, so every later test sees the sum of the durations of all
    descriptors before it, skipped ones included. *)
Theorem skip_rule (F : Type) (HF : PyFloat F) (env : environment)
    (start_time end_time : F) (passed : list descriptor) (segment : descriptor)
    (rest : list descriptor) (segment_files : list string) (w : world) :
  passes start_time end_time passed (of_int 0) = true ->
  let current_time := time_after (of_int 0) passed in
  let next_time := current_time + segment_duration segment in
  ((next_time <? start_time) = true ->
   build_plan start_time end_time (passed ++ segment :: rest) (of_int 0)
   = build_plan start_time end_time passed (of_int 0)
     ++ build_plan start_time end_time rest next_time
   /\ download_loop env start_time end_time (segment :: rest) current_time segment_files
      = download_loop env start_time end_time rest next_time segment_files)
  /\ ((next_time <? start_time) = false ->
      (end_time <? current_time) = false ->
      build_plan start_time end_time (passed ++ segment :: rest) (of_int 0)
      = build_plan start_time end_time passed (of_int 0)
        ++ segment :: build_plan start_time end_time rest next_time
      /\ (exists more,
            requests (download_loop env start_time end_time (segment :: rest)
                        current_time segment_files w).2
            = requests w ++ segment_url segment :: more)
      /\ (forall returned w',
            download_loop env start_time end_time (segment :: rest)
              current_time segment_files w = (Return returned, w') ->
            exists more,
              returned = segment_files ++ segment_name (segment_url segment) :: more)
      /\ (forall r,
            delivered env w 0 segment r ->
            download_loop env start_time end_time (segment :: rest)
              current_time segment_files w
            = download_loop env start_time end_time rest next_time
                (segment_files ++ [segment_name (segment_url segment)])
                (written (segment_name (segment_url segment)) (body r)
                   (requested (segment_url segment) w))))
  /\ ((next_time <? start_time) = false ->
      (end_time <? current_time) = true ->
      build_plan start_time end_time (passed ++ segment :: rest) (of_int 0)
      = build_plan start_time end_time passed (of_int 0))
  /\ time_after (of_int 0) (passed ++ [segment]) = next_time.
Proof.
  intros Hpass current_time next_time.
  split; [|split; [|split]].
  - intros Hskip.
    assert (Hact : loop_action start_time end_time current_time
                     (segment_duration segment) = Skip)
      by by apply loop_action_skip.
    split.
    + rewrite build_plan_app by done. simpl.
      fold current_time. by rewrite Hact.
    + simpl. by rewrite Hact.
  - intros Hskip Hend.
    assert (Hact : loop_action start_time end_time current_time
                     (segment_duration segment) = Fetch)
      by by apply loop_action_fetch.
    assert (Hplan : build_plan start_time end_time (segment :: rest) current_time
                    = segment :: build_plan start_time end_time rest next_time)
      by (simpl; by rewrite Hact).
    split; [|split; [|split]].
    + rewrite build_plan_app by done. fold current_time. by rewrite Hplan.
    + rewrite download_loop_plan, Hplan.
      destruct (fetch_all_frame env
                  (segment :: build_plan start_time end_time rest next_time)
                  segment_files w) as ((k & Hrequests & Hk) & _).
      destruct k as [|k]; [by destruct Hk|].
      rewrite Hrequests. simpl. by eexists.
    + intros returned w' Hrun. rewrite download_loop_plan, Hplan in Hrun.
      apply fetch_all_inv in Hrun as [-> _]. simpl. by eexists.
    + intros r Hr. rewrite !download_loop_plan, Hplan.
      by rewrite (fetch_all_step env segment _ _ _ r Hr).
  - intros Hskip Hend. apply build_plan_stop; [done|].
    by apply loop_action_stop.
  - apply time_after_snoc.
Qed.

(** Durations 4.0 three times, start 5.0, end 9.0: the first segment is
    skipped, and the second is tested at 4.0. *)
Lemma skip_rule_witness :
  build_plan 5%float 9%float ([] ++ seg "1.ts" 4 :: [seg "2.ts" 4; seg "3.ts" 4]) 0%float
  = build_plan 5%float 9%float [] 0%float
    ++ build_plan 5%float 9%float [seg "2.ts" 4; seg "3.ts" 4] (0 + 4)%float.
Proof.
  refine (proj1 (proj1 (skip_rule float binary64 (serve "" "" [] false)
                          5%float 9%float [] (seg "1.ts" 4)
                          [seg "2.ts" 4; seg "3.ts" 4] [] empty_world _) _));
    reflexivity.
Defined.

(** ** Time strings *)

Section TimeFacts.

Context {F : Type} `{PyFloat F}.

Lemma convert_time_to_seconds_cases (time_str : string) :
  (exists h m s : F,
      well_formed_time time_str h m s
      /\ convert_time_to_seconds time_str
         = Return (h * of_int 3600 + m * of_int 60 + s))
  \/ ((forall h m s : F, ~ well_formed_time time_str h m s)
      /\ exists why, convert_time_to_seconds time_str = Raise (ValueError why)).
Proof.
  unfold convert_time_to_seconds, well_formed_time.
  destruct (Str.split ":" time_str) as [|a [|b [|c [|d rest]]]]; simpl.
  - right. split; [intros h m s (?&?&?&?&_); discriminate | by eexists].
  - right. split; [intros h m s (?&?&?&?&_); discriminate |].
    destruct (float_of_str a); simpl; by eexists.
  - right. split; [intros h m s (?&?&?&?&_); discriminate |].
    destruct (float_of_str a); simpl; [|by eexists].
    destruct (float_of_str b); simpl; by eexists.
  - destruct (float_of_str a) as [h|] eqn:Ha; simpl;
      [|right; split; [intros h m s (?&?&?&?&?&?&?); congruence | by eexists]].
    destruct (float_of_str b) as [m|] eqn:Hb; simpl;
      [|right; split; [intros ? m s (?&?&?&?&?&?&?); congruence | by eexists]].
    destruct (float_of_str c) as [s|] eqn:Hc; simpl;
      [|right; split; [intros ? ? s (?&?&?&?&?&?&?); congruence | by eexists]].
    left. exists h, m, s. split; [|done]. by exists a, b, c.
  - right. split; [intros h m s (?&?&?&?&_); discriminate |].
    destruct (float_of_str a); simpl; [|by eexists].
    destruct (float_of_str b); simpl; [|by eexists].
    destruct (float_of_str c); simpl; [|by eexists].
    destruct (float_of_str d); simpl; by eexists.
Qed.

Lemma well_formed_time_unique (time_str : string) (h m s h' m' s' : F) :
  well_formed_time time_str h m s -> well_formed_time time_str h' m' s' ->
  h = h' /\ m = m' /\ s = s'.
Proof.
  intros (a&b&c&Hs&Ha&Hb&Hc) (a'&b'&c'&Hs'&Ha'&Hb'&Hc').
  rewrite Hs in Hs'. injection Hs' as <- <- <-.
  repeat split; congruence.
Qed.

End TimeFacts.

(** C6.  [convert_time_to_seconds] returns [h*3600 + m*60 + s] for a
    string of exactly three colon-separated fields that [float()] reads
    as [h], [m] and [s]; on every other string, and on no string of that
    form, it raises [ValueError], the invalid-time-format error.
    ["01:02:03"] gives 3723.0 and ["00:00:00"] gives 0.0. *)
Theorem convert_time_to_seconds_spec :
  (forall (F : Type) (HF : PyFloat F) (time_str : string),
      (forall h m s : F,
          well_formed_time time_str h m s ->
          convert_time_to_seconds time_str
          = Return (h * of_int 3600 + m * of_int 60 + s))
      /\ ((exists why, convert_time_to_seconds (F:=F) time_str = Raise (ValueError why))
          <-> (forall h m s : F, ~ well_formed_time time_str h m s)))
  /\ convert_time_to_seconds "01:02:03" = Return 3723%float
  /\ convert_time_to_seconds "00:00:00" = Return 0%float.
Proof.
  split; [|split; reflexivity].
  intros F HF time_str.
  destruct (convert_time_to_seconds_cases (F:=F) time_str)
    as [(h&m&s&Hwf&Hret)|(Hnot&why&Hraise)].
  - split.
    + intros h' m' s' Hwf'.
      destruct (well_formed_time_unique _ _ _ _ _ _ _ Hwf Hwf') as (<-&<-&<-).
      exact Hret.
    + split.
      * intros [why Hraise]. congruence.
      * intros Hnot. destruct (Hnot h m s Hwf).
  - split.
    + intros h m s Hwf. destruct (Hnot h m s Hwf).
    + split; [done | by exists why].
Qed.

(** ["01:02:03"] has three fields, read as 1.0, 2.0 and 3.0. *)
Lemma convert_time_to_seconds_witness :
  convert_time_to_seconds "01:02:03" = Return (1 * of_int 3600 + 2 * of_int 60 + 3)%float.
Proof.
  refine (proj1 (proj1 convert_time_to_seconds_spec float binary64 "01:02:03")
            1%float 2%float 3%float _).
  exists "01", "02", "03". repeat split; reflexivity.
Defined.

(** ** Contiguity of the plan *)

Section Contiguity.

Context {F : Type} `{OrderedAdd F}.

Local Open Scope pyfloat_scope.

Lemma past_start_intro (start_time t : F) :
  (t <? start_time) = false -> past_start start_time t.
Proof.
  intros Ht c Hc.
  destruct (c <? start_time) eqn:Hlt; [|done].
  by rewrite (f_le_lt_trans _ _ _ Hc Hlt) in Ht.
Qed.

Lemma past_start_add (start_time t d : F) :
  (of_int 0 <=? t) = true -> (of_int 0 <=? d) = true ->
  past_start start_time t -> past_start start_time (t + d).
Proof.
  intros Ht Hd Hpast c Hc. apply Hpast.
  destruct (f_add_nonneg t d Ht Hd) as [Hle _].
  by apply f_le_trans with (t + d).
Qed.

Lemma past_start_no_skip (start_time end_time t d : F) :
  (of_int 0 <=? t) = true -> (of_int 0 <=? d) = true ->
  past_start start_time t ->
  loop_action start_time end_time t d <> Skip.
Proof.
  intros Ht Hd Hpast Hskip.
  apply loop_action_skip in Hskip.
  destruct (f_add_nonneg t d Ht Hd) as [Hle _].
  by rewrite (Hpast _ Hle) in Hskip.
Qed.

Lemma time_after_nonneg (t : F) (passed : list descriptor) :
  (of_int 0 <=? t) = true -> nonnegative passed ->
  (of_int 0 <=? time_after t passed) = true.
Proof.
  intros Ht Hnn. revert t Ht.
  induction Hnn as [|x passed Hx _ IH]; intros t Ht; [done|].
  apply IH. by apply f_add_nonneg.
Qed.

Lemma time_after_increases (t : F) (x : descriptor) (passed : list descriptor) :
  (of_int 0 <=? t) = true -> nonnegative (x :: passed) ->
  (t <=? time_after t (x :: passed)) = true.
Proof.
  revert t x.
  induction passed as [|y passed IH]; intros t x Ht Hnn;
    apply Forall_cons in Hnn as [Hx Hnn].
  - by apply f_add_nonneg.
  - destruct (f_add_nonneg t _ Ht Hx) as [Hle Hpos].
    apply f_le_trans with (t + segment_duration x); [done|].
    by apply (IH (t + segment_duration x) y).
Qed.

(** Past the start, the loop fetches until it stops: the plan is a
    prefix, and what follows it begins at the descriptor of the [break]. *)
Lemma build_plan_prefix (start_time end_time : F) (segment_urls : list descriptor)
    (t : F) :
  (of_int 0 <=? t) = true -> nonnegative segment_urls -> past_start start_time t ->
  exists rest,
    segment_urls = build_plan start_time end_time segment_urls t ++ rest
    /\ match rest with
       | [] => True
       | y :: _ =>
           loop_action start_time end_time
             (time_after t (build_plan start_time end_time segment_urls t))
             (segment_duration y) = Stop
       end.
Proof.
  intros Ht Hnn. revert t Ht.
  induction Hnn as [|x segment_urls Hx Hnn IH]; intros t Ht Hpast.
  - by exists [].
  - simpl.
    destruct (loop_action start_time end_time t (segment_duration x)) eqn:Hact.
    + by destruct (past_start_no_skip start_time end_time t _ Ht Hx Hpast).
    + by exists (x :: segment_urls).
    + destruct (IH (t + segment_duration x)) as (rest & Heq & Hrest).
      * by apply f_add_nonneg.
      * by apply past_start_add.
      * exists rest. split; [simpl; by f_equal | done].
Qed.

(** The shape of every plan over non-negative durations: descriptors
    skipped, then the plan, then the rest from the [break] on. *)
Lemma build_plan_shape (start_time end_time : F) (segment_urls : list descriptor)
    (t : F) :
  (of_int 0 <=? t) = true -> nonnegative segment_urls ->
  exists skipped rest,
    segment_urls = skipped ++ build_plan start_time end_time segment_urls t ++ rest
    /\ build_plan start_time end_time skipped t = []
    /\ passes start_time end_time skipped t = true
    /\ match rest with
       | [] => True
       | y :: _ =>
           loop_action start_time end_time
             (time_after t (skipped ++ build_plan start_time end_time segment_urls t))
             (segment_duration y) = Stop
       end.
Proof.
  intros Ht Hnn. revert t Ht.
  induction Hnn as [|x segment_urls Hx Hnn IH]; intros t Ht.
  - by exists [], [].
  - simpl.
    destruct (loop_action start_time end_time t (segment_duration x)) eqn:Hact.
    + destruct (IH (t + segment_duration x)) as (skipped & rest & Heq & Hnone & Hpass & Hrest);
        [by apply f_add_nonneg|].
      exists (x :: skipped), rest. simpl. rewrite Hact.
      split; [by f_equal|done].
    + by exists [], (x :: segment_urls).
    + apply loop_action_fetch in Hact as Hfetch. destruct Hfetch as [Hns _].
      destruct (build_plan_prefix start_time end_time segment_urls
                  (t + segment_duration x)) as (rest & Heq & Hrest);
        [by apply f_add_nonneg | done | by apply past_start_intro |].
      exists [], rest. simpl.
      split; [by f_equal|done].
Qed.

End Contiguity.

(** C9.  Over non-negative durations the plan of [download_segments] is
    a contiguous run of the manifest: the manifest is the descriptors
    skipped, then the plan, then the rest, which starts at the descriptor
    of the [break]; and once the skip test has failed at a descriptor it
    fails at every later one. *)
Theorem plan_contiguous (F : Type) (HF : PyFloat F) (HO : OrderedAdd F)
    (start_time end_time : F) (segment_urls : list descriptor) :
  nonnegative segment_urls ->
  (exists skipped rest,
      segment_urls
      = skipped ++ build_plan start_time end_time segment_urls (of_int 0) ++ rest
      /\ build_plan start_time end_time skipped (of_int 0) = []
      /\ passes start_time end_time skipped (of_int 0) = true
      /\ match rest with
         | [] => True
         | y :: _ =>
             loop_action start_time end_time
               (time_after (of_int 0)
                  (skipped ++ build_plan start_time end_time segment_urls (of_int 0)))
               (segment_duration y) = Stop
         end)
  /\ (forall passed x between y after,
         segment_urls = passed ++ x :: between ++ y :: after ->
         (time_after (of_int 0) passed + segment_duration x <? start_time) = false ->
         (time_after (of_int 0) (passed ++ x :: between) + segment_duration y
            <? start_time) = false).
Proof.
  intros Hnn. split.
  - apply build_plan_shape; [apply f_le_zero | done].
  - intros passed x between y after -> Hx.
    apply Forall_app in Hnn as [Hpassed Hnn].
    apply Forall_cons in Hnn as [Hdx Hnn].
    apply Forall_app in Hnn as [Hbetween Hnn].
    apply Forall_cons in Hnn as [Hdy _].
    pose proof (time_after_nonneg _ _ f_le_zero Hpassed) as Ht.
    destruct (f_add_nonneg _ _ Ht Hdx) as [_ Htx].
    apply (past_start_intro start_time) in Hx.
    apply Hx.
    replace (time_after (of_int 0) (passed ++ x :: between) + segment_duration y)
      with (time_after (time_after (of_int 0) passed + segment_duration x)
              (between ++ [y])).
    + destruct between as [|b between]; simpl.
      * by apply f_add_nonneg.
      * apply (time_after_increases _ b (between ++ [y])); [done|].
        apply Forall_cons in Hbetween as [Hb Hbetween].
        apply Forall_cons. split; [done|].
        apply Forall_app. split; [done|]. by apply Forall_cons.
    + rewrite time_after_snoc. f_equal.
      by rewrite time_after_app.
Qed.

(** ** Binary64 keeps the laws of the clock

    On the specification of the primitive floats: the comparison is a
    lexicographic order on sign, exponent and mantissa, and the sum of
    two non-negative numbers, rounded, is not below either of them. *)

Section Binary64Laws.

Local Open Scope Z_scope.

Abbreviation prec := FloatOps.prec.
Abbreviation emax := FloatOps.emax.

Ltac compare_cases :=
  repeat match goal with
         | H : context [Z.compare ?a ?b] |- _ => destruct (Z.compare_spec a b)
         | |- context [Z.compare ?a ?b] => destruct (Z.compare_spec a b)
         | H : context [Pos.compare_cont Eq ?a ?b] |- _ =>
             change (Pos.compare_cont Eq a b) with (Pos.compare a b) in H
         | |- context [Pos.compare_cont Eq ?a ?b] =>
             change (Pos.compare_cont Eq a b) with (Pos.compare a b)
         | H : context [Pos.compare ?a ?b] |- _ => destruct (Pos.compare_spec a b)
         | |- context [Pos.compare ?a ?b] => destruct (Pos.compare_spec a b)
         end.

Lemma SFleb_trans x y z : SFleb x y = true -> SFleb y z = true -> SFleb x z = true.
Proof.
  unfold SFleb.
  destruct x as [[]|[]| |[] mx ex], y as [[]|[]| |[] my ey], z as [[]|[]| |[] mz ez];
    simpl; try discriminate; try reflexivity;
    compare_cases; simpl; subst; try discriminate; try reflexivity; try lia.
Qed.

Lemma SFleb_ltb_trans x y z : SFleb x y = true -> SFltb y z = true -> SFltb x z = true.
Proof.
  unfold SFleb, SFltb.
  destruct x as [[]|[]| |[] mx ex], y as [[]|[]| |[] my ey], z as [[]|[]| |[] mz ez];
    simpl; try discriminate; try reflexivity;
    compare_cases; simpl; subst; try discriminate; try reflexivity; try lia.
Qed.

(** The number of binary digits. *)
Lemma digits2_log2 (p : positive) : Zpos (digits2_pos p) = Z.log2 (Zpos p) + 1.
Proof.
  induction p as [p IH|p IH|]; simpl digits2_pos.
  - rewrite Pos2Z.inj_succ, IH.
    change (Zpos p~1) with (2 * Zpos p + 1).
    rewrite Z.log2_succ_double by lia. lia.
  - rewrite Pos2Z.inj_succ, IH.
    change (Zpos p~0) with (2 * Zpos p).
    rewrite Z.log2_double by lia. lia.
  - reflexivity.
Qed.

Lemma digits2_le (p q : positive) : (p <= q)%positive -> Zpos (digits2_pos p) <= Zpos (digits2_pos q).
Proof.
  intros Hpq. rewrite !digits2_log2.
  apply Z.add_le_mono_r, Z.log2_le_mono. lia.
Qed.

Lemma digits2_shift (p : positive) (k : Z) (q : positive) :
  0 <= k -> Zpos q = Zpos p * 2 ^ k ->
  Zpos (digits2_pos q) = Zpos (digits2_pos p) + k.
Proof.
  intros Hk Hq. rewrite !digits2_log2, Hq.
  rewrite Z.log2_mul_pow2 by lia. lia.
Qed.

(** [p >= 2^k] exactly when it has more than [k] digits. *)
Lemma digits2_gt (p : positive) (k : Z) :
  0 <= k -> k < Zpos (digits2_pos p) -> 2 ^ k <= Zpos p.
Proof.
  intros Hk Hlt. rewrite digits2_log2 in Hlt.
  apply Z.le_trans with (2 ^ Z.log2 (Zpos p)).
  - apply Z.pow_le_mono_r; lia.
  - apply Z.log2_spec. lia.
Qed.

Lemma shl_align_spec (mx : positive) (ex ex' : Z) :
  snd (shl_align mx ex ex') = Z.min ex ex'
  /\ Zpos (fst (shl_align mx ex ex')) = Zpos mx * 2 ^ (ex - Z.min ex ex').
Proof.
  unfold shl_align.
  destruct (ex' - ex) as [|d|d] eqn:Hd; cbn [fst snd].
  - replace (Z.min ex ex') with ex by lia. rewrite Z.sub_diag, Z.pow_0_r. lia.
  - replace (Z.min ex ex') with ex by lia. rewrite Z.sub_diag, Z.pow_0_r. lia.
  - replace (Z.min ex ex') with ex' by lia. split; [reflexivity|].
    replace (ex - ex') with (Zpos d) by lia.
    clear. induction d using Pos.peano_ind.
    + cbn [Pos.iter]. rewrite Z.pow_1_r. lia.
    + rewrite Pos.iter_succ, Pos2Z.inj_succ, Z.pow_succ_r by lia.
      rewrite Pos2Z.inj_xO, IHd. ring.
Qed.

(** Shifting right divides by a power of two. *)
Lemma shr_1_m (mrs : shr_record) :
  0 <= shr_m mrs -> shr_m (shr_1 mrs) = shr_m mrs / 2.
Proof.
  destruct mrs as [m r s]. simpl. intros Hm.
  destruct m as [|[p|p|]|p]; simpl; try reflexivity; try lia.
  - rewrite Pos2Z.inj_xI. apply Z.div_unique with 1; lia.
  - rewrite Pos2Z.inj_xO. apply Z.div_unique with 0; lia.
Qed.

Lemma iter_shr_1_m (n : positive) (mrs : shr_record) :
  0 <= shr_m mrs ->
  shr_m (SpecFloat.iter_pos shr_1 n mrs) = shr_m mrs / 2 ^ Zpos n.
Proof.
  revert mrs.
  induction n as [n IH|n IH|]; intros mrs Hm; simpl SpecFloat.iter_pos.
  - assert (H1 : 0 <= shr_m (shr_1 mrs))
      by (rewrite shr_1_m by assumption; apply Z.div_pos; lia).
    assert (H2 : 0 <= shr_m (SpecFloat.iter_pos shr_1 n (shr_1 mrs)))
      by (rewrite IH by assumption; apply Z.div_pos; lia).
    rewrite IH, IH, shr_1_m by assumption.
    rewrite !Z.div_div by lia.
    f_equal.
    replace (Zpos n~1) with (1 + (Zpos n + Zpos n)) by lia.
    rewrite Z.pow_add_r, Z.pow_add_r, Z.pow_1_r by lia. ring.
  - assert (H2 : 0 <= shr_m (SpecFloat.iter_pos shr_1 n mrs))
      by (rewrite IH by assumption; apply Z.div_pos; lia).
    rewrite IH, IH by assumption.
    rewrite !Z.div_div by lia.
    f_equal.
    replace (Zpos n~0) with (Zpos n + Zpos n) by lia.
    rewrite Z.pow_add_r by lia. ring.
  - rewrite shr_1_m by assumption. reflexivity.
Qed.

Lemma fexp_spec (e : Z) : SpecFloat.fexp prec emax e = Z.max (e - 53) (-1074).
Proof. reflexivity. Qed.

Lemma shr_record_of_loc_m (m : Z) (l : location) : shr_m (shr_record_of_loc m l) = m.
Proof. destruct l as [|[]]; reflexivity. Qed.

Lemma shr_fexp_spec (p : positive) (e : Z) (l : location) :
  let t := SpecFloat.fexp prec emax (Zpos (digits2_pos p) + e) in
  snd (shr_fexp prec emax (Zpos p) e l) = Z.max e t
  /\ shr_m (fst (shr_fexp prec emax (Zpos p) e l)) = Zpos p / 2 ^ (Z.max e t - e).
Proof.
  intros t. unfold shr_fexp, shr. cbn [Zdigits2]. fold t.
  destruct (t - e) as [|n|n] eqn:Hn; cbn [fst snd].
  - replace (Z.max e t) with e by lia.
    rewrite Z.sub_diag, Z.pow_0_r, Z.div_1_r, shr_record_of_loc_m. split; reflexivity.
  - replace (Z.max e t) with t by lia. split; [lia|].
    rewrite iter_shr_1_m by (rewrite shr_record_of_loc_m; lia).
    rewrite shr_record_of_loc_m. f_equal. f_equal. lia.
  - replace (Z.max e t) with e by lia.
    rewrite Z.sub_diag, Z.pow_0_r, Z.div_1_r, shr_record_of_loc_m. split; reflexivity.
Qed.

Lemma round_nearest_even_ge (m : Z) (l : location) :
  m <= round_nearest_even m l <= m + 1.
Proof.
  unfold round_nearest_even. destruct l as [|[]]; try lia.
  destruct (Z.even m); lia.
Qed.

(** A positive mantissa with more digits than the shift survives it. *)
Lemma shift_pos (p : positive) (k : Z) :
  0 <= k -> k < Zpos (digits2_pos p) -> 0 < Zpos p / 2 ^ k.
Proof.
  intros Hk Hlt. apply Z.div_str_pos. split; [lia|].
  apply digits2_gt; assumption.
Qed.

Lemma digits2_pos_pos (p : positive) : 0 < Zpos (digits2_pos p).
Proof. lia. Qed.

Lemma binary_round_aux_lower (p : positive) (e : Z) (l : location) :
  -1074 < Zpos (digits2_pos p) + e ->
  let t := SpecFloat.fexp prec emax (Zpos (digits2_pos p) + e) in
  let e1 := Z.max e t in
  let m1 := Zpos p / 2 ^ (e1 - e) in
  binary_round_aux prec emax false (Zpos p) e l = S754_infinity false
  \/ exists m' e',
      binary_round_aux prec emax false (Zpos p) e l = S754_finite false m' e'
      /\ e1 <= e' /\ (e' = e1 -> m1 <= Zpos m').
Proof.
  intros HD t e1 m1.
  assert (Ht : t = Z.max (Zpos (digits2_pos p) + e - 53) (-1074)) by reflexivity.
  assert (Hm1 : 0 < m1) by (apply shift_pos; lia).
  unfold binary_round_aux.
  destruct (shr_fexp_spec p e l) as [He' Hm'].
  destruct (shr_fexp prec emax (Zpos p) e l) as [mrs' e'].
  cbn [fst snd] in He', Hm'. fold t in He', Hm'. fold e1 in He', Hm'. fold m1 in Hm'.
  subst e'.
  pose proof (round_nearest_even_ge (shr_m mrs') (loc_of_shr_record mrs')) as Hround.
  rewrite Hm' in Hround.
  destruct (round_nearest_even (shr_m mrs') (loc_of_shr_record mrs')) as [|p2|p2] eqn:Hp2;
    try lia.
  { rewrite Hm' in Hp2. rewrite Hp2 in Hround. lia. }
  2:{ rewrite Hm' in Hp2. rewrite Hp2 in Hround. lia. }
  rewrite Hm' in Hp2. rewrite Hp2 in Hround.
  destruct (shr_fexp_spec p2 e1 loc_Exact) as [He'' Hm''].
  destruct (shr_fexp prec emax (Zpos p2) e1 loc_Exact) as [mrs'' e''].
  cbn [fst snd] in He'', Hm''.
  set (t2 := SpecFloat.fexp prec emax (Zpos (digits2_pos p2) + e1)) in *.
  assert (Ht2 : t2 = Z.max (Zpos (digits2_pos p2) + e1 - 53) (-1074)) by reflexivity.
  assert (Hpos : 0 < shr_m mrs'').
  { rewrite Hm''. apply shift_pos; lia. }
  destruct (shr_m mrs'') as [|m''|m''] eqn:Hshr; try lia.
  destruct (Z.leb e'' (emax - prec)); [right | left; reflexivity].
  exists m'', e''. split; [reflexivity|]. split; [lia|].
  intros Heq. rewrite <- He'', Heq, Z.sub_diag, Z.pow_0_r, Z.div_1_r in Hm''. lia.
Qed.

Lemma canonical_exponent (m : positive) (e : Z) :
  bounded prec emax m e = true ->
  Z.max (Zpos (digits2_pos m) + e - 53) (-1074) = e.
Proof.
  unfold bounded, canonical_mantissa. intros H.
  apply andb_prop in H as [H _]. apply Z.eqb_eq in H. exact H.
Qed.

Lemma SFleb_finite_lower (mx : positive) (ex : Z) (r : spec_float) (t m1 : Z) :
  ex <= t -> (t = ex -> Zpos mx <= m1) ->
  (r = S754_infinity false
   \/ exists m' e', r = S754_finite false m' e' /\ t <= e' /\ (e' = t -> m1 <= Zpos m')) ->
  SFleb (S754_finite false mx ex) r = true /\ SFleb (S754_zero false) r = true.
Proof.
  intros Ht Hm [->|(m' & e' & -> & He' & Hm')]; [split; reflexivity|].
  split; [|reflexivity].
  unfold SFleb. cbn [SFcompare].
  destruct (Z.compare_spec ex e') as [Heq|Hlt|Hgt]; [|reflexivity|lia].
  change (Pos.compare_cont Eq mx m') with (Pos.compare mx m').
  destruct (Pos.compare_spec mx m') as [?|?|Hgt]; try reflexivity.
  assert (e' = t) by lia. specialize (Hm' H). assert (t = ex) by lia.
  specialize (Hm H0). lia.
Qed.

Lemma SFadd_finite_lower (mx : positive) (ex : Z) (my : positive) (ey : Z) :
  bounded prec emax mx ex = true -> bounded prec emax my ey = true ->
  SFleb (S754_finite false mx ex)
    (SFadd prec emax (S754_finite false mx ex) (S754_finite false my ey)) = true
  /\ SFleb (S754_zero false)
       (SFadd prec emax (S754_finite false mx ex) (S754_finite false my ey)) = true.
Proof.
  intros Hx Hy.
  apply canonical_exponent in Hx, Hy.
  cbn [SFadd cond_Zopp].
  set (ez := Z.min ex ey).
  destruct (shl_align_spec mx ex ez) as [_ Hmx].
  destruct (shl_align_spec my ey ez) as [_ Hmy].
  replace (Z.min ex ez) with ez in Hmx by lia.
  replace (Z.min ey ez) with ez in Hmy by lia.
  set (mx' := fst (shl_align mx ex ez)) in *.
  set (my' := fst (shl_align my ey ez)) in *.
  change (Zpos mx' + Zpos my') with (Zpos (mx' + my')).
  cbn [binary_normalize]. unfold binary_round.
  set (M := (mx' + my')%positive).
  set (t := SpecFloat.fexp prec emax (Zpos (digits2_pos M) + ez)).
  assert (Ht : t = Z.max (Zpos (digits2_pos M) + ez - 53) (-1074)) by reflexivity.
  assert (Hdx : Zpos (digits2_pos mx') = Zpos (digits2_pos mx) + (ex - ez))
    by (apply digits2_shift; [lia | exact Hmx]).
  assert (HdM : Zpos (digits2_pos mx') <= Zpos (digits2_pos M))
    by (apply digits2_le; lia).
  destruct (shl_align_spec M ez t) as [Hez2 Hmz].
  destruct (shl_align M ez t) as [mz ez2]. cbn [fst snd] in Hez2, Hmz.
  assert (Hdz : Zpos (digits2_pos mz) = Zpos (digits2_pos M) + (ez - ez2))
    by (apply digits2_shift; [lia | subst ez2; exact Hmz]).
  apply (SFleb_finite_lower mx ex _ t (Zpos mz / 2 ^ (t - ez2))).
  - lia.
  - intros Heq.
    assert (ez2 = ez) by lia. subst ez2.
    replace (ez - Z.min ez t) with 0 in Hmz by lia.
    rewrite Z.pow_0_r, Z.mul_1_r in Hmz. rewrite Hmz, Heq.
    apply Z.div_le_lower_bound; [apply Z.pow_pos_nonneg; lia|].
    unfold M. rewrite Pos2Z.inj_add, Hmx. 
    replace (Z.min ez ex) with ez by lia.
    rewrite (Z.mul_comm (2 ^ (ex - ez))). lia.
  - pose proof (binary_round_aux_lower mz ez2 loc_Exact) as Hlow.
    assert (Hmax : Z.max ez2 (SpecFloat.fexp prec emax (Zpos (digits2_pos mz) + ez2)) = t).
    { replace (Zpos (digits2_pos mz) + ez2) with (Zpos (digits2_pos M) + ez) by lia.
      fold t. lia. }
    cbn zeta in Hlow. rewrite Hmax in Hlow. apply Hlow. lia.
Qed.

Lemma SFadd_nonneg (x y : spec_float) :
  valid_binary x = true -> valid_binary y = true ->
  SFleb (S754_zero false) x = true -> SFleb (S754_zero false) y = true ->
  SFleb x (SFadd prec emax x y) = true
  /\ SFleb (S754_zero false) (SFadd prec emax x y) = true.
Proof.
  intros Hx Hy Hx0 Hy0.
  destruct x as [sx|[]| |[] mx ex]; try discriminate;
    destruct y as [sy|[]| |[] my ey]; try discriminate.
  - destruct sx, sy; split; reflexivity.
  - destruct sx; split; reflexivity.
  - destruct sx; split; reflexivity.
  - split; reflexivity.
  - split; reflexivity.
  - split; reflexivity.
  - split; [|reflexivity].
    unfold SFleb. cbn [SFadd SFcompare].
    rewrite Z.compare_refl.
    change (Pos.compare_cont Eq mx mx) with (Pos.compare mx mx).
    rewrite Pos.compare_refl. reflexivity.
  - split; reflexivity.
  - apply SFadd_finite_lower; assumption.
Qed.

Lemma float_le_trans (a b c : float) :
  (a <=? b)%float = true -> (b <=? c)%float = true -> (a <=? c)%float = true.
Proof. rewrite !leb_spec. apply SFleb_trans. Qed.

Lemma float_le_lt_trans (a b c : float) :
  (a <=? b)%float = true -> (b <? c)%float = true -> (a <? c)%float = true.
Proof. rewrite leb_spec, !ltb_spec. apply SFleb_ltb_trans. Qed.

Lemma float_add_nonneg (a d : float) :
  (0 <=? a)%float = true -> (0 <=? d)%float = true ->
  (a <=? a + d)%float = true /\ (0 <=? a + d)%float = true.
Proof.
  rewrite !leb_spec, add_spec.
  change (Prim2SF 0) with (S754_zero false).
  apply SFadd_nonneg; apply Prim2SF_valid.
Qed.

End Binary64Laws.

#[export] Instance binary64_ordered : OrderedAdd float.
Proof.
  split.
  - reflexivity.
  - apply float_le_trans.
  - apply float_le_lt_trans.
  - apply float_add_nonneg.
Qed.

(** Durations 4, 4, 4 in binary64 with start 5 and end 9: the first is
    skipped, the other two are the plan. *)
Lemma plan_contiguous_witness :
  nonnegative [seg "1.ts" 4; seg "2.ts" 4; seg "3.ts" 4]
  /\ exists skipped rest,
      [seg "1.ts" 4; seg "2.ts" 4; seg "3.ts" 4]
      = skipped
        ++ build_plan 5%float 9%float
             [seg "1.ts" 4; seg "2.ts" 4; seg "3.ts" 4] (of_int 0)
        ++ rest.
Proof.
  assert (Hnn : nonnegative [seg "1.ts" 4; seg "2.ts" 4; seg "3.ts" 4])
    by (repeat constructor).
  split; [exact Hnn|].
  destruct (plan_contiguous float binary64 binary64_ordered
              5%float 9%float _ Hnn)
    as [(skipped & rest & Heq & _) _].
  by exists skipped, rest.
Defined.

(** ** The numbers behind binary64 *)

Section Binary64Values.

Local Open Scope Z_scope.

Lemma digits2_lt (p : positive) : Zpos p < 2 ^ Zpos (digits2_pos p).
Proof.
  rewrite digits2_log2.
  pose proof (Z.log2_spec (Zpos p) (Pos2Z.is_pos p)) as [_ Hlt].
  by rewrite <- Z.add_1_r in Hlt.
Qed.

(** The mantissa and the exponent of a float of binary64. *)
Lemma bounded_range (m : positive) (e : Z) :
  bounded FloatOps.prec FloatOps.emax m e = true ->
  -1074 <= e /\ Zpos m < 2 ^ 53 /\ (-1074 < e -> 2 ^ 52 <= Zpos m).
Proof.
  intros Hbounded. pose proof (canonical_exponent m e Hbounded) as Hcanonical.
  pose proof (digits2_lt m) as Hlt.
  pose proof (digits2_pos_pos m) as Hpos.
  split; [lia|]. split.
  - eapply Z.lt_le_trans; [exact Hlt|].
    apply Z.pow_le_mono_r; lia.
  - intros He. apply digits2_gt; lia.
Qed.

(** A greater exponent makes a greater number. *)
Lemma bounded_magnitude (m1 : positive) (e1 : Z) (m2 : positive) (e2 : Z) :
  bounded FloatOps.prec FloatOps.emax m1 e1 = true ->
  bounded FloatOps.prec FloatOps.emax m2 e2 = true ->
  e1 < e2 ->
  Zpos m1 * 2 ^ (e1 + 1074) < Zpos m2 * 2 ^ (e2 + 1074).
Proof.
  intros (He1 & Hm1 & _)%bounded_range (He2 & _ & Hm2)%bounded_range Hlt.
  specialize (Hm2 ltac:(lia)).
  assert (Hpow : 0 < 2 ^ (e1 + 1074)) by (apply Z.pow_pos_nonneg; lia).
  replace (e2 + 1074) with ((e1 + 1074) + 1 + (e2 - e1 - 1)) by lia.
  rewrite (Z.pow_add_r 2 (e1 + 1074 + 1) (e2 - e1 - 1)) by lia.
  rewrite (Z.pow_add_r 2 (e1 + 1074) 1) by lia.
  assert (Hrest : 1 <= 2 ^ (e2 - e1 - 1))
    by (change 1 with (2 ^ 0); apply Z.pow_le_mono_r; lia).
  change (2 ^ 53) with (2 ^ 52 * 2) in Hm1. change (2 ^ 1) with 2.
  generalize dependent (2 ^ (e1 + 1074)). intros P HP.
  generalize dependent (2 ^ (e2 - e1 - 1)). intros R HR.
  generalize dependent (2 ^ 52). intros K Hm1 Hm2.
  assert (Hstep : P <= P * R) by nia.
  apply Z.lt_le_trans with (K * 2 * P); [nia|].
  apply Z.le_trans with (Zpos m2 * (2 * P)); nia.
Qed.

(** The comparison of two finite floats is the comparison of their
    numbers. *)
Lemma SFcompare_ulps (x y : spec_float) :
  valid_binary x = true -> valid_binary y = true ->
  Binary64.SFfinite x = true -> Binary64.SFfinite y = true ->
  match SFcompare x y with
  | Some Lt => Binary64.SFulps x < Binary64.SFulps y
  | Some Eq => Binary64.SFulps x = Binary64.SFulps y
  | Some Gt => Binary64.SFulps y < Binary64.SFulps x
  | None => False
  end.
Proof.
  destruct x as [sx|sx| |sx mx ex], y as [sy|sy| |sy my ey]; try discriminate;
    simpl; intros Hx Hy _ _.
  - done.
  - apply bounded_range in Hy as (He & _).
    assert (0 < 2 ^ (ey + 1074)) by (apply Z.pow_pos_nonneg; lia).
    destruct sy; nia.
  - apply bounded_range in Hx as (He & _).
    assert (0 < 2 ^ (ex + 1074)) by (apply Z.pow_pos_nonneg; lia).
    destruct sx; nia.
  - pose proof (bounded_range _ _ Hx) as (Hex & _).
    pose proof (bounded_range _ _ Hy) as (Hey & _).
    assert (0 < 2 ^ (ex + 1074)) by (apply Z.pow_pos_nonneg; lia).
    assert (0 < 2 ^ (ey + 1074)) by (apply Z.pow_pos_nonneg; lia).
    destruct sx, sy; try nia.
    + destruct (Z.compare_spec ex ey) as [->|Hlt|Hgt].
      * change (Pos.compare_cont Eq mx my) with (Pos.compare mx my).
        destruct (Pos.compare_spec mx my) as [->|Hm|Hm]; simpl; nia.
      * pose proof (bounded_magnitude _ _ _ _ Hx Hy Hlt). nia.
      * pose proof (bounded_magnitude _ _ _ _ Hy Hx Hgt). nia.
    + destruct (Z.compare_spec ex ey) as [->|Hlt|Hgt].
      * change (Pos.compare_cont Eq mx my) with (Pos.compare mx my).
        destruct (Pos.compare_spec mx my) as [->|Hm|Hm]; simpl; nia.
      * pose proof (bounded_magnitude _ _ _ _ Hx Hy Hlt). nia.
      * pose proof (bounded_magnitude _ _ _ _ Hy Hx Hgt). nia.
Qed.

End Binary64Values.

Section Binary64Order.

Local Open Scope Q_scope.

Lemma value_le (a b : float) :
  (Binary64.ulps a <= Binary64.ulps b)%Z -> Binary64.value a <= Binary64.value b.
Proof.
  intros Hle. unfold Binary64.value.
  apply Qmult_le_compat_r; [by rewrite <- Zle_Qle | done].
Qed.

Lemma finite_spec (a : float) : Binary64.finite a = Binary64.SFfinite (Prim2SF a).
Proof. reflexivity. Qed.

Lemma ulps_spec (a : float) : Binary64.ulps a = Binary64.SFulps (Prim2SF a).
Proof. reflexivity. Qed.

(** [a < b] is false: the number of [b] is not above the one of [a]. *)
Lemma ltb_false_value (a b : float) :
  Binary64.finite a = true -> Binary64.finite b = true ->
  (a <? b)%float = false -> Binary64.value b <= Binary64.value a.
Proof.
  rewrite !finite_spec, ltb_spec. intros Ha Hb Hlt.
  apply value_le. rewrite !ulps_spec.
  pose proof (SFcompare_ulps _ _ (Prim2SF_valid a) (Prim2SF_valid b) Ha Hb) as Hcompare.
  unfold SFltb in Hlt.
  destruct (SFcompare (Prim2SF a) (Prim2SF b)) as [[]|]; try done; lia.
Qed.

(** [a <= b] is true: so are their numbers. *)
Lemma leb_true_value (a b : float) :
  Binary64.finite a = true -> Binary64.finite b = true ->
  (a <=? b)%float = true -> Binary64.value a <= Binary64.value b.
Proof.
  rewrite !finite_spec, leb_spec. intros Ha Hb Hle.
  apply value_le. rewrite !ulps_spec.
  pose proof (SFcompare_ulps _ _ (Prim2SF_valid a) (Prim2SF_valid b) Ha Hb) as Hcompare.
  unfold SFleb in Hle.
  destruct (SFcompare (Prim2SF a) (Prim2SF b)) as [[]|]; try done; lia.
Qed.

(** The number of a float that is not below zero is not below 0,
    infinity counting for 0. *)
Lemma leb_zero_value (d : float) :
  (0 <=? d)%float = true -> 0 <= Binary64.value d.
Proof.
  rewrite leb_spec. intros Hle.
  apply Qle_trans with (Binary64.value 0%float); [by vm_compute|].
  apply value_le.
  rewrite !ulps_spec. change (Prim2SF 0) with (S754_zero false) in *.
  pose proof (Prim2SF_valid d) as Hvalid.
  destruct (Prim2SF d) as [s|s| |s m e]; simpl; try done.
  destruct s; [done|].
  apply bounded_range in Hvalid as (He & _).
  assert (0 < 2 ^ (e + 1074))%Z by (apply Z.pow_pos_nonneg; lia).
  nia.
Qed.

End Binary64Order.

(** ** The overshoot of the window *)

Section Overshoot.

Local Open Scope Q_scope.

Local Ltac float_add := change (@f_add float binary64) with PrimFloat.add in *.

Lemma total_value_cons (d : float) (durations : list float) :
  total_value (d :: durations) = Binary64.value d + total_value durations.
Proof. reflexivity. Qed.

Lemma last_duration_cons {F : Type} `{PyFloat F} (x : descriptor (F:=F))
    (plan : list descriptor) :
  last_duration (x :: plan)
  = match plan with [] => segment_duration x | _ => last_duration plan end.
Proof.
  unfold last_duration. destruct plan as [|y plan]; [done|].
  by rewrite last_cons_cons.
Qed.

(** Past the start: the time at which the plan ends exceeds [end_time]
    by at most the last planned duration. *)
Lemma plan_end (start_time end_time : float) (segment_urls : list descriptor)
    (t : float) :
  Binary64.finite end_time = true -> Binary64.finite t = true ->
  nonnegative segment_urls ->
  exact_clock start_time end_time segment_urls t ->
  let plan := build_plan start_time end_time segment_urls t in
  plan = []
  \/ Binary64.value t + total_value (map segment_duration plan)
     <= Binary64.value end_time + Binary64.value (last_duration plan).
Proof.
  intros Hend Ht Hnn. revert t Ht.
  induction Hnn as [|x segment_urls Hx Hnn IH]; intros t Ht Hexact; [by left|].
  apply leb_zero_value in Hx.
  cbn [build_plan exact_clock] in Hexact |- *.
  destruct (loop_action start_time end_time t (segment_duration x)) eqn:Hact.
  - destruct Hexact as (Hfinite & Hsum & Hexact).
    destruct (IH _ Hfinite Hexact) as [Hnil|Hle]; [by left|].
    right. cbn zeta in Hle. float_add. rewrite Hsum in Hle. lra.
  - by left.
  - destruct Hexact as (Hfinite & Hsum & Hexact).
    apply loop_action_fetch in Hact as [_ Hstop].
    apply ltb_false_value in Hstop; [|done..].
    right. rewrite last_duration_cons, map_cons, total_value_cons.
    destruct (IH _ Hfinite Hexact) as [Hnil|Hle]; cbn zeta in *; float_add.
    + rewrite Hnil. cbn. lra.
    + rewrite Hsum in Hle.
      destruct (build_plan start_time end_time segment_urls (t + segment_duration x)%float);
        [cbn in *; lra | lra].
Qed.

Lemma plan_overshoot (start_time end_time : float) (segment_urls : list descriptor)
    (t : float) :
  Binary64.finite start_time = true -> Binary64.finite end_time = true ->
  Binary64.finite t = true ->
  Binary64.value start_time <= Binary64.value end_time ->
  nonnegative segment_urls ->
  exact_clock start_time end_time segment_urls t ->
  let plan := build_plan start_time end_time segment_urls t in
  plan = []
  \/ total_value (map segment_duration plan)
     <= (Binary64.value end_time - Binary64.value start_time)
        + Binary64.value (first_duration plan) + Binary64.value (last_duration plan).
Proof.
  intros Hstart Hend Ht Hwindow Hnn. revert t Ht.
  induction Hnn as [|x segment_urls Hx Hnn IH]; intros t Ht Hexact; [by left|].
  apply leb_zero_value in Hx.
  cbn [build_plan exact_clock] in Hexact |- *.
  destruct (loop_action start_time end_time t (segment_duration x)) eqn:Hact.
  - destruct Hexact as (Hfinite & Hsum & Hexact). by apply IH.
  - by left.
  - destruct Hexact as (Hfinite & Hsum & Hexact).
    apply loop_action_fetch in Hact as [Hskip Hstop].
    apply ltb_false_value in Hskip; [|done..].
    apply ltb_false_value in Hstop; [|done..].
    right. rewrite last_duration_cons, map_cons, total_value_cons.
    unfold first_duration at 1. cbn [head from_option].
    destruct (plan_end start_time end_time segment_urls _ Hend Hfinite Hnn Hexact)
      as [Hnil|Hle]; cbn zeta in *; float_add.
    + rewrite Hnil. cbn. lra.
    + rewrite Hsum in Hle, Hskip.
      destruct (build_plan start_time end_time segment_urls (t + segment_duration x)%float);
        [cbn in *; lra | lra].
Qed.

End Overshoot.

(** C5, amended.  In a run of the loop that adds without rounding
    ([exact_clock]), over non-negative durations and a window of finite
    bounds with [start <= end], the numbers of the planned durations add
    up to at most [end - start] plus the duration of the first planned
    segment plus the duration of the last one (both [0] when nothing is
    planned).  The durations and the bounds are the binary64 floats of
    the program, and the sum and the bound are those of their numbers. *)
Theorem window_overshoot (start_time end_time : float)
    (segment_urls : list descriptor) :
  nonnegative segment_urls ->
  (start_time <=? end_time)%float = true ->
  Binary64.finite start_time = true -> Binary64.finite end_time = true ->
  exact_clock start_time end_time segment_urls (of_int 0) ->
  (total_value
     (map segment_duration (build_plan start_time end_time segment_urls (of_int 0)))
   <= (Binary64.value end_time - Binary64.value start_time)
      + Binary64.value
          (first_duration (build_plan start_time end_time segment_urls (of_int 0)))
      + Binary64.value
          (last_duration (build_plan start_time end_time segment_urls (of_int 0))))%Q.
Proof.
  intros Hnn Hwindow Hstart Hend Hexact.
  apply leb_true_value in Hwindow; [|done..].
  assert (Hzero' : Binary64.finite (of_int 0) = true) by by vm_compute.
  destruct (plan_overshoot start_time end_time segment_urls (of_int 0)
              Hstart Hend Hzero' Hwindow Hnn Hexact) as [Hnil|Hle]; [|exact Hle].
  cbn zeta in Hnil. rewrite Hnil. cbn.
  change (Binary64.value (Binary64.of_Z 0)) with (Binary64.value 0%float).
  assert (Hzero : (Binary64.value 0%float == 0)%Q) by by vm_compute.
  rewrite Hzero. lra.
Qed.

(** Durations 4, 4, 4 with start 5 and end 9: the clock goes through 4,
    8 and 12 without rounding, and 8 seconds are planned for a window of
    4, within [4 + 4 + 4]. *)
Lemma window_overshoot_witness :
  (total_value
     (map segment_duration
        (build_plan 5%float 9%float [seg "1.ts" 4; seg "2.ts" 4; seg "3.ts" 4] (of_int 0)))
   <= (Binary64.value 9%float - Binary64.value 5%float)
      + Binary64.value
          (first_duration
             (build_plan 5%float 9%float [seg "1.ts" 4; seg "2.ts" 4; seg "3.ts" 4]
                (of_int 0)))
      + Binary64.value
          (last_duration
             (build_plan 5%float 9%float [seg "1.ts" 4; seg "2.ts" 4; seg "3.ts" 4]
                (of_int 0))))%Q.
Proof.
  apply (window_overshoot 5%float 9%float [seg "1.ts" 4; seg "2.ts" 4; seg "3.ts" 4]).
  - repeat constructor.
  - reflexivity.
  - reflexivity.
  - reflexivity.
  - repeat split; by vm_compute.
Defined.

(** On binary64 the clock stops advancing at [2^53], where adding [1]
    rounds back to [2^53]: with start and end both [2^53], after a first
    segment of [2^53 - 1] seconds every segment of one second is planned.
    Five seconds are planned for a window of none, the first and the last
    planned segment being of one second each. *)
Lemma window_overshoot_binary64 :
  let segment_urls :=
    [seg "0.ts" 9007199254740991; seg "1.ts" 1; seg "2.ts" 1; seg "3.ts" 1;
     seg "4.ts" 1; seg "5.ts" 1] in
  let start_time := 9007199254740992%float in
  let end_time := 9007199254740992%float in
  let plan := build_plan start_time end_time segment_urls (of_int 0) in
  nonnegative segment_urls
  /\ (start_time <=? end_time) = true
  /\ plan = [seg "1.ts" 1; seg "2.ts" 1; seg "3.ts" 1; seg "4.ts" 1; seg "5.ts" 1]
  /\ f_sum (map segment_duration plan) = 5%float
  /\ (end_time - start_time) + first_duration plan + last_duration plan = 2%float
  /\ (f_sum (map segment_duration plan)
       <=? (end_time - start_time) + first_duration plan + last_duration plan)
      = false.
Proof. split; [repeat constructor|]. by vm_compute. Qed.

(** ** The concatenation manifest *)

Section ConcatFacts.

Lemma append_cons (c : ascii) (s t : string) : String c s +:+ t = String c (s +:+ t).
Proof. reflexivity. Qed.

Lemma append_nil_l (s : string) : "" +:+ s = s.
Proof. reflexivity. Qed.


Lemma append_assoc (a b c : string) : (a +:+ b) +:+ c = a +:+ (b +:+ c).
Proof. induction a as [|x a IH]; [done|]. by rewrite !append_cons, IH. Qed.

Lemma join_app (l1 l2 : list string) : Str.join (l1 ++ l2) = Str.join l1 +:+ Str.join l2.
Proof.
  induction l1 as [|s l1 IH]; simpl; [done|].
  by rewrite IH, append_assoc.
Qed.

Lemma contains_app (c : ascii) (a b : string) :
  Str.contains c (a +:+ b) = Str.contains c a || Str.contains c b.
Proof.
  induction a as [|x a IH]; [done|].
  rewrite append_cons. simpl. by rewrite IH, orb_assoc.
Qed.

(** Splitting at a character that the first piece does not hold. *)
Lemma split_append (c : ascii) (a rest : string) :
  Str.contains c a = false ->
  Str.split c (a +:+ String c rest) = a :: Str.split c rest.
Proof.
  induction a as [|x a IH]; intros Hfree.
  - rewrite append_nil_l. simpl. by rewrite Ascii.eqb_refl.
  - simpl in Hfree. apply orb_false_iff in Hfree as [Hx Hfree].
    rewrite append_cons. simpl. by rewrite Hx, (IH Hfree).
Qed.


Variable env : environment.


End ConcatFacts.

(** *** No line feed in a local path *)

Section LineFeeds.

Context {F : Type} `{PyFloat F}.











Lemma with_duration_urls (segment_urls : list (segment (F:=F)))
    (descriptors : list descriptor) :
  omap with_duration segment_urls = Return descriptors ->
  map segment_url descriptors = map url segment_urls.
Proof.
  revert descriptors.
  induction segment_urls as [|s segment_urls IH]; intros descriptors.
  - by intros [= <-].
  - simpl. unfold with_duration at 1.
    destruct (duration s); [|done]. simpl.
    destruct (omap with_duration segment_urls); [|done..]. simpl.
    intros [= <-]. simpl. f_equal. by apply IH.
Qed.

Lemma build_plan_Forall (P : descriptor (F:=F) -> Prop) start_time end_time
    (segment_urls : list descriptor) current_time :
  Forall P segment_urls ->
  Forall P (build_plan start_time end_time segment_urls current_time).
Proof.
  intros HP. revert current_time.
  induction HP as [|x segment_urls Hx _ IH]; intros current_time; simpl; [done|].
  destruct (loop_action _ _ _ _); [apply IH | done | constructor; [done | apply IH]].
Qed.


End LineFeeds.



(** ** Local paths shared by several segments *)

Lemma lookup_map {A B : Type} (f : A -> B) (l : list A) (i : nat) :
  map f l !! i = f <$> l !! i.
Proof.
  revert i. induction l as [|a l IH]; intros [|i]; simpl; auto.
Qed.

Section SharedPaths.

Context {F : Type} `{PyFloat F}.
Variable env : environment.

Lemma stored_lookup_other (plan : list (descriptor (F:=F))) n fs path :
  (forall z, z ∈ plan -> local_path z <> path) ->
  stored env n plan fs !! path = fs !! path.
Proof.
  revert n fs.
  induction plan as [|x plan IH]; intros n fs Hother; simpl; [done|].
  assert (Hx : local_path x <> path) by (apply Hother; by left).
  destruct (requests_get env n (segment_url x)) as [e|r]; [done|].
  destruct (open_wb (local_path x)); [|done..].
  destruct (stream_error r), (tqdm_update env (S n));
    try by apply lookup_insert_ne.
  rewrite IH; [by apply lookup_insert_ne|].
  intros z Hz. apply Hother. by right.
Qed.

(** The file at a local path holds what the last descriptor with that
    path brought. *)
Lemma stored_last_writer (plan : list (descriptor (F:=F))) w fs j y r :
  (forall k x, plan !! k = Some x -> exists r, delivered env w k x r) ->
  plan !! j = Some y ->
  delivered env w j y r ->
  (forall k z, (j < k)%nat -> plan !! k = Some z -> local_path z <> local_path y) ->
  stored env (length (requests w)) plan fs !! local_path y = Some (body r).
Proof.
  revert w fs j.
  induction plan as [|x plan IH]; intros w fs j Hok Hj Hr Hlast; [done|].
  destruct (Hok 0%nat x eq_refl) as (r0 & Hx).
  rewrite (stored_step env x plan w r0 fs Hx).
  assert (Htail : forall k z, plan !! k = Some z ->
                    exists r, delivered env (written (local_path x) (body r0)
                                               (requested (segment_url x) w)) k z r).
  { apply (delivered_tail env x plan w); [|done].
    simpl. rewrite length_app. simpl. lia. }
  assert (Hlength : length (requests (written (local_path x) (body r0)
                                        (requested (segment_url x) w)))
                    = S (length (requests w)))
    by (simpl; rewrite length_app; simpl; lia).
  destruct j as [|j].
  - injection Hj as ->.
    assert (r0 = r) as ->.
    { destruct Hx as [Hx _], Hr as [Hr _]. rewrite Hx in Hr. by injection Hr. }
    rewrite stored_lookup_other.
    + apply lookup_insert_eq.
    + intros z Hz. apply list_elem_of_lookup in Hz as [k Hk].
      apply (Hlast (S k)); [lia | done].
  - rewrite <- Hlength. apply (IH _ _ j); [done | done | |].
    + destruct (Htail j y Hj) as (r' & Hr').
      assert (r' = r) as ->; [|done].
      destruct Hr' as [Hr' _], Hr as [Hr _]. unfold reply in *.
      rewrite Hlength in Hr'.
      replace (S (length (requests w)) + j)%nat
        with (length (requests w) + S j)%nat in Hr' by lia.
      rewrite Hr in Hr'. by injection Hr'.
    + intros k z Hk Hz. apply (Hlast (S k)); [lia | done].
Qed.

End SharedPaths.

(** C10.  Two planned descriptors whose URLs end in the same file name
    (the last path component without its query string) get the same
    local path; when [download_segments] returns, its list holds that
    path at both positions, and the file at that path holds the body of
    the last planned descriptor with that path, so the later download has
    replaced the earlier one.  The concatenation manifest then names the
    path once per position.  Local paths need not be distinct. *)
Theorem shared_local_path :
  (forall (F : Type) (HF : PyFloat F) (env : environment) (start_time end_time : F)
          (segment_urls : list descriptor) (current_time : F) (w : world)
          (segment_files : list string) (w' : world),
      download_loop env start_time end_time segment_urls current_time [] w
      = (Return segment_files, w') ->
      forall (i j : nat) (x y : descriptor),
        (i < j)%nat ->
        build_plan start_time end_time segment_urls current_time !! i = Some x ->
        build_plan start_time end_time segment_urls current_time !! j = Some y ->
        file_name (segment_url x) = file_name (segment_url y) ->
        local_path x = local_path y
        /\ segment_files !! i = Some (local_path x)
        /\ segment_files !! j = Some (local_path x)
        /\ (exists r,
              delivered env w j y r
              /\ ((forall k z, (j < k)%nat ->
                     build_plan start_time end_time segment_urls current_time !! k = Some z ->
                     local_path z <> local_path y) ->
                  files w' !! local_path x = Some (body r)))
        /\ map (concat_line env) segment_files !! i = Some (concat_line env (local_path x))
        /\ map (concat_line env) segment_files !! j = Some (concat_line env (local_path x)))
  /\ (exists (env : environment) (w : world) (segment_files : list string),
         (download_loop env 0%float 8%float
            [seg "http://a/v/1.ts?k=1" 4; seg "http://b/v/1.ts?k=2" 4] 0%float [] w).1
         = Return segment_files
         /\ ~ NoDup segment_files).
Proof.
  split.
  - intros F HF env start_time end_time segment_urls current_time w segment_files w' Hrun
      i j x y Hij Hx Hy Hname.
    rewrite download_loop_plan in Hrun.
    destruct (fetch_all_inv env _ _ _ _ _ Hrun) as [Hfiles Hok].
    rewrite (fetch_all_returns env _ _ _ Hok) in Hrun.
    injection Hrun as _ <-. simpl in Hfiles. subst segment_files.
    assert (Hpath : local_path x = local_path y)
      by (unfold local_path, segment_name; by rewrite Hname).
    split; [done|].
    split; [by rewrite lookup_map, Hx|].
    split; [by rewrite lookup_map, Hy, Hpath|].
    split.
    + destruct (Hok j y Hy) as (r & Hr). exists r. split; [done|].
      intros Hlast. simpl. rewrite Hpath.
      by apply (stored_last_writer env _ _ _ j y r).
    + rewrite !lookup_map, Hx, Hy. simpl. by rewrite Hpath.
  - exists (serve "" "" [] false), empty_world, ["segments/1.ts"; "segments/1.ts"].
    split; [vm_compute; reflexivity|].
    intros Hnodup. apply NoDup_cons in Hnodup as [Hin _].
    apply Hin. by left.
Qed.

(** Two URLs ending in [1.ts]: one local path, listed twice, holding
    the body of the second request. *)
Lemma shared_local_path_witness :
  local_path (seg "http://a/v/1.ts?k=1" 4) = local_path (seg "http://b/v/1.ts?k=2" 4)
  /\ ["segments/1.ts"; "segments/1.ts"] !! 1%nat
     = Some (local_path (seg "http://a/v/1.ts?k=1" 4))
  /\ files (download_loop (serve "" "" [] false) 0%float 8%float
              [seg "http://a/v/1.ts?k=1" 4; seg "http://b/v/1.ts?k=2" 4] 0%float []
              empty_world).2
     !! "segments/1.ts" = Some "segment 1".
Proof.
  assert (Hrun :
    download_loop (serve "" "" [] false) 0%float 8%float
      [seg "http://a/v/1.ts?k=1" 4; seg "http://b/v/1.ts?k=2" 4] 0%float [] empty_world
    = (Return ["segments/1.ts"; "segments/1.ts"],
       (download_loop (serve "" "" [] false) 0%float 8%float
          [seg "http://a/v/1.ts?k=1" 4; seg "http://b/v/1.ts?k=2" 4] 0%float []
          empty_world).2))
    by (apply injective_projections; [vm_compute; reflexivity | reflexivity]).
  destruct (proj1 shared_local_path float binary64 _ _ _ _ _ _ _ _ Hrun 0%nat 1%nat
              (seg "http://a/v/1.ts?k=1" 4) (seg "http://b/v/1.ts?k=2" 4))
    as (Hpath & _ & Hlisted & (r & [Hr _] & Hlast) & _);
    [lia | reflexivity | reflexivity | reflexivity |].
  split; [exact Hpath|]. split; [exact Hlisted|].
  injection Hr as <-.
  apply Hlast. intros [|[|k]] z Hk Hz; [lia | lia | discriminate].
Defined.

(** ** Lines of the manifest *)

Section ParseFacts.

Context {F : Type} `{PyFloat F}.

Lemma startswith_tag_comment (line : string) :
  Str.startswith "#EXTINF:" line = true -> Str.startswith "#" line = true.
Proof.
  unfold Str.startswith. destruct line as [|c line]; [done|].
  cbn [String.prefix]. destruct (ascii_dec "#" c); [|done].
  intros _. by destruct line.
Qed.

(** A line that does not start with [#] is taken as a URL, whatever it
    holds and whether or not a tag came before it. *)
Lemma parse_lines_url (line : string) (lines : list string)
    (current_segment : option F) (segment_urls : list segment) :
  Str.startswith "#" line = false ->
  parse_lines (line :: lines) current_segment segment_urls
  = parse_lines lines None
      (segment_urls ++ [{| duration := current_segment; url := Str.strip line |}]).
Proof.
  intros Hline. simpl. rewrite Hline. simpl.
  destruct (Str.startswith "#EXTINF:" line) eqn:Htag; [|done].
  apply startswith_tag_comment in Htag. congruence.
Qed.

(** A line that starts with [#] and is no duration tag is passed over. *)
Lemma parse_lines_comment (line : string) (lines : list string)
    (current_segment : option F) (segment_urls : list segment) :
  Str.startswith "#" line = true -> Str.startswith "#EXTINF:" line = false ->
  parse_lines (line :: lines) current_segment segment_urls
  = parse_lines lines current_segment segment_urls.
Proof. intros Hcomment Htag. simpl. by rewrite Htag, Hcomment. Qed.

(** Leaving such a line out of a manifest changes nothing. *)
Lemma parse_lines_omit (before : list string) (line : string) (after : list string)
    (current_segment : option F) (segment_urls : list segment) :
  Str.startswith "#" line = true -> Str.startswith "#EXTINF:" line = false ->
  parse_lines (before ++ line :: after) current_segment segment_urls
  = parse_lines (before ++ after) current_segment segment_urls.
Proof.
  intros Hcomment Htag. revert current_segment segment_urls.
  induction before as [|l before IH]; intros current_segment segment_urls.
  - by apply parse_lines_comment.
  - simpl. destruct (Str.startswith "#EXTINF:" l).
    + destruct (extinf_duration l); simpl; [apply IH | done | done].
    + destruct (negb (Str.startswith "#" l)); apply IH.
Qed.

(** A duration tag whose number [float()] rejects ends the parse. *)
Lemma parse_lines_bad_tag (line : string) (lines : list string)
    (current_segment : option F) (segment_urls : list segment) (e : exn) :
  Str.startswith "#EXTINF:" line = true ->
  extinf_duration line = Raise e ->
  parse_lines (line :: lines) current_segment segment_urls = Raise e.
Proof. intros Htag Hbad. simpl. by rewrite Htag, Hbad. Qed.

(** A duration tag followed by nothing but such lines leaves no entry. *)
Lemma parse_lines_dangling (lines : list string) (current_segment : option F)
    (segment_urls : list segment) :
  Forall (fun line => Str.startswith "#" line = true
                      /\ Str.startswith "#EXTINF:" line = false) lines ->
  parse_lines lines current_segment segment_urls = Return segment_urls.
Proof.
  induction 1 as [|line lines [Hcomment Htag] _ IH]; [done|].
  by rewrite parse_lines_comment.
Qed.

End ParseFacts.

(** ** The four fatal errors *)

Section ErrorFacts.

Context {F : Type} `{PyFloat F}.
Variable env : environment.
Variables (m3u8_url output_file : string) (start_time end_time : option string).
Variable w : world.

Lemma main_fetch_failed (e : string) :
  requests_get env (length (requests w)) m3u8_url = inl e ->
  main (F:=F) env m3u8_url output_file start_time end_time w
  = (SysExit 1, printed ("Error downloading M3U8 file: " +:+ e) (requested m3u8_url w)).
Proof.
  intros Hget.
  unfold main, download_video, create_segments_directory, download_m3u8_file,
    bind, get, ret.
  by rewrite Hget.
Qed.

Lemma main_parse_error (response : response) (why : value_error) :
  requests_get env (length (requests w)) m3u8_url = inr response ->
  parse_m3u8_file (F:=F) (text response) = Raise (ValueError why) ->
  main (F:=F) env m3u8_url output_file start_time end_time w
  = (SysExit 1, printed ("Error: " +:+ str_value_error why) (requested m3u8_url w)).
Proof.
  intros Hget Hparse.
  unfold main, download_video, create_segments_directory, download_m3u8_file,
    bind, get, ret, lift.
  rewrite Hget. simpl. by rewrite Hparse.
Qed.

Lemma main_time_error (response : response) (segment_urls : list segment)
    (descriptors : list descriptor) (why : value_error) :
  requests_get env (length (requests w)) m3u8_url = inr response ->
  parse_m3u8_file (F:=F) (text response) = Return segment_urls ->
  omap with_duration segment_urls = Return descriptors ->
  select_window (f_sum (map segment_duration descriptors)) start_time end_time
  = Raise (ValueError why) ->
  main (F:=F) env m3u8_url output_file start_time end_time w
  = (SysExit 1, printed ("Error: " +:+ str_value_error why) (requested m3u8_url w)).
Proof.
  intros Hget Hparse Hdur Hwindow.
  unfold main, download_video, create_segments_directory, download_m3u8_file,
    bind, get, ret, lift.
  rewrite Hget. simpl. rewrite Hparse.
  by rewrite download_segments_unfold, Hdur, Hwindow.
Qed.

(** A refused segment request under the progress bar: [sys.exit(1)]
    passes through the closing of the bar, which may raise in its place. *)
Lemma download_all_exits (pre : list (descriptor (F:=F))) x post e segment_files w1 :
  (forall k y, pre !! k = Some y -> exists r, delivered env w1 k y r) ->
  reply env w1 (length pre) x = inl e ->
  download_all env (pre ++ x :: post) segment_files w1
  = (match tqdm_close env (length (requests w1) + S (length pre)) with
     | Some err => Raise (bar_exn err)
     | None => SysExit 1
     end,
     {| files := stored env (length (requests w1)) pre (files w1);
        stdout := stdout w1 ++ [segment_error x e];
        requests := requests w1 ++ map segment_url (pre ++ [x]);
        commands := commands w1 |}).
Proof.
  intros Hok Hfail. unfold download_all, with_progress_bar.
  rewrite (fetch_all_exits env pre x post e segment_files w1 Hok Hfail).
  cbn [requests]. rewrite !length_app, length_map, length_app. cbn [length].
  replace (length (requests w1) + (length pre + 1))%nat
    with (length (requests w1) + S (length pre))%nat by lia.
  destruct (Nat.eqb_spec (length (requests w1) + S (length pre)) (length (requests w1)));
    [lia|].
  by destruct (tqdm_close env _).
Qed.

(** The world once [m3u8_url] and the URLs of [fetched] and of [x] were
    requested, the segments of [fetched] stored and [lines] printed. *)
Lemma main_segment_failed (response : response) (segment_urls : list segment)
    (descriptors : list descriptor) (window : F * F)
    (fetched : list descriptor) (x : descriptor) (left_out : list descriptor)
    (e : string) :
  requests_get env (length (requests w)) m3u8_url = inr response ->
  parse_m3u8_file (F:=F) (text response) = Return segment_urls ->
  omap with_duration segment_urls = Return descriptors ->
  select_window (f_sum (map segment_duration descriptors)) start_time end_time
  = Return window ->
  build_plan window.1 window.2 descriptors (of_int 0) = fetched ++ x :: left_out ->
  (forall k y, fetched !! k = Some y ->
               exists r, delivered env (requested m3u8_url w) k y r) ->
  reply env (requested m3u8_url w) (length fetched) x = inl e ->
  main (F:=F) env m3u8_url output_file start_time end_time w
  = match tqdm_close env (length (requests w) + length fetched + 2) with
    | None => (SysExit 1, refused_world env m3u8_url w fetched x [segment_error x e])
    | Some (BarValueError text) =>
        (SysExit 1,
         refused_world env m3u8_url w fetched x [segment_error x e; "Error: " +:+ text])
    | Some (BarOverflowError text) =>
        (Raise (OverflowError text),
         refused_world env m3u8_url w fetched x [segment_error x e])
    end.
Proof.
  intros Hget Hparse Hdur Hwindow Hplan Hok Hfail.
  unfold main, download_video, create_segments_directory, download_m3u8_file,
    bind, get, ret, lift.
  rewrite Hget. simpl. rewrite Hparse.
  rewrite download_segments_unfold, Hdur, Hwindow.
  destruct window as [s t]. simpl in Hplan. rewrite Hplan.
  rewrite (download_all_exits fetched x left_out e [] _ Hok Hfail).
  simpl. rewrite length_app. simpl.
  replace (length (requests w) + 1 + S (length fetched))%nat
    with (length (requests w) + length fetched + 2)%nat by lia.
  destruct (tqdm_close env _) as [[text|text]|];
    unfold refused_world, sys_exit, print, printed, bind; simpl;
    rewrite ?Nat.add_1_r, ?map_app, <- ?app_assoc; simpl;
    by rewrite <- ?app_assoc.
Qed.

Lemma main_ffmpeg_missing (response : response) (segment_urls : list segment)
    (descriptors : list descriptor) (window : F * F) :
  requests_get env (length (requests w)) m3u8_url = inr response ->
  parse_m3u8_file (F:=F) (text response) = Return segment_urls ->
  omap with_duration segment_urls = Return descriptors ->
  select_window (f_sum (map segment_duration descriptors)) start_time end_time
  = Return window ->
  (forall k y, build_plan window.1 window.2 descriptors (of_int 0) !! k = Some y ->
               exists r, delivered env (requested m3u8_url w) k y r) ->
  bar_closes env (requested m3u8_url w)
    (length (build_plan window.1 window.2 descriptors (of_int 0))) ->
  ffmpeg env = None ->
  main (F:=F) env m3u8_url output_file start_time end_time w
  = (SysExit 1,
     {| files :=
          <["segments.txt" :=
              concat_text env
                (map local_path (build_plan window.1 window.2 descriptors (of_int 0)))]>
            (stored env (S (length (requests w)))
               (build_plan window.1 window.2 descriptors (of_int 0)) (files w));
        stdout := stdout w ++ [ffmpeg_missing];
        requests :=
          requests w
          ++ m3u8_url
             :: map segment_url (build_plan window.1 window.2 descriptors (of_int 0));
        commands := commands w |}).
Proof.
  intros Hget Hparse Hdur Hwindow Hok Hquiet Hnone.
  unfold main, download_video, create_segments_directory, download_m3u8_file,
    bind, get, ret, lift.
  rewrite Hget. simpl. rewrite Hparse.
  rewrite download_segments_unfold, Hdur, Hwindow.
  destruct window as [s t]. simpl in Hok, Hquiet |- *.
  rewrite (download_all_returns env _ [] _ Hok Hquiet).
  unfold create_concat_file, combine_segments, bind, write_file, ret, print, sys_exit.
  rewrite Hnone. simpl.
  rewrite length_app, Nat.add_1_r. by rewrite <- app_assoc.
Qed.

End ErrorFacts.

Section WindowFacts.

Context {F : Type} `{PyFloat F}.

(** [select_window] fails exactly on a time string, given and not
    empty, that [convert_time_to_seconds] refuses: the start first. *)
Lemma select_window_raises (total_duration : F) (start_time end_time : option string)
    (e : exn) :
  select_window total_duration start_time end_time = Raise e
  <-> (exists s, given start_time = Some s /\ convert_time_to_seconds (F:=F) s = Raise e)
      \/ ((forall s, given start_time = Some s ->
                     exists x : F, convert_time_to_seconds s = Return x)
          /\ exists s, given end_time = Some s
                       /\ convert_time_to_seconds (F:=F) s = Raise e).
Proof.
  unfold select_window.
  destruct (given start_time) as [s|]; simpl.
  - destruct (convert_time_to_seconds s) as [x|e'|code] eqn:Hs; simpl.
    + destruct (given end_time) as [s'|]; simpl.
      * destruct (convert_time_to_seconds s') as [x'|e''|code] eqn:Hs'; simpl.
        -- split; [done|]. intros [(?&?&?)|(_&?&?&?)]; congruence.
        -- split.
           ++ intros [= <-]. right. split; [|by eexists].
              intros ? [= <-]. by eexists.
           ++ intros [(?&?&?)|(_&?&?&?)]; congruence.
        -- split; [done|]. intros [(?&?&?)|(_&?&?&?)]; congruence.
      * split; [done|]. intros [(?&?&?)|(_&?&?&?)]; congruence.
    + split.
      * intros [= <-]. left. by eexists.
      * intros [(?&[= <-]&?)|(Hok&_)]; [congruence|].
        destruct (Hok s eq_refl). congruence.
    + split; [done|].
      intros [(?&[= <-]&?)|(Hok&_)]; [congruence|].
      destruct (Hok s eq_refl). congruence.
  - destruct (given end_time) as [s'|]; simpl.
    + destruct (convert_time_to_seconds s') as [x'|e''|code] eqn:Hs'; simpl.
      * split; [done|]. intros [(?&?&?)|(_&?&?&?)]; congruence.
      * split.
        -- intros [= <-]. right. split; [done | by eexists].
        -- intros [(?&?&?)|(_&?&?&?)]; congruence.
      * split; [done|]. intros [(?&?&?)|(_&?&?&?)]; congruence.
    + split; [done|]. intros [(?&?&?)|(_&?&?&?)]; congruence.
Qed.

End WindowFacts.

(** C7, amended.  Each of the four error kinds ends the run with a
    message and a non-zero status, and nothing is requested, run or
    retried after it.  A manifest request that is refused (FetchFailed)
    and a time string that [convert_time_to_seconds] refuses
    (InvalidTimeFormat, printed with the [str] of the [ValueError]) end
    in [sys.exit(1)].  A segment request that is refused
    (SegmentFetchFailed) prints its message and calls [sys.exit(1)] under
    the progress bar: the run ends with that exit when the bar closes
    without raising; when closing raises a [ValueError], [main] prints it
    as a second line and calls [sys.exit(1)]; when closing raises an
    [OverflowError], that exception ends the run; the status is 1 each
    time.  With ffmpeg missing (MuxerNotFound), after every planned
    segment was delivered and the bar closed, the message is printed and
    [sys.exit(1)] called.  A manifest line that starts with [#] and is no
    duration tag is not an error: the parse is the same without it. *)
Theorem fatal_errors (F : Type) (HF : PyFloat F) (env : environment)
    (m3u8_url output_file : string) (start_time end_time : option string) (w : world) :
  (forall e,
      requests_get env (length (requests w)) m3u8_url = inl e ->
      main (F:=F) env m3u8_url output_file start_time end_time w
      = (SysExit 1,
         printed ("Error downloading M3U8 file: " +:+ e) (requested m3u8_url w)))
  /\ (forall descriptors s why,
        manifest_read env m3u8_url w descriptors ->
        (given start_time = Some s
         /\ convert_time_to_seconds (F:=F) s = Raise (ValueError why))
        \/ ((forall s', given start_time = Some s' ->
                        exists x : F, convert_time_to_seconds s' = Return x)
            /\ given end_time = Some s
            /\ convert_time_to_seconds (F:=F) s = Raise (ValueError why)) ->
        main (F:=F) env m3u8_url output_file start_time end_time w
        = (SysExit 1,
           printed ("Error: " +:+ str_value_error why) (requested m3u8_url w)))
  /\ (forall descriptors window fetched x left_out e,
        manifest_read env m3u8_url w descriptors ->
        select_window (f_sum (map segment_duration descriptors)) start_time end_time
        = Return window ->
        build_plan window.1 window.2 descriptors (of_int 0)
        = fetched ++ x :: left_out ->
        (forall k y, fetched !! k = Some y ->
                     exists r, delivered env (requested m3u8_url w) k y r) ->
        reply env (requested m3u8_url w) (length fetched) x = inl e ->
        main (F:=F) env m3u8_url output_file start_time end_time w
        = match tqdm_close env (length (requests w) + length fetched + 2) with
          | None =>
              (SysExit 1, refused_world env m3u8_url w fetched x [segment_error x e])
          | Some (BarValueError text) =>
              (SysExit 1,
               refused_world env m3u8_url w fetched x
                 [segment_error x e; "Error: " +:+ text])
          | Some (BarOverflowError text) =>
              (Raise (OverflowError text),
               refused_world env m3u8_url w fetched x [segment_error x e])
          end
        /\ exit_status (main (F:=F) env m3u8_url output_file start_time end_time w).1
           = 1)
  /\ (forall descriptors window,
        manifest_read env m3u8_url w descriptors ->
        select_window (f_sum (map segment_duration descriptors)) start_time end_time
        = Return window ->
        (forall k y,
            build_plan window.1 window.2 descriptors (of_int 0) !! k = Some y ->
            exists r, delivered env (requested m3u8_url w) k y r) ->
        bar_closes env (requested m3u8_url w)
          (length (build_plan window.1 window.2 descriptors (of_int 0))) ->
        ffmpeg env = None ->
        exists w',
          main (F:=F) env m3u8_url output_file start_time end_time w = (SysExit 1, w')
          /\ stdout w' = stdout w ++ [ffmpeg_missing]
          /\ commands w' = commands w
          /\ requests w'
             = requests w
               ++ m3u8_url
                  :: map segment_url
                       (build_plan window.1 window.2 descriptors (of_int 0)))
  /\ (forall before line after,
        Str.startswith "#" line = true -> Str.startswith "#EXTINF:" line = false ->
        parse_lines (F:=F) (before ++ line :: after) None []
        = parse_lines (before ++ after) None []).
Proof.
  split; [|split; [|split; [|split]]].
  - apply main_fetch_failed.
  - intros descriptors s why (response & segment_urls & Hget & Hparse & Hdur) Htime.
    apply (main_time_error env _ _ _ _ _ response segment_urls descriptors);
      try done.
    apply select_window_raises.
    destruct Htime as [[Hs Hbad]|(Hstart & Hs & Hbad)]; [left | right]; eauto.
  - intros descriptors window fetched x left_out e
      (response & segment_urls & Hget & Hparse & Hdur) Hwindow Hplan Hok Hfail.
    pose proof (main_segment_failed env m3u8_url output_file start_time end_time w
                  response segment_urls descriptors window fetched x left_out e
                  Hget Hparse Hdur Hwindow Hplan Hok Hfail) as Hmain.
    split; [exact Hmain|]. rewrite Hmain.
    by destruct (tqdm_close env _) as [[text|text]|].
  - intros descriptors window (response & segment_urls & Hget & Hparse & Hdur)
      Hwindow Hok Hquiet Hnone.
    eexists. split.
    + by apply (main_ffmpeg_missing env _ _ _ _ _ response segment_urls
                  descriptors window).
    + done.
  - intros before line after. apply parse_lines_omit.
Qed.

(** A manifest URL that answers 404: one request, one message, status 1. *)
Lemma fatal_errors_witness :
  main (F:=float) (serve "" "" ["http://h/v.m3u8"] true) "http://h/v.m3u8" "ft_video.mp4"
    None None empty_world
  = (SysExit 1,
     printed "Error downloading M3U8 file: 404 Client Error"
       (requested "http://h/v.m3u8" empty_world)).
Proof.
  exact (proj1 (fatal_errors float binary64 (serve "" "" ["http://h/v.m3u8"] true)
                  "http://h/v.m3u8" "ft_video.mp4" None None empty_world)
           "404 Client Error" eq_refl).
Defined.

(** C7 as stated fails: a malformed duration tag is not left out.  The
    manifest below ends in a tag whose number is [abc]; the run prints
    the [ValueError] and exits with status 1 before any segment is
    requested, while the same manifest without that line is downloaded
    and saved. *)
Lemma malformed_tag_is_fatal :
  main (F:=float)
    (serve "http://h/v.m3u8"
       (manifest ["#EXTM3U"; "#EXTINF:4.0,"; "http://h/1.ts"; "#EXTINF:abc,"; "#EXT-X-ENDLIST"])
       [] true)
    "http://h/v.m3u8" "ft_video.mp4" None None empty_world
  = (SysExit 1,
     {| files := ∅;
        stdout := ["Error: could not convert string to float: 'abc'"];
        requests := ["http://h/v.m3u8"];
        commands := [] |})
  /\ (main (F:=float)
        (serve "http://h/v.m3u8"
           (manifest ["#EXTM3U"; "#EXTINF:4.0,"; "http://h/1.ts"; "#EXT-X-ENDLIST"])
           [] true)
        "http://h/v.m3u8" "ft_video.mp4" None None empty_world).1
     = Return tt.
Proof. split; vm_compute; reflexivity. Qed.

(** ** Lines taken as URLs *)

(** C3, on the code.  A URL line with no duration tag before it makes
    [parse_m3u8_file] append a dict without ['duration'], not one with
    duration zero; [download_segments] then raises [KeyError] at its
    first line, which [main] does not catch: the process ends with
    status 1 and nothing is downloaded. *)
Theorem url_without_tag :
  parse_m3u8_file (F:=float)
    (manifest ["#EXTM3U"; "http://h/0.ts"; "#EXTINF:4.0,"; "http://h/1.ts"])
  = Return [{| duration := None; url := "http://h/0.ts" |};
            {| duration := Some 4%float; url := "http://h/1.ts" |}]
  /\ main (F:=float)
       (serve "http://h/v.m3u8"
          (manifest ["#EXTM3U"; "http://h/0.ts"; "#EXTINF:4.0,"; "http://h/1.ts"])
          [] true)
       "http://h/v.m3u8" "ft_video.mp4" None None empty_world
     = (Raise (KeyError "duration"), requested "http://h/v.m3u8" empty_world)
  /\ exit_status (A:=unit) (Raise (KeyError "duration")) = 1.
Proof. repeat split; vm_compute; reflexivity. Qed.

(** C4, on the code.  A blank line does not start with [#], so it is
    taken as a URL: after a trailing duration tag it completes an entry
    whose URL is empty, and with no tag before it, it makes an entry of
    its own.  The trailing tag is dropped only when no line, or only
    lines starting with [#], follow it. *)
Theorem blank_line_after_tag :
  parse_m3u8_file (F:=float)
    (manifest ["#EXTM3U"; "#EXTINF:4.0,"; "http://h/1.ts"; "#EXTINF:4.0,"; ""])
  = Return [{| duration := Some 4%float; url := "http://h/1.ts" |};
            {| duration := Some 4%float; url := "" |}]
  /\ parse_m3u8_file (F:=float)
       (manifest ["#EXTM3U"; ""; "#EXTINF:4.0,"; "http://h/1.ts"])
     = Return [{| duration := None; url := "" |};
               {| duration := Some 4%float; url := "http://h/1.ts" |}]
  /\ parse_m3u8_file (F:=float)
       (manifest ["#EXTM3U"; "#EXTINF:4.0,"; "http://h/1.ts"; "#EXTINF:4.0,";
                  "#EXT-X-ENDLIST"])
     = Return [{| duration := Some 4%float; url := "http://h/1.ts" |}].
Proof. repeat split; vm_compute; reflexivity. Qed.

(** * Further properties of the code *)

(** ** What a duration tag holds *)

Section TagFacts.

Context {F : Type} `{PyFloat F}.

Lemma startswith_app (p s : string) :
  Str.startswith p s = true -> exists rest, s = p +:+ rest.
Proof.
  unfold Str.startswith. revert s.
  induction p as [|a p IH]; intros s Hp; [by exists s|].
  destruct s as [|b s]; [done|]. cbn [String.prefix] in Hp.
  destruct (ascii_dec a b) as [->|]; [|done].
  destruct (IH s Hp) as [rest ->]. by exists rest.
Qed.

Lemma split_nonempty (c : ascii) (s : string) : Str.split c s <> [].
Proof.
  destruct s as [|x s]; [done|]. simpl.
  destruct (Ascii.eqb x c); [done|]. by destruct (Str.split c s).
Qed.

Lemma split_free (c : ascii) (a : string) :
  Str.contains c a = false -> Str.split c a = [a].
Proof.
  induction a as [|x a IH]; [done|]. simpl.
  intros [Hx Ha]%orb_false_iff. by rewrite Hx, (IH Ha).
Qed.

(** The first piece of a split goes on to the first separator. *)
Lemma split_hd_app (c : ascii) (a b : string) :
  Str.contains c a = false ->
  List.hd "" (Str.split c (a +:+ b)) = a +:+ List.hd "" (Str.split c b).
Proof.
  induction a as [|x a IH]; intros Hfree; [done|].
  simpl in Hfree. apply orb_false_iff in Hfree as [Hx Ha].
  rewrite !append_cons. simpl. rewrite Hx.
  specialize (IH Ha). pose proof (split_nonempty c (a +:+ b)) as Hne.
  destruct (Str.split c (a +:+ b)) as [|w ws]; [done|].
  simpl in *. by rewrite IH.
Qed.

(** The number of a duration tag: what stands between [#EXTINF:] and
    the next colon or comma. *)
Lemma extinf_duration_tag (rest : string) :
  extinf_duration (F:=F) ("#EXTINF:" +:+ rest)
  = let number := List.hd "" (Str.split "," (List.hd "" (Str.split ":" rest))) in
    match float_of_str number with
    | Some duration => Return duration
    | None => Raise (ValueError (NotAFloat number))
    end.
Proof.
  unfold extinf_duration.
  change ("#EXTINF:" +:+ rest) with ("#EXTINF" +:+ String ":" rest).
  rewrite split_append by done.
  pose proof (split_nonempty ":" rest) as Hfield.
  destruct (Str.split ":" rest) as [|field fields]; [done|].
  simpl. pose proof (split_nonempty "," field) as Hnumber.
  by destruct (Str.split "," field) as [|number numbers].
Qed.

Lemma extinf_duration_outcome (line : string) :
  Str.startswith "#EXTINF:" line = true ->
  (exists duration : F, extinf_duration line = Return duration)
  \/ (exists number, extinf_duration (F:=F) line = Raise (ValueError (NotAFloat number))).
Proof.
  intros [rest ->]%startswith_app. rewrite extinf_duration_tag. simpl.
  destruct (float_of_str _); [left | right]; by eexists.
Qed.

End TagFacts.

(** X1.  The number of a duration tag is the text between [#EXTINF:]
    and the first comma: whatever follows the comma, a title or further
    attributes, has no part in the duration, and neither has a missing
    comma.  The text is handed to [float()] as it stands. *)
Theorem extinf_title_ignored (F : Type) (HF : PyFloat F) (number title : string) :
  Str.contains ":" number = false -> Str.contains "," number = false ->
  extinf_duration (F:=F) ("#EXTINF:" +:+ number +:+ "," +:+ title)
  = match float_of_str number with
    | Some duration => Return duration
    | None => Raise (ValueError (NotAFloat number))
    end
  /\ extinf_duration (F:=F) ("#EXTINF:" +:+ number)
     = extinf_duration ("#EXTINF:" +:+ number +:+ "," +:+ title).
Proof.
  intros Hcolon Hcomma.
  assert (Htitle : extinf_duration (F:=F) ("#EXTINF:" +:+ number +:+ "," +:+ title)
                   = match float_of_str number with
                     | Some duration => Return duration
                     | None => Raise (ValueError (NotAFloat number))
                     end).
  { rewrite extinf_duration_tag. cbv zeta.
    rewrite (split_hd_app ":" number) by done.
    rewrite (split_hd_app ":" "," title) by done.
    change (number +:+ "," +:+ List.hd "" (Str.split ":" title))
      with (number +:+ String "," (List.hd "" (Str.split ":" title))).
    by rewrite split_append. }
  split; [exact Htitle|].
  rewrite Htitle, extinf_duration_tag. cbv zeta.
  rewrite (split_free ":" number) by done. cbn [List.hd].
  by rewrite (split_free "," number).
Qed.

(** A tag with a title: ["4.0"] is read, ["Episode 1: part 2"] is not. *)
Lemma extinf_title_ignored_witness :
  extinf_duration ("#EXTINF:" +:+ "4.0" +:+ "," +:+ "Episode 1: part 2") = Return 4%float.
Proof.
  exact (proj1 (extinf_title_ignored float binary64 "4.0" "Episode 1: part 2"
                  eq_refl eq_refl)).
Defined.

(** ** The entries of a parsed manifest *)

Section EntryFacts.

Context {F : Type} `{PyFloat F}.

(** The list of entries only grows, by one entry per URL line. *)
Lemma parse_lines_extends (lines : list string) (current_segment : option F)
    (segment_urls parsed : list (segment (F:=F))) :
  parse_lines lines current_segment segment_urls = Return parsed ->
  exists more,
    parsed = segment_urls ++ more
    /\ map url more = map Str.strip (url_lines lines).
Proof.
  revert current_segment segment_urls.
  induction lines as [|line lines IH]; intros current_segment segment_urls.
  - intros [= <-]. exists []. by rewrite app_nil_r.
  - unfold url_lines. cbn [parse_lines List.filter].
    destruct (Str.startswith "#EXTINF:" line) eqn:Htag.
    + rewrite (startswith_tag_comment line Htag). simpl.
      destruct (extinf_duration line); simpl; [apply IH | done | done].
    + destruct (Str.startswith "#" line); simpl; [apply IH|].
      intros Hrun. apply IH in Hrun as (more & -> & Hurls).
      eexists (_ :: more). rewrite <- app_assoc. split; [done|].
      simpl. by rewrite Hurls.
Qed.

(** Past a prefix of the lines the loop holds one entry per URL line
    passed. *)
Lemma parse_lines_prefix (before rest : list string) (current_segment : option F)
    (segment_urls parsed : list (segment (F:=F))) :
  parse_lines (before ++ rest) current_segment segment_urls = Return parsed ->
  exists current_segment' segment_urls',
    parse_lines rest current_segment' segment_urls' = Return parsed
    /\ length segment_urls' = (length segment_urls + length (url_lines before))%nat.
Proof.
  revert current_segment segment_urls.
  induction before as [|line before IH]; intros current_segment segment_urls.
  - intros Hrun. exists current_segment, segment_urls. simpl. by rewrite Nat.add_0_r.
  - unfold url_lines. cbn [app parse_lines List.filter].
    destruct (Str.startswith "#EXTINF:" line) eqn:Htag.
    + rewrite (startswith_tag_comment line Htag). simpl.
      destruct (extinf_duration line); simpl; [apply IH | done | done].
    + destruct (Str.startswith "#" line); simpl; [apply IH|].
      intros Hrun. apply IH in Hrun as (c' & s' & Hrest & Hlen).
      exists c', s'. split; [done|].
      rewrite Hlen, length_app. simpl. unfold url_lines. lia.
Qed.

Lemma parse_lines_comments (comments rest : list string) (current_segment : option F)
    (segment_urls : list (segment (F:=F))) :
  Forall passed_over comments ->
  parse_lines (comments ++ rest) current_segment segment_urls
  = parse_lines rest current_segment segment_urls.
Proof.
  induction 1 as [|line comments [Hcomment Htag] _ IH]; [done|].
  simpl. by rewrite Htag, Hcomment.
Qed.

(** The loop returns when every tag is readable, and otherwise raises
    the [ValueError] of the first tag that is not. *)
Lemma parse_lines_outcome (lines : list string) (current_segment : option F)
    (segment_urls : list (segment (F:=F))) :
  (Forall (readable (F:=F)) lines
   /\ exists parsed, parse_lines lines current_segment segment_urls = Return parsed)
  \/ (exists before tag after number,
        lines = before ++ tag :: after
        /\ Forall (readable (F:=F)) before
        /\ Str.startswith "#EXTINF:" tag = true
        /\ extinf_duration (F:=F) tag = Raise (ValueError (NotAFloat number))
        /\ parse_lines lines current_segment segment_urls
           = Raise (ValueError (NotAFloat number))).
Proof.
  revert current_segment segment_urls.
  induction lines as [|line lines IH]; intros current_segment segment_urls.
  - left. split; [constructor | by eexists].
  - cbn [parse_lines].
    destruct (Str.startswith "#EXTINF:" line) eqn:Htag.
    + destruct (extinf_duration_outcome (F:=F) line Htag) as [[d Hd]|[number Hbad]].
      * rewrite Hd. simpl.
        destruct (IH (Some d) segment_urls)
          as [[Hall Hret]|(before & tag & after & number & -> & Hbefore & Ht & Hbad & Hrun)].
        -- left. split; [|done]. constructor; [|done]. intros _. by exists d.
        -- right. exists (line :: before), tag, after, number.
           repeat split; try done. constructor; [|done]. intros _. by exists d.
      * right. exists [], line, lines, number. rewrite Hbad.
        repeat split; done.
    + assert (Hline : readable (F:=F) line) by (intros Hyes; congruence).
      destruct (negb (Str.startswith "#" line)).
      * destruct (IH None (segment_urls
                             ++ [{| duration := current_segment; url := Str.strip line |}]))
          as [[Hall Hret]|(before & tag & after & number & -> & Hbefore & Ht & Hbad & Hrun)].
        -- left. split; [by constructor | done].
        -- right. exists (line :: before), tag, after, number.
           repeat split; try done. by constructor.
      * destruct (IH current_segment segment_urls)
          as [[Hall Hret]|(before & tag & after & number & -> & Hbefore & Ht & Hbad & Hrun)].
        -- left. split; [by constructor | done].
        -- right. exists (line :: before), tag, after, number.
           repeat split; try done. by constructor.
Qed.

End EntryFacts.

(** X2.  [parse_m3u8_file] returns or raises [ValueError], nothing
    else: it returns when [float()] accepts the number of every
    duration tag, and otherwise raises the [ValueError] of the first tag
    whose number [float()] rejects, naming that number.  Reading the
    number never raises [IndexError]. *)
Theorem parse_m3u8_file_outcome (F : Type) (HF : PyFloat F) (m3u8_content : string) :
  (Forall (readable (F:=F)) (Str.splitlines m3u8_content)
   /\ exists segment_urls, parse_m3u8_file (F:=F) m3u8_content = Return segment_urls)
  \/ (exists before tag after number,
        Str.splitlines m3u8_content = before ++ tag :: after
        /\ Forall (readable (F:=F)) before
        /\ Str.startswith "#EXTINF:" tag = true
        /\ extinf_duration (F:=F) tag = Raise (ValueError (NotAFloat number))
        /\ parse_m3u8_file (F:=F) m3u8_content = Raise (ValueError (NotAFloat number))).
Proof. apply parse_lines_outcome. Qed.

(** X3.  A manifest that parses gives one entry per line that does not
    start with [#], in the order of the lines, each with the line
    stripped of surrounding white space as its URL. *)
Theorem parse_m3u8_file_urls (F : Type) (HF : PyFloat F) (m3u8_content : string)
    (segment_urls : list (segment (F:=F))) :
  parse_m3u8_file m3u8_content = Return segment_urls ->
  map url segment_urls = map Str.strip (url_lines (Str.splitlines m3u8_content)).
Proof.
  intros Hrun. by apply parse_lines_extends in Hrun as (more & -> & Hurls).
Qed.

(** Two URL lines between tags and comments, the second one indented. *)
Lemma parse_m3u8_file_urls_witness :
  map url [{| duration := Some 4%float; url := "http://h/1.ts" |};
           {| duration := Some 4%float; url := "http://h/2.ts" |}]
  = map Str.strip
      (url_lines
         (Str.splitlines
            (manifest ["#EXTM3U"; "#EXTINF:4.0,"; "http://h/1.ts"; "#EXTINF:4.0,";
                       "  http://h/2.ts "; "#EXT-X-ENDLIST"]))).
Proof.
  apply (parse_m3u8_file_urls float binary64
           (manifest ["#EXTM3U"; "#EXTINF:4.0,"; "http://h/1.ts"; "#EXTINF:4.0,";
                      "  http://h/2.ts "; "#EXT-X-ENDLIST"])).
  vm_compute. reflexivity.
Defined.

Section PairingFacts.

Context {F : Type} `{PyFloat F}.

Lemma url_lines_app (before rest : list string) :
  url_lines (before ++ rest) = url_lines before ++ url_lines rest.
Proof. apply List.filter_app. Qed.

(** The next URL line takes what [current_segment] holds, whatever
    lines are passed over before it. *)
Lemma parse_lines_entry (comments : list string) (line : string) (after : list string)
    (current_segment : option F) (segment_urls parsed : list (segment (F:=F))) :
  Forall passed_over comments ->
  Str.startswith "#" line = false ->
  parse_lines (comments ++ line :: after) current_segment segment_urls = Return parsed ->
  parsed !! length segment_urls
  = Some {| duration := current_segment; url := Str.strip line |}.
Proof.
  intros Hcomments Hline Hrun.
  rewrite parse_lines_comments, parse_lines_url in Hrun by done.
  apply parse_lines_extends in Hrun as (more & -> & _).
  rewrite <- app_assoc. rewrite lookup_app_r by done.
  by rewrite Nat.sub_diag.
Qed.

End PairingFacts.

(** X4.  The duration of an entry is the one of the last duration tag
    before its URL line: lines in between that start with [#] do not
    come between the tag and the URL, and a tag before that one, still
    without a URL, is overwritten. *)
Theorem tag_duration_reaches_url (F : Type) (HF : PyFloat F) (m3u8_content : string)
    (before : list string) (tag : string) (comments : list string) (line : string)
    (after : list string) (duration : F) (segment_urls : list (segment (F:=F))) :
  Str.splitlines m3u8_content = before ++ tag :: comments ++ line :: after ->
  Str.startswith "#EXTINF:" tag = true ->
  extinf_duration tag = Return duration ->
  Forall passed_over comments ->
  Str.startswith "#" line = false ->
  parse_m3u8_file m3u8_content = Return segment_urls ->
  segment_urls !! length (url_lines before)
  = Some {| duration := Some duration; url := Str.strip line |}.
Proof.
  intros Hlines Htag Hduration Hcomments Hline Hrun.
  unfold parse_m3u8_file in Hrun. rewrite Hlines in Hrun.
  apply parse_lines_prefix in Hrun as (current & entries & Hrun & Hlength).
  cbn [parse_lines] in Hrun. rewrite Htag, Hduration in Hrun. simpl in Hrun.
  simpl in Hlength. rewrite <- Hlength.
  by apply (parse_lines_entry comments line after (Some duration) entries).
Qed.

(** Two tags in a row, then a comment, then the URL: 6.0 is kept. *)
Lemma tag_duration_reaches_url_witness :
  [{| duration := Some 4%float; url := "http://h/1.ts" |};
   {| duration := Some 6%float; url := "http://h/2.ts" |}]
  !! length (url_lines ["#EXTM3U"; "#EXTINF:4.0,"; "http://h/1.ts"; "#EXTINF:5.0,"])
  = Some {| duration := Some 6%float; url := Str.strip "http://h/2.ts" |}.
Proof.
  apply (tag_duration_reaches_url float binary64
           (manifest ["#EXTM3U"; "#EXTINF:4.0,"; "http://h/1.ts"; "#EXTINF:5.0,";
                      "#EXTINF:6.0,"; "#EXT-X-BYTERANGE:10@0"; "http://h/2.ts"])
           ["#EXTM3U"; "#EXTINF:4.0,"; "http://h/1.ts"; "#EXTINF:5.0,"]
           "#EXTINF:6.0," ["#EXT-X-BYTERANGE:10@0"] "http://h/2.ts" []).
  - vm_compute. reflexivity.
  - reflexivity.
  - vm_compute. reflexivity.
  - repeat constructor.
  - reflexivity.
  - vm_compute. reflexivity.
Defined.

(** X5.  A URL line with no duration tag since the URL line before it,
    or since the start of the manifest, gives an entry without
    ['duration']: a tag serves one URL line only. *)
Theorem url_line_without_tag (F : Type) (HF : PyFloat F) (m3u8_content : string)
    (passed comments : list string) (line : string) (after : list string)
    (segment_urls : list (segment (F:=F))) :
  Str.splitlines m3u8_content = passed ++ comments ++ line :: after ->
  passed = []
  \/ (exists before previous,
        passed = before ++ [previous] /\ Str.startswith "#" previous = false) ->
  Forall passed_over comments ->
  Str.startswith "#" line = false ->
  parse_m3u8_file m3u8_content = Return segment_urls ->
  segment_urls !! length (url_lines passed)
  = Some {| duration := None; url := Str.strip line |}.
Proof.
  intros Hlines Hpassed Hcomments Hline Hrun.
  unfold parse_m3u8_file in Hrun. rewrite Hlines in Hrun.
  destruct Hpassed as [->|(before & previous & -> & Hprevious)].
  - by apply (parse_lines_entry comments line after None []).
  - rewrite <- app_assoc in Hrun.
    apply parse_lines_prefix in Hrun as (current & entries & Hrun & Hlength).
    cbn [app] in Hrun. rewrite parse_lines_url in Hrun by done.
    apply (parse_lines_entry comments line after None) in Hrun; [|done..].
    rewrite url_lines_app, !length_app in *.
    unfold url_lines at 2. cbn [List.filter]. rewrite Hprevious.
    simpl in *. by rewrite <- Hlength.
Qed.

(** One tag, two URL lines: the second entry has no duration. *)
Lemma url_line_without_tag_witness :
  [{| duration := Some 4%float; url := "http://h/1.ts" |};
   {| duration := None; url := "http://h/2.ts" |}]
  !! length (url_lines ["#EXTM3U"; "#EXTINF:4.0,"; "http://h/1.ts"])
  = Some {| duration := None; url := Str.strip "http://h/2.ts" |}.
Proof.
  apply (url_line_without_tag float binary64
           (manifest ["#EXTM3U"; "#EXTINF:4.0,"; "http://h/1.ts"; "#EXT-X-DISCONTINUITY";
                      "http://h/2.ts"])
           ["#EXTM3U"; "#EXTINF:4.0,"; "http://h/1.ts"]
           ["#EXT-X-DISCONTINUITY"] "http://h/2.ts" []).
  - vm_compute. reflexivity.
  - right. by exists ["#EXTM3U"; "#EXTINF:4.0,"], "http://h/1.ts".
  - repeat constructor.
  - reflexivity.
  - vm_compute. reflexivity.
Defined.

(** ** What [download_segments] leaves alone *)

Section FrameFacts.

Context {F : Type} `{PyFloat F}.
Variable env : environment.

Lemma sublist_map {A B : Type} (f : A -> B) (l1 l2 : list A) :
  l1 `sublist_of` l2 -> map f l1 `sublist_of` map f l2.
Proof. induction 1; simpl; by constructor. Qed.

(** However the loop over a plan ends under the progress bar, it has
    requested the URLs of the first descriptors of the plan, written
    local paths of the plan only and run nothing; it has printed the
    line of a refused request, or nothing, and after that line it ends
    by [sys.exit(1)] or by an exception of the closing bar. *)
Lemma download_all_frame (plan : list (descriptor (F:=F))) segment_files w :
  (exists k, requests (download_all env plan segment_files w).2
             = requests w ++ map segment_url (take k plan))
  /\ commands (download_all env plan segment_files w).2 = commands w
  /\ (forall path, files (download_all env plan segment_files w).2 !! path
                   <> files w !! path ->
                   exists x, x ∈ plan /\ path = local_path x)
  /\ (stdout (download_all env plan segment_files w).2 = stdout w
      \/ ((download_all env plan segment_files w).1 = SysExit 1
          \/ exists err, (download_all env plan segment_files w).1 = Raise (bar_exn err))
         /\ exists x e, x ∈ plan
                        /\ stdout (download_all env plan segment_files w).2
                           = stdout w ++ [segment_error x e]).
Proof.
  unfold download_all. rewrite with_progress_bar_world.
  destruct (fetch_all_frame env plan segment_files w)
    as ((k & Hrequests & _) & Hcommands & Hfiles & Hstdout).
  split; [by exists k|]. split; [done|]. split; [done|].
  destruct (with_progress_bar_outcome env (fetch_all env plan segment_files) w)
    as [Hsame|(_ & err & _ & Hraise)].
  - rewrite Hsame.
    destruct (fetch_all env plan segment_files w).1 as [l|e|code]; [by left..|].
    destruct Hstdout as (-> & Hline). right. split; [by left | done].
  - destruct (fetch_all env plan segment_files w).1 as [l|e|code]; [by left..|].
    destruct Hstdout as (_ & Hline). right. split; [right; by exists err | done].
Qed.

Lemma omap_with_duration (segment_urls : list (segment (F:=F))) :
  (exists descriptors, omap with_duration segment_urls = Return descriptors)
  \/ (omap with_duration segment_urls = Raise (KeyError "duration")
      /\ exists s, s ∈ segment_urls /\ duration s = None).
Proof.
  induction segment_urls as [|s segment_urls IH]; [left; by eexists|].
  simpl. unfold with_duration at 1 3.
  destruct (duration s) as [d|] eqn:Hd; simpl.
  - destruct IH as [[descriptors ->]|[-> (s' & Hs' & Hnone)]]; simpl.
    + left. by eexists.
    + right. split; [done|]. exists s'. split; [by right | done].
  - right. split; [done|]. exists s. split; [by left | done].
Qed.

Lemma omap_with_duration_all (segment_urls : list (segment (F:=F)))
    (descriptors : list descriptor) :
  omap with_duration segment_urls = Return descriptors ->
  forall s, s ∈ segment_urls -> duration s <> None.
Proof.
  revert descriptors.
  induction segment_urls as [|s segment_urls IH]; intros descriptors Hrun s' Hs'.
  - by apply elem_of_nil in Hs'.
  - simpl in Hrun. unfold with_duration at 1 in Hrun.
    destruct (duration s) as [d|] eqn:Hd; [|done]. simpl in Hrun.
    destruct (omap with_duration segment_urls) as [ds| |] eqn:Hrest; [|done..].
    apply elem_of_cons in Hs' as [->|Hs']; [congruence|].
    by apply (IH ds).
Qed.

(** Every descriptor comes from an entry with the same URL. *)
Lemma with_duration_sources (segment_urls : list (segment (F:=F)))
    (descriptors : list descriptor) :
  omap with_duration segment_urls = Return descriptors ->
  Forall (fun x => exists s, s ∈ segment_urls /\ url s = segment_url x) descriptors.
Proof.
  revert descriptors.
  induction segment_urls as [|s segment_urls IH]; intros descriptors.
  - intros [= <-]. constructor.
  - simpl. unfold with_duration at 1.
    destruct (duration s); [|done]. simpl.
    destruct (omap with_duration segment_urls) as [ds| |]; [|done..]. simpl.
    intros [= <-]. constructor.
    + exists s. split; [by left | done].
    + eapply Forall_impl; [by apply IH|].
      intros x (s' & Hs' & Hurl). exists s'. split; [by right | done].
Qed.

(** The time window fails with [ValueError] only. *)
Lemma select_window_outcome (total_duration : F) (start_time end_time : option string) :
  (exists window, select_window total_duration start_time end_time = Return window)
  \/ (exists why, select_window total_duration start_time end_time
                  = Raise (ValueError why)).
Proof.
  unfold select_window.
  assert (Hconvert : forall s,
             (exists x : F, convert_time_to_seconds s = Return x)
             \/ (exists why, convert_time_to_seconds (F:=F) s = Raise (ValueError why))).
  { intros s. destruct (convert_time_to_seconds_cases (F:=F) s)
      as [(h & m & z & _ & Hret)|(_ & why & Hraise)]; [left | right]; by eexists. }
  destruct (given start_time) as [s|]; simpl.
  - destruct (Hconvert s) as [[x ->]|[why ->]]; simpl; [|right; by eexists].
    destruct (given end_time) as [s'|]; simpl; [|left; by eexists].
    destruct (Hconvert s') as [[x' ->]|[why ->]]; simpl; [left | right]; by eexists.
  - destruct (given end_time) as [s'|]; simpl; [|left; by eexists].
    destruct (Hconvert s') as [[x' ->]|[why ->]]; simpl; [left | right]; by eexists.
Qed.

(** [download_segments], however it ends. *)
Lemma download_segments_world (segment_urls : list (segment (F:=F)))
    (start_time end_time : option string) (w : world) :
  commands (download_segments env segment_urls start_time end_time w).2 = commands w
  /\ (forall path,
        files (download_segments env segment_urls start_time end_time w).2 !! path
        <> files w !! path ->
        exists s, s ∈ segment_urls /\ path = segment_name (url s))
  /\ (exists fetched,
        requests (download_segments env segment_urls start_time end_time w).2
        = requests w ++ fetched
        /\ fetched `sublist_of` map url segment_urls)
  /\ (stdout (download_segments env segment_urls start_time end_time w).2 = stdout w
      \/ ((download_segments env segment_urls start_time end_time w).1 = SysExit 1
          \/ exists err,
               (download_segments env segment_urls start_time end_time w).1
               = Raise (bar_exn err))
         /\ exists s e,
              s ∈ segment_urls
              /\ stdout (download_segments env segment_urls start_time end_time w).2
                 = stdout w ++ ["Error downloading segment " +:+ url s +:+ ": " +:+ e]).
Proof.
  assert (Hsame : forall (r : outcome (list string)),
             commands (r, w).2 = commands w
             /\ (forall path, files (r, w).2 !! path <> files w !! path ->
                              exists s, s ∈ segment_urls
                                        /\ path = segment_name (url s))
             /\ (exists fetched,
                   requests (r, w).2 = requests w ++ fetched
                   /\ fetched `sublist_of` map url segment_urls)
             /\ (stdout (r, w).2 = stdout w
                 \/ ((r, w).1 = SysExit 1 \/ exists err, (r, w).1 = Raise (bar_exn err))
                    /\ exists s e,
                         s ∈ segment_urls
                         /\ stdout (r, w).2
                            = stdout w
                              ++ ["Error downloading segment " +:+ url s +:+ ": " +:+ e])).
  { intros r. simpl. split; [done|]. split; [by intros path Hpath|].
    split; [|by left].
    exists []. rewrite app_nil_r. split; [done | apply sublist_nil_l]. }
  rewrite download_segments_unfold.
  destruct (omap with_duration segment_urls) as [descriptors|e|code] eqn:Hdur;
    [|apply Hsame..].
  destruct (select_window _ start_time end_time) as [[s t]|e|code]; [|apply Hsame..].
  destruct (download_all_frame (build_plan s t descriptors (of_int 0)) [] w)
    as ([k Hrequests] & Hcommands & Hfiles & Hstdout).
  pose proof (build_plan_Forall _ s t descriptors (of_int 0)
                (with_duration_sources _ _ Hdur)) as Hsources.
  rewrite Forall_forall in Hsources.
  split; [done|]. split; [|split].
  - intros path Hpath. destruct (Hfiles path Hpath) as (x & Hx & ->).
    destruct (Hsources x Hx) as (entry & Hentry & Hurl).
    exists entry. split; [done|]. unfold local_path. by rewrite Hurl.
  - eexists. split; [exact Hrequests|].
    rewrite <- (with_duration_urls _ _ Hdur).
    apply sublist_map. etrans; [apply sublist_take | apply build_plan_sublist].
  - destruct Hstdout as [Hstdout|(Hexit & x & e & Hx & Hline)]; [by left|].
    right. split; [done|].
    destruct (Hsources x Hx) as (entry & Hentry & Hurl).
    exists entry, e. split; [done|]. rewrite Hline. unfold segment_error.
    by rewrite Hurl.
Qed.

End FrameFacts.

(** X6.  [download_segments] raises [KeyError('duration')] exactly when
    some entry of its list has no ['duration'], and it does so at its
    first statement: no time string is converted, nothing is requested,
    written or printed. *)
Theorem missing_duration_raises (F : Type) (HF : PyFloat F) (env : environment)
    (segment_urls : list (segment (F:=F))) (start_time end_time : option string)
    (w : world) :
  ((exists key,
       (download_segments env segment_urls start_time end_time w).1
       = Raise (KeyError key))
   <-> exists s, s ∈ segment_urls /\ duration s = None)
  /\ ((exists s, s ∈ segment_urls /\ duration s = None) ->
      download_segments env segment_urls start_time end_time w
      = (Raise (KeyError "duration"), w)).
Proof.
  rewrite download_segments_unfold.
  destruct (omap_with_duration segment_urls) as [[descriptors Hdur]|[Hdur Hnone]].
  - pose proof (omap_with_duration_all _ _ Hdur) as Hall. rewrite Hdur.
    assert (Hnot : ~ exists s, s ∈ segment_urls /\ duration s = None)
      by (intros (s & Hs & Hnone); by apply (Hall s)).
    split; [|by intros ?]. split; [|by intros ?].
    intros [key Hkey]. exfalso.
    destruct (select_window_outcome (f_sum (map segment_duration descriptors))
                start_time end_time) as [[[s t] Hwindow]|[why Hwindow]];
      rewrite Hwindow in Hkey; [|done].
    destruct (download_all_outcome env (build_plan s t descriptors (of_int 0)) [] w)
      as [(l & w' & Hrun)|[(w' & Hrun)|(e & w' & Hrun & He)]];
      rewrite Hrun in Hkey; [done | done |].
    simpl in Hkey. injection Hkey as ->. done.
  - rewrite Hdur. split; [|done]. split; [done|]. intros _. by eexists.
Qed.

(** X7.  However [download_segments] ends, by returning, by
    [sys.exit] or by an exception, it has run no command; every file it
    has changed is the local path of an entry of its list, [segments/]
    followed by the file name of the URL; it has requested only URLs of
    entries of its list, each entry at most once and in the order of the
    list; and [print] was called at most once, for the line of a refused
    segment request: after that line the function ends by [sys.exit(1)],
    or by the exception that the closing progress bar raises while the
    exit passes through it. *)
Theorem download_segments_frame (F : Type) (HF : PyFloat F) (env : environment)
    (segment_urls : list (segment (F:=F))) (start_time end_time : option string)
    (w : world) :
  commands (download_segments env segment_urls start_time end_time w).2 = commands w
  /\ (forall path,
        files (download_segments env segment_urls start_time end_time w).2 !! path
        <> files w !! path ->
        exists s, s ∈ segment_urls /\ path = segment_name (url s))
  /\ (exists fetched,
        requests (download_segments env segment_urls start_time end_time w).2
        = requests w ++ fetched
        /\ fetched `sublist_of` map url segment_urls)
  /\ (stdout (download_segments env segment_urls start_time end_time w).2 = stdout w
      \/ ((download_segments env segment_urls start_time end_time w).1 = SysExit 1
          \/ exists err,
               (download_segments env segment_urls start_time end_time w).1
               = Raise (bar_exn err))
         /\ exists s e,
              s ∈ segment_urls
              /\ stdout (download_segments env segment_urls start_time end_time w).2
                 = stdout w ++ ["Error downloading segment " +:+ url s +:+ ": " +:+ e]).
Proof. apply download_segments_world. Qed.

(** ** The requests of a run *)

(** X8.  A run of the program, however it ends, requests the manifest
    URL first, whatever its spelling, and after it only URLs that stand
    in the manifest it received: stripped lines that do not start with
    [#], each line at most once and in the order of the manifest.
    Nothing is requested after a refused manifest request. *)
Theorem requests_from_manifest (F : Type) (HF : PyFloat F) (env : environment)
    (m3u8_url output_file : string) (start_time end_time : option string) (w : world) :
  exists fetched,
    requests (main (F:=F) env m3u8_url output_file start_time end_time w).2
    = requests w ++ m3u8_url :: fetched
    /\ match requests_get env (length (requests w)) m3u8_url with
       | inl _ => fetched = []
       | inr response =>
           fetched `sublist_of`
             map Str.strip (url_lines (Str.splitlines (text response)))
       end.
Proof.
  unfold main, download_video, create_segments_directory, download_m3u8_file,
    bind, get, ret, lift.
  destruct (requests_get env (length (requests w)) m3u8_url) as [e|response]; simpl.
  - by exists [].
  - destruct (parse_m3u8_file (F:=F) (text response)) as [segment_urls|e|code] eqn:Hparse.
    + destruct (download_segments_world env segment_urls start_time end_time
                  (requested m3u8_url w))
        as (_ & _ & (fetched & Hrequests & Hsub) & _).
      pose proof (parse_lines_extends _ _ _ _ Hparse) as (more & Hentries & Hurls).
      simpl in Hentries. subst more. rewrite Hurls in Hsub.
      exists fetched. split; [|exact Hsub].
      destruct (download_segments env segment_urls start_time end_time
                  (requested m3u8_url w)) as [[segment_files|e|code] w'];
        simpl in Hrequests.
      * unfold create_concat_file, combine_segments, cleanup_files, bind, write_file,
          ret, print, sys_exit. simpl.
        destruct (ffmpeg env); simpl; by rewrite Hrequests, <- app_assoc.
      * destruct e; simpl; by rewrite Hrequests, <- app_assoc.
      * simpl. by rewrite Hrequests, <- app_assoc.
    + exists []. split; [|apply sublist_nil_l]. by destruct e.
    + exists []. split; [done | apply sublist_nil_l].
Qed.

(** ** A run that succeeds *)

Lemma cleanup_lookup (env : environment) (concat_file : string)
    (fs : gmap string string) (path : string) :
  filter (fun entry : string * string => ¬ removed env concat_file entry.1) fs !! path
  = if removed env concat_file path then None else fs !! path.
Proof.
  rewrite map_lookup_filter.
  destruct (removed env concat_file path) eqn:Hpath.
  - destruct (fs !! path); [|done]. simpl.
    rewrite option_guard_False; [done|].
    simpl. rewrite Hpath. intros Hnot. by apply Hnot.
  - destruct (fs !! path); [|done]. simpl.
    rewrite option_guard_True; [done|].
    simpl. rewrite Hpath. by intros [].
Qed.

(** X9.  When the manifest is read, the time window is accepted, every
    planned segment is delivered (its request answered, its local file
    opened, its stream read to the end, the progress bar updated), the
    bar closes without raising and ffmpeg is installed and leaves the
    concatenation manifest in place, the run returns: it has requested
    the manifest and the planned segments, run ffmpeg once, on
    [segments.txt] and the output file, and printed the line that the
    video is saved, whatever exit status ffmpeg returned.  Afterwards
    every path that lies in [segments] or names [segments.txt], however
    it is spelled, is gone, the output file included when it is such a
    path, and every other file is as ffmpeg left it. *)
Theorem video_saved (F : Type) (HF : PyFloat F) (env : environment)
    (m3u8_url output_file : string) (start_time end_time : option string) (w : world)
    (descriptors : list descriptor) (window : F * F)
    (run : list string -> gmap string string -> Z * gmap string string) :
  manifest_read env m3u8_url w descriptors ->
  select_window (f_sum (map segment_duration descriptors)) start_time end_time
  = Return window ->
  (forall k y,
      build_plan window.1 window.2 descriptors (of_int 0) !! k = Some y ->
      exists r, delivered env (requested m3u8_url w) k y r) ->
  bar_closes env (requested m3u8_url w)
    (length (build_plan window.1 window.2 descriptors (of_int 0))) ->
  ffmpeg env = Some run ->
  is_Some ((run (ffmpeg_command "segments.txt" output_file)
              (assembled env (S (length (requests w)))
                 (build_plan window.1 window.2 descriptors (of_int 0)) (files w))).2
           !! "segments.txt") ->
  exists w',
    main (F:=F) env m3u8_url output_file start_time end_time w = (Return tt, w')
    /\ stdout w' = stdout w ++ [video_saved_line output_file]
    /\ requests w'
       = requests w
         ++ m3u8_url
            :: map segment_url (build_plan window.1 window.2 descriptors (of_int 0))
    /\ commands w' = commands w ++ [ffmpeg_command "segments.txt" output_file]
    /\ (forall path, removed env "segments.txt" path = true -> files w' !! path = None)
    /\ (forall path,
          removed env "segments.txt" path = false ->
          files w' !! path
          = (run (ffmpeg_command "segments.txt" output_file)
               (assembled env (S (length (requests w)))
                  (build_plan window.1 window.2 descriptors (of_int 0))
                  (files w))).2 !! path).
Proof.
  intros (response & segment_urls & Hget & Hparse & Hdur) Hwindow Hok Hquiet Hffmpeg _.
  unfold main, download_video, create_segments_directory, download_m3u8_file,
    bind, get, ret, lift.
  rewrite Hget. simpl. rewrite Hparse.
  rewrite download_segments_unfold, Hdur, Hwindow.
  destruct window as [s t]. simpl in Hok, Hquiet |- *.
  rewrite (download_all_returns env _ [] _ Hok Hquiet).
  unfold create_concat_file, combine_segments, cleanup_files, bind, write_file, ret, print.
  rewrite Hffmpeg. simpl.
  eexists. split; [reflexivity|]. simpl.
  rewrite length_app, Nat.add_1_r, <- app_assoc. unfold assembled. simpl.
  repeat split; try done.
  - intros path Hremoved. by rewrite cleanup_lookup, Hremoved.
  - intros path Hkept. by rewrite cleanup_lookup, Hkept.
Qed.

(** Two segments, both delivered, and an ffmpeg that fails: the run
    still reports the video as saved, and no output file exists. *)
Lemma video_saved_witness :
  exists w',
    main (F:=float)
      (serve_failing_ffmpeg "http://h/v.m3u8"
         (manifest ["#EXTM3U"; "#EXTINF:4.0,"; "http://h/1.ts"; "#EXTINF:4.0,";
                    "http://h/2.ts"]))
      "http://h/v.m3u8" "ft_video.mp4" None None empty_world
    = (Return tt, w')
    /\ stdout w' = [video_saved_line "ft_video.mp4"]
    /\ files w' !! "ft_video.mp4" = None.
Proof.
  destruct (video_saved float binary64
              (serve_failing_ffmpeg "http://h/v.m3u8"
                 (manifest ["#EXTM3U"; "#EXTINF:4.0,"; "http://h/1.ts"; "#EXTINF:4.0,";
                            "http://h/2.ts"]))
              "http://h/v.m3u8" "ft_video.mp4" None None empty_world
              [seg "http://h/1.ts" 4; seg "http://h/2.ts" 4] (0%float, 8%float)
              (fun _ fs => (1, fs)))
    as (w' & Hrun & Hstdout & _ & _ & _ & Hfiles).
  - eexists _, _. split; [reflexivity|]. split; vm_compute; reflexivity.
  - vm_compute. reflexivity.
  - intros [|[|k]] y Hy; vm_compute in Hy; [| |discriminate];
      injection Hy as <-; eexists; repeat split; vm_compute; reflexivity.
  - intros _. reflexivity.
  - reflexivity.
  - vm_compute. by eexists.
  - exists w'. split; [exact Hrun|]. split; [exact Hstdout|].
    rewrite Hfiles by (vm_compute; reflexivity). vm_compute. reflexivity.
Defined.

(** ** A stream that breaks *)

Section StreamFacts.

Context {F : Type} `{PyFloat F}.
Variable env : environment.

(** Joining chunks, the empty ones count for nothing. *)
Lemma join_nonempty (chunks : list string) :
  Str.join (filter (fun chunk => chunk <> "") chunks) = Str.join chunks.
Proof.
  induction chunks as [|chunk chunks IH]; [done|].
  rewrite filter_cons. destruct (decide (chunk <> "")) as [Hchunk|Hchunk].
  - simpl. by rewrite IH.
  - apply dec_stable in Hchunk as ->. simpl. by rewrite IH.
Qed.

(** The file of the descriptor that comes after delivered ones is
    written whether or not its stream breaks. *)
Lemma stored_snoc (pre : list (descriptor (F:=F))) (x : descriptor) (w : world)
    (fs : gmap string string) (r : response) :
  (forall k y, pre !! k = Some y -> exists r', delivered env w k y r') ->
  reply env w (length pre) x = inr r ->
  open_wb (local_path x) = Return tt ->
  stored env (length (requests w)) (pre ++ [x]) fs
  = <[local_path x := body r]> (stored env (length (requests w)) pre fs).
Proof.
  revert w fs.
  induction pre as [|y pre IH]; intros w fs Hok Hx Hopen.
  - unfold reply in Hx. simpl in *. rewrite Nat.add_0_r in Hx. rewrite Hx, Hopen.
    by destruct (stream_error r), (tqdm_update env (S (length (requests w)))).
  - destruct (Hok 0%nat y eq_refl) as (r0 & Hy).
    cbn [app]. rewrite !(stored_step env y _ w r0 fs Hy).
    assert (Hlength : length (requests (written (local_path y) (body r0)
                                          (requested (segment_url y) w)))
                      = S (length (requests w)))
      by (simpl; rewrite length_app; simpl; lia).
    rewrite <- Hlength. apply IH; [| |done].
    + by apply (delivered_tail env y pre w).
    + unfold reply in *. rewrite Hlength. simpl in Hx.
      by replace (S (length (requests w)) + length pre)%nat
        with (length (requests w) + S (length pre))%nat by lia.
Qed.

(** A stream that breaks under the progress bar: the exception passes
    through the closing of the bar, which may raise in its place. *)
Lemma download_all_breaks (pre : list (descriptor (F:=F))) x post r e segment_files w :
  (forall k y, pre !! k = Some y -> exists r, delivered env w k y r) ->
  reply env w (length pre) x = inr r ->
  open_wb (local_path x) = Return tt ->
  stream_error r = Some e ->
  download_all env (pre ++ x :: post) segment_files w
  = (match tqdm_close env (length (requests w) + S (length pre)) with
     | Some err => Raise (bar_exn err)
     | None => Raise (RequestException e)
     end,
     {| files := <[local_path x := body r]> (stored env (length (requests w)) pre (files w));
        stdout := stdout w;
        requests := requests w ++ map segment_url (pre ++ [x]);
        commands := commands w |}).
Proof.
  intros Hok Hreply Hopen Hbreak. unfold download_all, with_progress_bar.
  rewrite (fetch_all_breaks env pre x post r e segment_files w Hok Hreply Hopen Hbreak).
  rewrite (stored_snoc pre x w (files w) r Hok Hreply Hopen).
  cbn [requests]. rewrite !length_app, length_map, length_app. cbn [length].
  replace (length (requests w) + (length pre + 1))%nat
    with (length (requests w) + S (length pre))%nat by lia.
  destruct (Nat.eqb_spec (length (requests w) + S (length pre)) (length (requests w)));
    [lia|].
  by destruct (tqdm_close env _).
Qed.

End StreamFacts.

(** X10.  The file written for a segment holds the chunks of the
    response one after the other, in the order they came: leaving out
    the empty chunks loses nothing. *)
Theorem body_all_chunks (r : response) : body r = Str.join (iter_content r).
Proof. apply join_nonempty. Qed.

(** X11.  A planned segment whose request is answered and whose local
    file is opened, but whose stream breaks while it is read, ends the
    run: the [RequestException] is raised outside the [try] of the loop
    and is no [ValueError], so nothing catches it, and it leaves the
    program when the progress bar closes without raising.  When the
    closing bar raises instead, its [ValueError] is printed by [main]
    before [sys.exit(1)], and its [OverflowError] leaves the program.
    The process ends with status 1 each time; nothing else is printed,
    the file of that segment holds the chunks that came before the
    break, no concatenation manifest is written, ffmpeg is not run and
    nothing is cleaned up or requested further. *)
Theorem broken_stream_escapes (F : Type) (HF : PyFloat F) (env : environment)
    (m3u8_url output_file : string) (start_time end_time : option string) (w : world)
    (descriptors : list descriptor) (window : F * F)
    (fetched : list descriptor) (x : descriptor) (left_out : list descriptor)
    (r : response) (e : string) :
  manifest_read env m3u8_url w descriptors ->
  select_window (f_sum (map segment_duration descriptors)) start_time end_time
  = Return window ->
  build_plan window.1 window.2 descriptors (of_int 0) = fetched ++ x :: left_out ->
  (forall k y, fetched !! k = Some y ->
               exists r, delivered env (requested m3u8_url w) k y r) ->
  reply env (requested m3u8_url w) (length fetched) x = inr r ->
  open_wb (local_path x) = Return tt ->
  stream_error r = Some e ->
  exists w',
    main (F:=F) env m3u8_url output_file start_time end_time w
    = (match tqdm_close env (length (requests w) + length fetched + 2) with
       | None => Raise (RequestException e)
       | Some (BarValueError text) => SysExit 1
       | Some (BarOverflowError text) => Raise (OverflowError text)
       end, w')
    /\ exit_status (main (F:=F) env m3u8_url output_file start_time end_time w).1 = 1
    /\ stdout w'
       = stdout w
         ++ match tqdm_close env (length (requests w) + length fetched + 2) with
            | Some (BarValueError text) => ["Error: " +:+ text]
            | _ => []
            end
    /\ commands w' = commands w
    /\ requests w'
       = requests w ++ m3u8_url :: map segment_url fetched ++ [segment_url x]
    /\ files w' = <[local_path x := body r]>
                    (stored env (S (length (requests w))) fetched (files w))
    /\ files w' !! "segments.txt" = files w !! "segments.txt".
Proof.
  intros (response & segment_urls & Hget & Hparse & Hdur) Hwindow Hplan Hok Hreply
    Hopen Hbreak.
  assert (Hfiles : forall fs : gmap string string,
             <[local_path x := body r]>
               (stored env (S (length (requests w))) fetched fs) !! "segments.txt"
             = fs !! "segments.txt").
  { intros fs. rewrite lookup_insert_ne.
    - apply stored_lookup_other. intros z _ Hz.
      pose proof (local_path_segments z) as Hprefix. by rewrite Hz in Hprefix.
    - intros Hz. pose proof (local_path_segments x) as Hprefix.
      by rewrite Hz in Hprefix. }
  unfold main, download_video, create_segments_directory, download_m3u8_file,
    bind, get, ret, lift.
  rewrite Hget. simpl. rewrite Hparse.
  rewrite download_segments_unfold, Hdur, Hwindow.
  destruct window as [s t]. simpl in Hplan. rewrite Hplan.
  rewrite (download_all_breaks env fetched x left_out r e [] _ Hok Hreply Hopen Hbreak).
  simpl. rewrite length_app. simpl.
  replace (length (requests w) + 1 + S (length fetched))%nat
    with (length (requests w) + length fetched + 2)%nat by lia.
  rewrite Nat.add_1_r.
  destruct (tqdm_close env _) as [[text|text]|];
    unfold sys_exit, print, printed, bind; simpl;
    (eexists; split; [reflexivity|]); simpl;
    rewrite ?map_app, <- ?app_assoc, ?app_nil_r; simpl;
    rewrite <- ?app_assoc; repeat split; try done; apply Hfiles.
Qed.

(** Two segments, the stream of the second breaks after one chunk. *)
Lemma broken_stream_escapes_witness :
  exists w',
    main (F:=float)
      (serve_breaking "http://h/v.m3u8"
         (manifest ["#EXTM3U"; "#EXTINF:4.0,"; "http://h/1.ts"; "#EXTINF:4.0,";
                    "http://h/2.ts"])
         "http://h/2.ts")
      "http://h/v.m3u8" "ft_video.mp4" None None empty_world
    = (Raise (RequestException "Connection broken"), w')
    /\ stdout w' = []
    /\ files w' !! "segments/2.ts" = Some "segment ".
Proof.
  destruct (broken_stream_escapes float binary64
              (serve_breaking "http://h/v.m3u8"
                 (manifest ["#EXTM3U"; "#EXTINF:4.0,"; "http://h/1.ts"; "#EXTINF:4.0,";
                            "http://h/2.ts"])
                 "http://h/2.ts")
              "http://h/v.m3u8" "ft_video.mp4" None None empty_world
              [seg "http://h/1.ts" 4; seg "http://h/2.ts" 4] (0%float, 8%float)
              [seg "http://h/1.ts" 4] (seg "http://h/2.ts" 4) []
              {| text := ""; iter_content := ["segment "];
                 stream_error := Some "Connection broken" |}
              "Connection broken")
    as (w' & Hrun & _ & Hstdout & _ & _ & Hfiles & _).
  - eexists _, _. split; [reflexivity|]. split; vm_compute; reflexivity.
  - vm_compute. reflexivity.
  - vm_compute. reflexivity.
  - intros [|k] y Hy; [|discriminate]. injection Hy as <-.
    eexists. repeat split; vm_compute; reflexivity.
  - reflexivity.
  - reflexivity.
  - reflexivity.
  - exists w'. split; [exact Hrun|]. split; [exact Hstdout|].
    rewrite Hfiles. apply lookup_insert_eq.
Defined.

(** ** The default window *)

Section DefaultWindow.

Context {F : Type} `{OrderedAdd F}.

Local Open Scope pyfloat_scope.

Hypothesis le_not_lt : forall a b : F, (a <=? b) = true -> (b <? a) = false.

(** With the window from [0] to the time the clock reaches at the end
    of the list, no descriptor is skipped and the loop does not stop. *)
Lemma build_plan_all (segment_urls : list descriptor) (t : F) :
  (of_int 0 <=? t) = true -> nonnegative segment_urls ->
  build_plan (of_int 0) (time_after t segment_urls) segment_urls t = segment_urls.
Proof.
  intros Ht Hnn.
  enough (Hgen : forall total, time_after t segment_urls = total ->
                   build_plan (of_int 0) total segment_urls t = segment_urls)
    by by apply Hgen.
  revert t Ht.
  induction Hnn as [|x segment_urls Hx Hnn IH]; intros t Ht total Htotal; [done|].
  destruct (f_add_nonneg t (segment_duration x) Ht Hx) as [Hle Hpos].
  assert (Hend : (t <=? total) = true).
  { rewrite <- Htotal. apply time_after_increases; [done | by constructor]. }
  simpl. unfold loop_action.
  rewrite (le_not_lt _ _ Hpos), (le_not_lt _ _ Hend).
  f_equal. by apply IH.
Qed.

End DefaultWindow.

Section Binary64Order.

Ltac order_cases :=
  repeat match goal with
         | H : context [Z.compare ?a ?b] |- _ => destruct (Z.compare_spec a b)
         | |- context [Z.compare ?a ?b] => destruct (Z.compare_spec a b)
         | H : context [Pos.compare_cont Eq ?a ?b] |- _ =>
             change (Pos.compare_cont Eq a b) with (Pos.compare a b) in H
         | |- context [Pos.compare_cont Eq ?a ?b] =>
             change (Pos.compare_cont Eq a b) with (Pos.compare a b)
         | H : context [Pos.compare ?a ?b] |- _ => destruct (Pos.compare_spec a b)
         | |- context [Pos.compare ?a ?b] => destruct (Pos.compare_spec a b)
         end.

Lemma SFleb_not_ltb (x y : spec_float) : SFleb x y = true -> SFltb y x = false.
Proof.
  unfold SFleb, SFltb.
  destruct x as [[]|[]| |[] mx ex], y as [[]|[]| |[] my ey]; simpl;
    try discriminate; try reflexivity;
    order_cases; simpl; subst; try discriminate; try reflexivity; try lia.
Qed.

Lemma float_le_not_lt (a b : float) : (a <=? b)%float = true -> (b <? a)%float = false.
Proof. rewrite leb_spec, ltb_spec. apply SFleb_not_ltb. Qed.

End Binary64Order.

(** X12.  With no start and no end time, each absent or the empty
    string, [download_segments] plans every entry of a manifest whose
    durations are non-negative, and so downloads all of it, provided
    that [sum] adds from left to right as the clock of the loop does
    (the window then ends exactly where the clock arrives) and that
    [a <= b] excludes [b < a]. *)
Theorem whole_manifest_by_default (F : Type) (HF : PyFloat F) (HO : OrderedAdd F)
    (env : environment) (segment_urls : list (segment (F:=F)))
    (descriptors : list descriptor) (start_time end_time : option string) (w : world) :
  (forall a b : F, (a <=? b) = true -> (b <? a) = false) ->
  (forall durations : list F, f_sum durations = fold_left f_add durations (of_int 0)) ->
  given start_time = None -> given end_time = None ->
  omap with_duration segment_urls = Return descriptors ->
  nonnegative descriptors ->
  build_plan (of_int 0) (f_sum (map segment_duration descriptors)) descriptors (of_int 0)
  = descriptors
  /\ download_segments env segment_urls start_time end_time w
     = download_all env descriptors [] w.
Proof.
  intros Horder Hsum Hstart Hend Hdur Hnn.
  assert (Hplan : build_plan (of_int 0) (f_sum (map segment_duration descriptors))
                    descriptors (of_int 0) = descriptors).
  { rewrite Hsum. apply (build_plan_all Horder descriptors (of_int 0)); [|done].
    apply f_le_zero. }
  split; [exact Hplan|].
  rewrite download_segments_unfold, Hdur. unfold select_window.
  rewrite Hstart, Hend. simpl. by rewrite Hplan.
Qed.

(** Three segments in binary64, no start and an empty end string: all
    three are planned. *)
Lemma whole_manifest_by_default_witness :
  build_plan 0%float
    (f_sum (map segment_duration
              [seg "http://h/1.ts" 0x1.999999999999ap-4; seg "http://h/2.ts" 0x1.999999999999ap-3;
               seg "http://h/3.ts" 0]))
    [seg "http://h/1.ts" 0x1.999999999999ap-4; seg "http://h/2.ts" 0x1.999999999999ap-3;
     seg "http://h/3.ts" 0]
    0%float
  = [seg "http://h/1.ts" 0x1.999999999999ap-4; seg "http://h/2.ts" 0x1.999999999999ap-3;
     seg "http://h/3.ts" 0].
Proof.
  refine (proj1 (whole_manifest_by_default float binary64 binary64_ordered
                   (serve "" "" [] false)
                   [{| duration := Some 0x1.999999999999ap-4%float; url := "http://h/1.ts" |};
                    {| duration := Some 0x1.999999999999ap-3%float; url := "http://h/2.ts" |};
                    {| duration := Some 0%float; url := "http://h/3.ts" |}]
                   _ None (Some "") empty_world
                   float_le_not_lt _ _ _ _ _));
    [reflexivity | reflexivity | reflexivity | reflexivity | repeat constructor].
Defined.

(** ** Time strings that are refused *)

Section UnpackFacts.

Context {A B : Type}.
Variable f : A -> outcome B.

Lemma omap_raise (before : list A) (bad : A) (after : list A) (e : exn) :
  Forall (fun a => exists b, f a = Return b) before ->
  f bad = Raise e ->
  omap f (before ++ bad :: after) = Raise e.
Proof.
  intros Hbefore Hbad.
  induction Hbefore as [|a before [b Ha] _ IH]; simpl; [by rewrite Hbad|].
  by rewrite Ha, IH.
Qed.

Lemma omap_return (l : list A) :
  Forall (fun a => exists b, f a = Return b) l ->
  exists bs, omap f l = Return bs /\ length bs = length l.
Proof.
  induction 1 as [|a l [b Ha] _ (bs & IH & Hlength)]; simpl; [by exists []|].
  rewrite Ha, IH. simpl. exists (b :: bs). by rewrite <- Hlength.
Qed.

End UnpackFacts.

(** X13.  Which [ValueError] a time string gets.  The fields between
    colons are converted one by one, the first four at most.  The first
    of them that [float()] rejects is reported, whatever the number of
    fields; a fifth or later field is never looked at.  When the fields
    looked at are all numbers, fewer than three of them give "not
    enough values to unpack" with their number, which is never 0, and
    more than three give "too many values to unpack". *)
Theorem convert_time_to_seconds_errors (F : Type) (HF : PyFloat F) (time_str : string) :
  (forall before bad after,
      take 4 (Str.split ":" time_str) = before ++ bad :: after ->
      Forall (fun field => is_Some (float_of_str (F:=F) field)) before ->
      float_of_str (F:=F) bad = None ->
      convert_time_to_seconds (F:=F) time_str = Raise (ValueError (NotAFloat bad)))
  /\ (Forall (fun field => is_Some (float_of_str (F:=F) field))
        (take 4 (Str.split ":" time_str)) ->
      ((length (Str.split ":" time_str) < 3)%nat ->
       convert_time_to_seconds (F:=F) time_str
       = Raise (ValueError (NotEnoughValues 3 (length (Str.split ":" time_str)))))
      /\ ((3 < length (Str.split ":" time_str))%nat ->
          convert_time_to_seconds (F:=F) time_str = Raise (ValueError (TooManyValues 3))))
  /\ (1 <= length (Str.split ":" time_str))%nat.
Proof.
  unfold convert_time_to_seconds.
  set (read := fun field : string =>
                 match float_of_str (F:=F) field with
                 | Some x => Return x
                 | None => Raise (ValueError (NotAFloat field))
                 end).
  assert (Hread : forall fields,
             Forall (fun field => is_Some (float_of_str (F:=F) field)) fields ->
             Forall (fun field => exists x, read field = Return x) fields).
  { intros fields Hfields. eapply Forall_impl; [exact Hfields|]. intros field [x Hx].
    exists x. unfold read. by rewrite Hx. }
  split; [|split].
  - intros before bad after Hfields Hbefore Hbad. rewrite Hfields.
    rewrite (omap_raise read before bad after (ValueError (NotAFloat bad)));
      [done | by apply Hread | unfold read; by rewrite Hbad].
  - intros Hall.
    destruct (omap_return read _ (Hread _ Hall)) as (values & -> & Hlength).
    rewrite length_take in Hlength. simpl.
    split; intros Hfields.
    + replace (length (Str.split ":" time_str)) with (length values) by lia.
      destruct values as [|h [|m [|s [|x values]]]]; cbn [length] in Hlength;
        try done; exfalso; lia.
    + destruct values as [|h [|m [|s [|x values]]]]; cbn [length] in Hlength;
        try done; exfalso; lia.
  - pose proof (split_nonempty ":" time_str).
    destruct (Str.split ":" time_str); simpl; [done | lia].
Qed.

(** ** Local file names *)

Section NameFacts.

Lemma split_app_sep (c : ascii) (a b : string) :
  Str.split c (a +:+ String c b) = Str.split c a ++ Str.split c b.
Proof.
  induction a as [|x a IH].
  - rewrite append_nil_l. simpl. by rewrite Ascii.eqb_refl.
  - rewrite append_cons. simpl. rewrite IH.
    destruct (Ascii.eqb x c); [done|].
    pose proof (split_nonempty c a) as Hne.
    by destruct (Str.split c a).
Qed.

Lemma last_app_nonempty (l1 l2 : list string) :
  l2 <> [] -> List.last (l1 ++ l2) "" = List.last l2 "".
Proof.
  intros Hne. induction l1 as [|s l1 IH]; [done|].
  simpl. rewrite IH. destruct (l1 ++ l2) eqn:Happ; [|done].
  by apply app_eq_nil in Happ as [_ ->].
Qed.

(** No piece of a split holds the separator. *)
Lemma split_pieces (c : ascii) (s : string) :
  Forall (fun piece => Str.contains c piece = false) (Str.split c s).
Proof.
  induction s as [|x s IH]; [by repeat constructor|]. simpl.
  destruct (Ascii.eqb x c) eqn:Hx; [by constructor|].
  destruct (Str.split c s) as [|piece pieces]; [by repeat constructor; simpl; rewrite Hx|].
  apply Forall_cons in IH as [Hpiece Hpieces].
  constructor; [|done]. simpl. by rewrite Hx.
Qed.

(** A character that a string does not hold is in none of its pieces. *)
Lemma split_free_of (d c : ascii) (s : string) :
  Str.contains d s = false ->
  Forall (fun piece => Str.contains d piece = false) (Str.split c s).
Proof.
  induction s as [|x s IH]; [by repeat constructor|]. simpl.
  intros [Hx Hs]%orb_false_iff. specialize (IH Hs).
  destruct (Ascii.eqb x c); [by constructor|].
  destruct (Str.split c s) as [|piece pieces]; [by repeat constructor; simpl; rewrite Hx|].
  apply Forall_cons in IH as [Hpiece Hpieces].
  constructor; [|done]. simpl. by rewrite Hx.
Qed.

Lemma Forall_last (P : string -> Prop) (pieces : list string) :
  P "" -> Forall P pieces -> P (List.last pieces "").
Proof.
  intros Hempty. induction 1 as [|piece pieces Hpiece _ IH]; [done|].
  simpl. by destruct pieces.
Qed.

Lemma Forall_hd (P : string -> Prop) (pieces : list string) :
  P "" -> Forall P pieces -> P (List.hd "" pieces).
Proof. intros Hempty. by destruct 1. Qed.

Lemma file_name_after_slash (a b : string) :
  file_name (a +:+ "/" +:+ b) = file_name b.
Proof.
  unfold file_name.
  change (a +:+ "/" +:+ b) with (a +:+ String "/" b).
  rewrite split_app_sep. rewrite last_app_nonempty; [done | apply split_nonempty].
Qed.

Lemma file_name_plain (name : string) :
  Str.contains "/" name = false -> Str.contains "?" name = false ->
  file_name name = name.
Proof.
  intros Hslash Hquery. unfold file_name.
  rewrite (split_free "/" name) by done. simpl.
  by rewrite (split_free "?" name).
Qed.

Lemma file_name_query (name query : string) :
  Str.contains "/" name = false -> Str.contains "?" name = false ->
  Str.contains "/" query = false ->
  file_name (name +:+ "?" +:+ query) = name.
Proof.
  intros Hslash Hquery Hfree. unfold file_name.
  rewrite (split_free "/" (name +:+ "?" +:+ query)).
  - simpl. change (name +:+ "?" +:+ query) with (name +:+ String "?" query).
    by rewrite split_append.
  - by rewrite !contains_app, Hslash, Hfree.
Qed.

End NameFacts.

(** X14.  The file name taken from a URL holds no slash and no
    question mark, whatever the URL: a local path is [segments/]
    followed by a name without directory separators. *)
Theorem file_name_no_separator (segment_url : string) :
  Str.contains "/" (file_name segment_url) = false
  /\ Str.contains "?" (file_name segment_url) = false
  /\ segment_name segment_url = "segments/" +:+ file_name segment_url.
Proof.
  unfold file_name.
  pose proof (Forall_last (fun piece => Str.contains "/" piece = false)
                (Str.split "/" segment_url) eq_refl (split_pieces "/" segment_url))
    as Hlast.
  split; [|split; [|done]].
  - exact (Forall_hd (fun piece => Str.contains "/" piece = false) _ eq_refl
             (split_free_of "/" "?" _ Hlast)).
  - exact (Forall_hd (fun piece => Str.contains "?" piece = false) _ eq_refl
             (split_pieces "?" _)).
Qed.

(** X15.  The file name is read after the last slash of the URL, also
    when that slash stands in the query string, and ends before the
    first question mark after it.  For a URL [base/name?query] with no
    slash in the query it is [name], with or without the query; for a
    URL that ends in a slash it is empty. *)
Theorem file_name_spec :
  (forall a b : string, file_name (a +:+ "/" +:+ b) = file_name b)
  /\ (forall base name query : string,
        Str.contains "/" name = false -> Str.contains "?" name = false ->
        file_name (base +:+ "/" +:+ name) = name
        /\ (Str.contains "/" query = false ->
            file_name (base +:+ "/" +:+ name +:+ "?" +:+ query) = name))
  /\ (forall base : string, file_name (base +:+ "/") = "").
Proof.
  split; [apply file_name_after_slash|]. split.
  - intros base name query Hslash Hquery. split.
    + rewrite file_name_after_slash. by apply file_name_plain.
    + intros Hfree. rewrite file_name_after_slash. by apply file_name_query.
  - intros base. change (base +:+ "/") with (base +:+ "/" +:+ "").
    by rewrite file_name_after_slash.
Qed.

(** ** The URL check *)

Lemma endswith_spec (suffix s : string) :
  endswith suffix s = true <-> exists stem, s = stem +:+ suffix.
Proof.
  split.
  - induction s as [|c s IH]; cbn [endswith].
    + rewrite orb_false_r. intros ->%String.eqb_eq. by exists "".
    + intros [->%String.eqb_eq|Htail]%orb_true_iff; [by exists ""|].
      destruct (IH Htail) as [stem ->]. by exists (String c stem).
  - intros [stem ->]. induction stem as [|c stem IH].
    + rewrite append_nil_l. destruct suffix; cbn [endswith]; by rewrite String.eqb_refl.
    + rewrite append_cons. cbn [endswith]. rewrite IH. apply orb_true_r.
Qed.

(** X16.  [validate_m3u8_url] accepts exactly the URLs whose last five
    characters are [.m3u8] and raises its [ValueError] on every other
    URL, so also on a manifest URL that carries a query string. *)
Theorem validate_m3u8_url_spec (m3u8_url : string) :
  (validate_m3u8_url m3u8_url = inr tt <-> exists stem, m3u8_url = stem +:+ ".m3u8")
  /\ (validate_m3u8_url m3u8_url = inl invalid_m3u8_url
      <-> ~ exists stem, m3u8_url = stem +:+ ".m3u8")
  /\ validate_m3u8_url "http://h/v.m3u8?token=1" = inl invalid_m3u8_url.
Proof.
  split; [|split; [|reflexivity]];
    unfold validate_m3u8_url; rewrite <- endswith_spec;
    destruct (endswith ".m3u8" m3u8_url); simpl; split; done.
Qed.

(** ** How a run can end *)

Section EndFacts.

Context {F : Type} `{PyFloat F}.
Variable env : environment.

(** The first tag that is not readable ends the loop of the parser. *)
Lemma parse_lines_first_bad (before : list string) (tag : string) (after : list string)
    (current_segment : option F) (segment_urls : list (segment (F:=F))) (e : exn) :
  Forall (readable (F:=F)) before ->
  Str.startswith "#EXTINF:" tag = true ->
  extinf_duration (F:=F) tag = Raise e ->
  parse_lines (before ++ tag :: after) current_segment segment_urls = Raise e.
Proof.
  intros Hbefore Htag Hbad. revert current_segment segment_urls.
  induction Hbefore as [|line before Hline _ IH]; intros current_segment segment_urls.
  - simpl. by rewrite Htag, Hbad.
  - cbn [app parse_lines].
    destruct (Str.startswith "#EXTINF:" line) eqn:Hkind.
    + destruct (Hline Hkind) as [d ->]. simpl. apply IH.
    + destruct (negb (Str.startswith "#" line)); apply IH.
Qed.

Lemma stored_keeps (plan : list (descriptor (F:=F))) (n : nat) (fs : gmap string string)
    (path : string) :
  is_Some (fs !! path) -> is_Some (stored env n plan fs !! path).
Proof.
  revert n fs.
  induction plan as [|x plan IH]; intros n fs Hpath; simpl; [done|].
  destruct (requests_get env n (segment_url x)) as [e|r]; [done|].
  destruct (open_wb (local_path x)); [|done..].
  assert (Hkept : is_Some (<[local_path x := body r]> fs !! path))
    by (apply lookup_insert_is_Some'; by right).
  destruct (stream_error r), (tqdm_update env (S n)); try done. by apply IH.
Qed.

(** Every descriptor of a delivered plan has its file. *)
Lemma stored_is_Some (plan : list (descriptor (F:=F))) (w : world)
    (fs : gmap string string) :
  (forall k x, plan !! k = Some x -> exists r, delivered env w k x r) ->
  Forall (fun x => is_Some (stored env (length (requests w)) plan fs !! local_path x))
    plan.
Proof.
  revert w fs.
  induction plan as [|x plan IH]; intros w fs Hok; [constructor|].
  destruct (Hok 0%nat x eq_refl) as (r & Hx).
  rewrite (stored_step env x plan w r fs Hx).
  assert (Hlength : length (requests (written (local_path x) (body r)
                                        (requested (segment_url x) w)))
                    = S (length (requests w)))
    by (simpl; rewrite length_app; simpl; lia).
  rewrite <- Hlength.
  constructor.
  - apply stored_keeps. apply lookup_insert_is_Some'. by left.
  - apply IH. by apply (delivered_tail env x plan w).
Qed.

End EndFacts.

(** X17.  A duration tag whose number [float()] rejects ends the run,
    wherever it stands in the manifest, also after the last URL: the
    [ValueError] is printed after [Error:], naming the number by its
    [repr], and the process exits with status 1; no segment is requested
    and no file is written, also for the entries before the tag. *)
Theorem unreadable_tag_ends_run (F : Type) (HF : PyFloat F) (env : environment)
    (m3u8_url output_file : string) (start_time end_time : option string) (w : world)
    (response : response) (before : list string) (tag : string) (after : list string)
    (number : string) :
  requests_get env (length (requests w)) m3u8_url = inr response ->
  Str.splitlines (text response) = before ++ tag :: after ->
  Forall (readable (F:=F)) before ->
  Str.startswith "#EXTINF:" tag = true ->
  extinf_duration (F:=F) tag = Raise (ValueError (NotAFloat number)) ->
  main (F:=F) env m3u8_url output_file start_time end_time w
  = (SysExit 1,
     printed ("Error: could not convert string to float: " +:+ Str.repr number)
       (requested m3u8_url w)).
Proof.
  intros Hget Hlines Hbefore Htag Hbad.
  assert (Hparse : parse_m3u8_file (F:=F) (text response)
                   = Raise (ValueError (NotAFloat number))).
  { unfold parse_m3u8_file. rewrite Hlines. by apply parse_lines_first_bad. }
  unfold main, download_video, create_segments_directory, download_m3u8_file,
    bind, get, ret, lift.
  rewrite Hget. simpl. by rewrite Hparse.
Qed.

(** A tag whose number ends in a tab after two good entries: the number
    is printed between quotes with the tab as [\t]. *)
Lemma unreadable_tag_ends_run_witness :
  main (F:=float)
    (serve "http://h/v.m3u8"
       (manifest ["#EXTM3U"; "#EXTINF:4.0,"; "http://h/1.ts";
                  "#EXTINF:4 s" +:+ String "009" ","; "http://h/2.ts"])
       [] true)
    "http://h/v.m3u8" "ft_video.mp4" None None empty_world
  = (SysExit 1,
     {| files := ∅;
        stdout := ["Error: could not convert string to float: '4 s\t'"];
        requests := ["http://h/v.m3u8"];
        commands := [] |}).
Proof.
  etrans; [|shelve].
  apply (unreadable_tag_ends_run float binary64 _ _ _ _ _ _
           {| text := manifest ["#EXTM3U"; "#EXTINF:4.0,"; "http://h/1.ts";
                                "#EXTINF:4 s" +:+ String "009" ","; "http://h/2.ts"];
              iter_content :=
                [manifest ["#EXTM3U"; "#EXTINF:4.0,"; "http://h/1.ts";
                           "#EXTINF:4 s" +:+ String "009" ","; "http://h/2.ts"]];
              stream_error := None |}
           ["#EXTM3U"; "#EXTINF:4.0,"; "http://h/1.ts"]
           ("#EXTINF:4 s" +:+ String "009" ",") ["http://h/2.ts"]
           ("4 s" +:+ String "009" "")).
  - reflexivity.
  - vm_compute. reflexivity.
  - repeat constructor; intros Htag; try discriminate. by exists 4%float.
  - reflexivity.
  - vm_compute. reflexivity.
  Unshelve. vm_compute. reflexivity.
Defined.

(** X18.  A run ends in one of six ways: it returns; it calls
    [sys.exit(1)]; or one of four exceptions leaves the program, the
    [KeyError] of an entry without ['duration'], the [RequestException]
    of a broken stream, the [IsADirectoryError] of a local path that
    names a directory, or the [OverflowError] of the progress bar.  No
    [ValueError] and no [IndexError] leaves the program: every
    [ValueError], whether of a duration tag, of a time string, of a file
    name with a null character or of the progress bar, ends in
    [sys.exit(1)].  The exit status of the process is 0 or 1. *)
Theorem main_outcomes (F : Type) (HF : PyFloat F) (env : environment)
    (m3u8_url output_file : string) (start_time end_time : option string) (w : world) :
  ((main (F:=F) env m3u8_url output_file start_time end_time w).1 = Return tt
   \/ (main (F:=F) env m3u8_url output_file start_time end_time w).1 = SysExit 1
   \/ (main (F:=F) env m3u8_url output_file start_time end_time w).1
      = Raise (KeyError "duration")
   \/ (exists e, (main (F:=F) env m3u8_url output_file start_time end_time w).1
                 = Raise (RequestException e))
   \/ (exists path, (main (F:=F) env m3u8_url output_file start_time end_time w).1
                    = Raise (IsADirectoryError path))
   \/ (exists text, (main (F:=F) env m3u8_url output_file start_time end_time w).1
                    = Raise (OverflowError text)))
  /\ (forall why, (main (F:=F) env m3u8_url output_file start_time end_time w).1
                  <> Raise (ValueError why))
  /\ (main (F:=F) env m3u8_url output_file start_time end_time w).1 <> Raise IndexError
  /\ (exit_status (main (F:=F) env m3u8_url output_file start_time end_time w).1 = 0
      \/ exit_status (main (F:=F) env m3u8_url output_file start_time end_time w).1 = 1).
Proof.
  assert (Hways :
    (main (F:=F) env m3u8_url output_file start_time end_time w).1 = Return tt
    \/ (main (F:=F) env m3u8_url output_file start_time end_time w).1 = SysExit 1
    \/ (main (F:=F) env m3u8_url output_file start_time end_time w).1
       = Raise (KeyError "duration")
    \/ (exists e, (main (F:=F) env m3u8_url output_file start_time end_time w).1
                  = Raise (RequestException e))
    \/ (exists path, (main (F:=F) env m3u8_url output_file start_time end_time w).1
                     = Raise (IsADirectoryError path))
    \/ (exists text, (main (F:=F) env m3u8_url output_file start_time end_time w).1
                     = Raise (OverflowError text))).
  { unfold main, download_video, create_segments_directory, download_m3u8_file,
      bind, get, ret, lift.
    destruct (requests_get env (length (requests w)) m3u8_url) as [e|response]; simpl;
      [by right; left|].
    unfold parse_m3u8_file.
    destruct (parse_lines_outcome (F:=F) (Str.splitlines (text response)) None [])
      as [[_ [segment_urls ->]]|(? & ? & ? & number & _ & _ & _ & _ & ->)];
      [|by right; left].
    rewrite download_segments_unfold.
    destruct (omap_with_duration segment_urls) as [[descriptors ->]|[-> _]];
      [|by right; right; left].
    destruct (select_window_outcome (f_sum (map segment_duration descriptors))
                start_time end_time) as [[[s t] ->]|[why ->]];
      [|by right; left].
    destruct (download_all_outcome env (build_plan s t descriptors (of_int 0)) []
                (requested m3u8_url w))
      as [(l & w' & ->)|[(w' & ->)|(e & w' & -> & He)]].
    - unfold create_concat_file, combine_segments, cleanup_files, bind, write_file,
        ret, print, sys_exit. simpl.
      destruct (ffmpeg env); simpl; [by left | by right; left].
    - by right; left.
    - destruct e as [[]| | | | |]; try done; simpl.
      + by right; left.
      + right; right; right; left. by eexists.
      + right; right; right; right; left. by eexists.
      + right; right; right; right; right. by eexists. }
  split; [exact Hways|].
  destruct Hways as [->|[->|[->|[[e ->]|[[path ->]|[text ->]]]]]]; simpl;
    repeat split; auto; try done.
Qed.

(** ** A start time past the end *)

Section PastTheEnd.

Context {F : Type} `{OrderedAdd F}.

Local Open Scope pyfloat_scope.

(** While the clock stays below the start at the end of the list, every
    descriptor is skipped. *)
Lemma build_plan_none (start_time end_time : F) (segment_urls : list descriptor) (t : F) :
  (of_int 0 <=? t) = true -> nonnegative segment_urls ->
  (time_after t segment_urls <? start_time) = true ->
  build_plan start_time end_time segment_urls t = [].
Proof.
  intros Ht Hnn. revert t Ht.
  induction Hnn as [|x segment_urls Hx Hnn IH]; intros t Ht Hlate; [done|].
  destruct (f_add_nonneg t (segment_duration x) Ht Hx) as [_ Hpos].
  assert (Hskip : (t + segment_duration x <? start_time) = true).
  { destruct segment_urls as [|y segment_urls]; [exact Hlate|].
    apply f_le_lt_trans with (time_after (t + segment_duration x) (y :: segment_urls));
      [|exact Hlate].
    by apply time_after_increases. }
  simpl. unfold loop_action. rewrite Hskip. by apply IH.
Qed.

End PastTheEnd.

(** X19.  A start time that the clock of the loop never reaches, the
    durations of the manifest being non-negative, is no error: every
    entry is skipped, and [download_segments] returns the empty list
    without a request, a file or a call of [print]. *)
Theorem start_past_the_end (F : Type) (HF : PyFloat F) (HO : OrderedAdd F)
    (env : environment) (segment_urls : list (segment (F:=F)))
    (descriptors : list descriptor) (start_time end_time : option string)
    (window : F * F) (w : world) :
  omap with_duration segment_urls = Return descriptors ->
  nonnegative descriptors ->
  select_window (f_sum (map segment_duration descriptors)) start_time end_time
  = Return window ->
  (time_after (of_int 0) descriptors <? window.1) = true ->
  build_plan window.1 window.2 descriptors (of_int 0) = []
  /\ download_segments env segment_urls start_time end_time w = (Return [], w).
Proof.
  intros Hdur Hnn Hwindow Hlate.
  assert (Hplan : build_plan window.1 window.2 descriptors (of_int 0) = []).
  { apply build_plan_none; [apply f_le_zero | done | done]. }
  split; [exact Hplan|].
  rewrite download_segments_unfold, Hdur, Hwindow.
  destruct window as [s t]. simpl in Hplan. rewrite Hplan.
  unfold download_all. by rewrite with_progress_bar_idle.
Qed.

(** Eight seconds of video and a start at one hour. *)
Lemma start_past_the_end_witness :
  download_segments (serve "" "" [] false)
    [{| duration := Some 4%float; url := "http://h/1.ts" |};
     {| duration := Some 4%float; url := "http://h/2.ts" |}]
    (Some "01:00:00") None empty_world
  = (Return [], empty_world).
Proof.
  refine (proj2 (start_past_the_end float binary64 binary64_ordered
                   (serve "" "" [] false)
                   [{| duration := Some 4%float; url := "http://h/1.ts" |};
                    {| duration := Some 4%float; url := "http://h/2.ts" |}]
                   [seg "http://h/1.ts" 4; seg "http://h/2.ts" 4]
                   (Some "01:00:00") None (3600%float, 8%float) empty_world
                   _ _ _ _));
    [reflexivity | repeat constructor | vm_compute; reflexivity | reflexivity].
Defined.

(** ** The files behind the returned paths *)

(** X20.  When [download_segments] returns, every path of its list
    names a file that exists: the concatenation manifest lists no
    missing file. *)
Theorem listed_files_exist (F : Type) (HF : PyFloat F) (env : environment)
    (segment_urls : list (segment (F:=F))) (start_time end_time : option string)
    (w : world) (segment_files : list string) (w' : world) :
  download_segments env segment_urls start_time end_time w = (Return segment_files, w') ->
  Forall (fun path => is_Some (files w' !! path)) segment_files.
Proof.
  intros Hrun. rewrite download_segments_unfold in Hrun.
  destruct (omap with_duration segment_urls) as [descriptors|e|code]; try done.
  destruct (select_window _ start_time end_time) as [[s t]|e|code]; try done.
  destruct (download_all_inv env _ _ _ _ _ Hrun) as (Hloop & -> & Hok).
  rewrite (fetch_all_returns env _ _ _ Hok) in Hloop.
  injection Hloop as <-. simpl. rewrite List.Forall_map.
  by apply stored_is_Some.
Qed.

(** Two segments fetched from the sample server. *)
Lemma listed_files_exist_witness :
  Forall (fun path =>
            is_Some (files (download_segments (serve "" "" [] false)
                              [{| duration := Some 4%float; url := "http://h/1.ts" |};
                               {| duration := Some 4%float; url := "http://h/2.ts" |}]
                              None None empty_world).2
                     !! path))
    ["segments/1.ts"; "segments/2.ts"].
Proof.
  apply (listed_files_exist float binary64 (serve "" "" [] false)
           [{| duration := Some 4%float; url := "http://h/1.ts" |};
            {| duration := Some 4%float; url := "http://h/2.ts" |}]
           None None empty_world).
  apply injective_projections; [vm_compute; reflexivity | reflexivity].
Defined.

(** ** Line ends of the manifest *)

Section LineEnds.

Lemma splitlines_cons (c c' : ascii) (rest : string) :
  Str.splitlines (String c (String c' rest))
  = if Str.is_linebreak c
    then "" :: (if (Ascii.eqb c "013" && Ascii.eqb c' "010")%bool
                then Str.splitlines rest
                else Str.splitlines (String c' rest))
    else match Str.splitlines (String c' rest) with
         | [] => [String c ""]
         | l :: ls => String c l :: ls
         end.
Proof. reflexivity. Qed.

Lemma splitlines_lf (line rest : string) :
  one_line line = true ->
  Str.splitlines (line +:+ String "010" rest) = line :: Str.splitlines rest.
Proof.
  induction line as [|c line IH]; intros Hline.
  - rewrite append_nil_l. by destruct rest.
  - simpl in Hline. apply andb_true_iff in Hline as [Hc%negb_true_iff Hline].
    specialize (IH Hline). rewrite append_cons.
    destruct (line +:+ String "010" rest) as [|c' tail] eqn:Htail.
    + by destruct line.
    + rewrite splitlines_cons, Hc, IH. done.
Qed.

Lemma splitlines_crlf (line rest : string) :
  one_line line = true ->
  Str.splitlines (line +:+ String "013" (String "010" rest)) = line :: Str.splitlines rest.
Proof.
  induction line as [|c line IH]; intros Hline.
  - by rewrite append_nil_l.
  - simpl in Hline. apply andb_true_iff in Hline as [Hc%negb_true_iff Hline].
    specialize (IH Hline). rewrite append_cons.
    destruct (line +:+ String "013" (String "010" rest)) as [|c' tail] eqn:Htail.
    + by destruct line.
    + rewrite splitlines_cons, Hc, IH. done.
Qed.

Lemma splitlines_manifest (lines : list string) :
  Forall (fun line => one_line line = true) lines ->
  Str.splitlines (manifest lines) = lines.
Proof.
  unfold manifest, nl. induction 1 as [|line lines Hline _ IH]; [done|].
  simpl. rewrite append_assoc, append_cons, append_nil_l.
  by rewrite splitlines_lf, IH.
Qed.

Lemma splitlines_manifest_crlf (lines : list string) :
  Forall (fun line => one_line line = true) lines ->
  Str.splitlines (manifest_crlf lines) = lines.
Proof.
  unfold manifest_crlf, crlf. induction 1 as [|line lines Hline _ IH]; [done|].
  simpl. rewrite append_assoc, !append_cons, append_nil_l.
  by rewrite splitlines_crlf, IH.
Qed.

End LineEnds.

(** X21.  The parser reads a manifest line by line whatever ends the
    lines: the same lines ended by LF or by CR LF give the same result,
    entries or error, and it is the result of the loop of the parser on
    these lines. *)
Theorem line_ends (F : Type) (HF : PyFloat F) (lines : list string) :
  Forall (fun line => one_line line = true) lines ->
  parse_m3u8_file (F:=F) (manifest_crlf lines) = parse_m3u8_file (manifest lines)
  /\ parse_m3u8_file (F:=F) (manifest lines) = parse_lines lines None [].
Proof.
  intros Hlines. unfold parse_m3u8_file.
  by rewrite splitlines_manifest, splitlines_manifest_crlf.
Qed.

(** A manifest of three lines, with CR LF and with LF. *)
Lemma line_ends_witness :
  parse_m3u8_file (F:=float) (manifest_crlf ["#EXTM3U"; "#EXTINF:4.0,"; "http://h/1.ts"])
  = parse_m3u8_file (manifest ["#EXTM3U"; "#EXTINF:4.0,"; "http://h/1.ts"]).
Proof.
  refine (proj1 (line_ends float binary64
                   ["#EXTM3U"; "#EXTINF:4.0,"; "http://h/1.ts"] _)).
  repeat constructor.
Defined.

(** ** What a run prints *)

Section PrintFacts.

Context {F : Type} `{PyFloat F}.
Variable env : environment.

Lemma segment_error_prefix (x : descriptor (F:=F)) (e : string) :
  Str.startswith "Error" (segment_error x e) = true.
Proof. reflexivity. Qed.

(** What the loop prints under the progress bar: the line of a refused
    request when it exits, and at most that line when it raises. *)
Lemma download_all_stdout (plan : list (descriptor (F:=F))) segment_files w :
  exists lines,
    stdout (download_all env plan segment_files w).2 = stdout w ++ lines
    /\ Forall (fun line => Str.startswith "Error" line = true) lines
    /\ match (download_all env plan segment_files w).1 with
       | Return _ => lines = []
       | SysExit code => code = 1 /\ length lines = 1%nat
       | Raise e => loop_exn e /\ (length lines <= 1)%nat
       end.
Proof.
  pose proof (fetch_all_frame env plan segment_files w) as (_ & _ & _ & Hstdout).
  pose proof (fetch_all_outcome env plan segment_files w) as Hways.
  unfold download_all, with_progress_bar.
  destruct (fetch_all env plan segment_files w) as [r w'].
  simpl in Hstdout.
  assert (Hlines : exists lines,
             stdout w' = stdout w ++ lines
             /\ Forall (fun line => Str.startswith "Error" line = true) lines
             /\ match r with
                | Return _ => lines = []
                | SysExit code => code = 1 /\ length lines = 1%nat
                | Raise e => loop_exn e /\ lines = []
                end).
  { destruct r as [l|e|code].
    - exists []. by rewrite app_nil_r.
    - exists []. rewrite app_nil_r. repeat split; try done.
      destruct Hways as [(? & ? & [=])|[(? & [=])|(e' & ? & [= -> _] & He)]]. done.
    - destruct Hstdout as (-> & x & e & _ & ->). exists [segment_error x e].
      repeat split. by repeat constructor. }
  destruct Hlines as (lines & Hout & Hall & Hkind).
  exists lines.
  destruct (_ =? _)%nat; [|destruct (tqdm_close env _) as [err|]]; simpl;
    (split; [done|]); (split; [done|]).
  - destruct r as [l|e|code]; try done. destruct Hkind as [He ->].
    split; [done | simpl; lia].
  - split; [apply bar_exn_loop|].
    destruct r as [l|e|code];
      [subst; simpl; lia | destruct Hkind as [_ ->]; simpl; lia|].
    destruct Hkind as [_ Hlength]. lia.
  - destruct r as [l|e|code]; try done. destruct Hkind as [He ->].
    split; [done | simpl; lia].
Qed.

End PrintFacts.

(** X22.  A run calls [print] at most twice.  A run that returns has
    printed the line that the video is saved and nothing else.  A run
    that ends by [sys.exit(1)] has printed one line or two, each
    starting with [Error]: two when the line of a refused segment
    request is followed by the [ValueError] of the closing progress bar.
    A run that ends by an exception that escapes has printed nothing, or
    the line of a refused segment request. *)
Theorem main_prints (F : Type) (HF : PyFloat F) (env : environment)
    (m3u8_url output_file : string) (start_time end_time : option string) (w : world) :
  exists lines,
    stdout (main (F:=F) env m3u8_url output_file start_time end_time w).2
    = stdout w ++ lines
    /\ match (main (F:=F) env m3u8_url output_file start_time end_time w).1 with
       | Return _ => lines = [video_saved_line output_file]
       | SysExit _ =>
           (1 <= length lines <= 2)%nat
           /\ Forall (fun line => Str.startswith "Error" line = true) lines
       | Raise _ =>
           (length lines <= 1)%nat
           /\ Forall (fun line => Str.startswith "Error" line = true) lines
       end.
Proof.
  unfold main, download_video, create_segments_directory, download_m3u8_file,
    bind, get, ret, lift.
  destruct (requests_get env (length (requests w)) m3u8_url) as [e|response]; simpl;
    [eexists [_]; split; [done|]; split; [simpl; lia | by repeat constructor]|].
  unfold parse_m3u8_file.
  destruct (parse_lines_outcome (F:=F) (Str.splitlines (text response)) None [])
    as [[_ [segment_urls ->]]|(? & ? & ? & number & _ & _ & _ & _ & ->)];
    [|eexists [_]; split; [done|]; split; [simpl; lia | by repeat constructor]].
  rewrite download_segments_unfold.
  destruct (omap_with_duration segment_urls) as [[descriptors ->]|[-> _]];
    [|exists []; simpl; rewrite app_nil_r; repeat split; [lia | constructor]].
  destruct (select_window_outcome (f_sum (map segment_duration descriptors))
              start_time end_time) as [[[s t] ->]|[why ->]];
    [|eexists [_]; split; [done|]; split; [simpl; lia | by repeat constructor]].
  destruct (download_all_stdout env (build_plan s t descriptors (of_int 0)) []
              (requested m3u8_url w)) as (lines & Hstdout & Hall & Hkind).
  destruct (download_all env (build_plan s t descriptors (of_int 0)) []
              (requested m3u8_url w)) as [[l|e|code] w'];
    simpl in Hstdout, Hkind.
  - subst lines. rewrite app_nil_r in Hstdout.
    unfold create_concat_file, combine_segments, cleanup_files, bind, write_file,
      ret, print, sys_exit. simpl.
    destruct (ffmpeg env); simpl; rewrite Hstdout.
    + by eexists [_].
    + eexists [_]. split; [done|]. split; [simpl; lia | by repeat constructor].
  - destruct Hkind as [He Hlength].
    destruct e as [[| | |message]| | | | |]; try done; simpl.
    + exists (lines ++ ["Error: " +:+ message]). rewrite Hstdout, <- app_assoc.
      split; [done|]. rewrite length_app. simpl. split; [lia|].
      apply Forall_app. split; [done | by repeat constructor].
    + by exists lines.
    + by exists lines.
    + by exists lines.
  - destruct Hkind as [-> Hlength]. exists lines. simpl.
    split; [done|]. split; [lia | done].
Qed.
